(** * Habit-tracking notification bot: a shallow embedding and its properties

    The development follows the Python sources module by module:

    - [Py]                the few built-ins the program relies on
                          (exceptions, [str.lower], [in] on strings,
                          [str.split], [int]);
    - [LanguageManager]   language_manager.py: habit phrase lists and the
                          habit classifier;
    - [HabitTracker]      models.py: the two tables, the storage operations
                          and their fail-soft wrappers;
    - [MessageScheduler]  scheduler.py: the retry loop of the daily job and
                          the computation of the next run time;
    - [TelegramBot]       bot.py: [send_message] and [send_daily_message];
    - [StoreHistory]      models.py: the store under sequences of calls;
    - [ConfigValidation]  config.py and cli.py: [Config.validate] and the
                          configuration editor;
    - [LanguageFiles]     language_manager.py: [load_languages], [get_text]
                          and [get_daily_message];
    - [SchedulerLifecycle] scheduler.py: [_setup_schedule], [start], [stop]
                          and [reschedule];
    - [Handlers]          bot.py: the filter and the handler of habit
                          messages, the handler of the language buttons;
    - [SentLog]           bot.py: [_log_sent_message].

    Python strings are modelled as [string] (the UTF-8 bytes of the text),
    Python integers as [Z], dictionaries as [gmap], and a [try]/[except]
    block as a match on a [Result]. *)

From Stdlib Require Import ZArith Ascii String List Lia.
From stdpp Require Import base option list gmap strings pretty.
From Equations Require Import Equations.

Local Open Scope string_scope.
Local Open Scope Z_scope.

(* ===================================================================== *)
(** ** Python built-ins used by the program *)
(* ===================================================================== *)

Module Py.

(** Exceptions that the modelled code paths can raise. *)
Inductive Exn : Type :=
| KeyError (key : string)
| ValueError (msg : string)
| OverflowError (msg : string)
| UnknownTimeZoneError (zone : string)
| OperationalError (msg : string)      (* psycopg2: connection or query failure *)
| ApiException (msg : string).         (* telebot: the transport refused the call *)

(** [str(e)].  A [KeyError] prints the [repr] of its key. *)
Definition str (e : Exn) : string :=
  match e with
  | KeyError k => "'" +:+ k +:+ "'"
  | ValueError m => m
  | OverflowError m => m
  | UnknownTimeZoneError z => "'" +:+ z +:+ "'"
  | OperationalError m => m
  | ApiException m => m
  end.

(** The outcome of evaluating an expression: a value or a raised exception. *)
Inductive Result (A : Type) : Type :=
| Ok (a : A)
| Raise (e : Exn).
Arguments Ok {A} a.
Arguments Raise {A} e.

Definition bind {A B} (r : Result A) (k : A -> Result B) : Result B :=
  match r with
  | Ok a => k a
  | Raise e => Raise e
  end.

(** [d[k]] on a dictionary with string keys. *)
Definition getitem {V} (d : gmap string V) (k : string) : Result V :=
  match d !! k with
  | Some v => Ok v
  | None => Raise (KeyError k)
  end.

(** [str.lower] restricted to ASCII letters; every other byte is kept.
    It agrees with Python on texts whose cased characters are ASCII
    (Arabic script has no case). *)
Definition lower_ascii (c : ascii) : ascii :=
  let n := N_of_ascii c in
  if ((65 <=? n) && (n <=? 90))%N then ascii_of_N (n + 32) else c.

Fixpoint ascii_lower (s : string) : string :=
  match s with
  | EmptyString => EmptyString
  | String c s' => String (lower_ascii c) (ascii_lower s')
  end.

(** [p in s] for two strings: [p] occurs in [s] at some offset. *)
Fixpoint contains (p s : string) : bool :=
  String.prefix p s ||
  match s with
  | EmptyString => false
  | String _ s' => contains p s'
  end.

(** [s.split(sep)] for a one-character separator. *)
Fixpoint split (sep : ascii) (s : string) : list string :=
  match s with
  | EmptyString => [EmptyString]
  | String c s' =>
      if Ascii.eqb c sep then EmptyString :: split sep s'
      else match split sep s' with
           | [] => [String c EmptyString]
           | w :: ws => String c w :: ws
           end
  end.

(** Digits of a decimal literal, most significant first. *)
Definition digit_of (c : ascii) : option Z :=
  let n := N_of_ascii c in
  if ((48 <=? n) && (n <=? 57))%N then Some (Z.of_N n - 48) else None.

Fixpoint digits_value (acc : Z) (s : string) : option Z :=
  match s with
  | EmptyString => Some acc
  | String c s' =>
      match digit_of c with
      | Some d => digits_value (10 * acc + d) s'
      | None => None
      end
  end.

(** [int(s)] on plain ASCII decimal literals with an optional sign.
    Python's [int] accepts more (surrounding blanks, underscores, other
    scripts' digits); the scheduler is stated over an arbitrary [int] and
    this instance serves the concrete examples. *)
Definition int_ascii (s : string) : option Z :=
  match s with
  | EmptyString => None
  | String "-" (String c r) => Z.opp <$> digits_value 0 (String c r)
  | String "+" (String c r) => digits_value 0 (String c r)
  | _ => digits_value 0 s
  end.

(** [int(s)] for a given reading [int] of the built-in: a [ValueError]
    when the text is no integer literal. *)
Definition int_of (int : string -> option Z) (s : string) : Result Z :=
  match int s with
  | Some n => Ok n
  | None => Raise (ValueError ("invalid literal for int() with base 10: '" +:+ s +:+ "'"))
  end.

(** A statement sequence running over a mutable state [S]: it returns a
    value or raises, and leaves a state behind in both cases. *)
Definition Prog (S A : Type) : Type := S -> Result A * S.

Definition ret {S A} (a : A) : Prog S A := fun s => (Ok a, s).

Definition raise {S A} (e : Exn) : Prog S A := fun s => (Raise e, s).

(** An expression that touches no state. *)
Definition eval {S A} (r : Result A) : Prog S A := fun s => (r, s).

Definition and_then {S A B} (p : Prog S A) (k : A -> Prog S B) : Prog S B :=
  fun s =>
    match p s with
    | (Ok a, s') => k a s'
    | (Raise e, s') => (Raise e, s')
    end.

(** [try: body  except Exception as e: handler e]. *)
Definition try_except {S A} (body : Prog S A) (handler : Exn -> Prog S A)
  : Prog S A :=
  fun s =>
    match body s with
    | (Ok a, s') => (Ok a, s')
    | (Raise e, s') => handler e s'
    end.

(** Log levels of the [logging] module that the program uses. *)
Inductive Level : Type := INFO | WARNING | ERROR.

End Py.

Export Py.

Declare Scope result_scope.
Delimit Scope result_scope with result.
Notation "x <- r ; k" := (Py.bind r (fun x => k))
  (at level 100, r at next level, right associativity) : result_scope.

Declare Scope prog_scope.
Delimit Scope prog_scope with prog.
Notation "x <- p ; k" := (Py.and_then p (fun x => k))
  (at level 100, p at next level, right associativity) : prog_scope.
Notation "p ;; k" := (Py.and_then p (fun _ => k))
  (at level 100, k at level 200, right associativity) : prog_scope.

(* ===================================================================== *)
(** ** language_manager.py *)
(* ===================================================================== *)

Module LanguageManager.

(** A language bundle as loaded from [english.json] / [arabic.json]; only
    the key read by the classifier is kept.  [None] stands for a bundle
    without a ["habit_patterns"] entry. *)
Record Bundle : Type := mkBundle {
  habit_patterns : option (list string)
}.

(** [self.languages]: the bundles that [load_languages] managed to load. *)
Abbreviation Languages := (gmap string Bundle).

(** The literal list returned for every language but Arabic. *)
Definition english_patterns : list string :=
  [ "i did it"; "did it"; "slipped up"; "had the habit";
    "relapsed"; "fell back"; "messed up"; "gave in";
    "happened again"; "went back to it"; "did the thing";
    "broke my streak"; "couldn't resist"; "lost control" ].

Definition get_habit_patterns_try (languages : Languages) (language : string)
  : Result (list string) :=
  (if String.eqb language "arabic" then
     b <- getitem languages "arabic";
     Ok (default [] (habit_patterns b))
   else
     Ok english_patterns)%result.

Definition get_habit_patterns (languages : Languages) (language : string)
  : list string :=
  match get_habit_patterns_try languages language with
  | Ok ps => ps
  | Raise _ => ["did it"; "slipped up"]
  end.

Section Classifier.

(** [str.lower], a built-in of the host language. *)
Variable lower : string -> string.

Definition is_habit_message_try (languages : Languages)
  (text language : string) : Result bool :=
  let patterns := get_habit_patterns languages language in
  let text_lower := lower text in
  Ok (existsb (fun pattern => contains pattern text_lower) patterns).

Definition is_habit_message (languages : Languages)
  (text language : string) : bool :=
  match is_habit_message_try languages text language with
  | Ok b => b
  | Raise _ => false
  end.

End Classifier.

End LanguageManager.

(* ===================================================================== *)
(** ** models.py *)
(* ===================================================================== *)

Module users.
(** A row of table [users]; [user_id], the primary key, is the key of the
    map that holds the rows. *)
Record Row : Type := mkRow {
  language : string;
  created_at : Z;
  updated_at : Z
}.
End users.

Module habit_entries.
(** A row of table [habit_entries].  Dates are day numbers and timestamps
    are ticks of the database clock. *)
Record Row : Type := mkRow {
  id : Z;
  user_id : Z;
  entry_date : Z;
  created_at : Z;
  notes : option string
}.
End habit_entries.

Module HabitTracker.

(** The two tables, with the sequence behind [id SERIAL]. *)
Record Tables : Type := mkTables {
  users_table : gmap Z users.Row;
  habit_entries_table : list habit_entries.Row;
  habit_entries_id_seq : Z
}.

(** The clocks read by the code: [CURRENT_DATE] and [CURRENT_TIMESTAMP] on
    the database server, [date.today()] on the host of the bot. *)
Record Clock : Type := mkClock {
  CURRENT_DATE : Z;
  CURRENT_TIMESTAMP : Z;
  today : Z
}.

(** What an operation of [HabitTracker] runs against.  [outages] is the
    fate of the coming storage interactions, one entry per [try] block
    that talks to the database ([_ensure_connection()], the statement, its
    [fetchone()] and, for a write, [commit()]): [true] when one of these
    calls raises, [false] when all go through.  Past the end of the list
    the database answers. *)
Record World : Type := mkWorld {
  tables : Tables;
  clock : Clock;
  outages : list bool;
  log : list (Level * string)
}.

Definition set_tables (t : Tables) (w : World) : World :=
  mkWorld t (clock w) (outages w) (log w).
Definition set_outages (o : list bool) (w : World) : World :=
  mkWorld (tables w) (clock w) o (log w).

Abbreviation M := (Prog World).

(** [self.logger.<level>(msg)]. *)
Definition logger (lvl : Level) (msg : string) : M unit :=
  fun w => (Ok tt, mkWorld (tables w) (clock w) (outages w) (log w ++ [(lvl, msg)])).

(** One storage interaction: the statement [stmt] runs against the tables
    unless the database fails, in which case no row is changed (the
    handlers roll back) and the driver's error is raised.  The error of the
    model is one representative of the driver's errors, and a failed
    [INSERT] leaves [habit_entries_id_seq] where it was, whereas PostgreSQL
    does not give back a sequence value it has drawn: after a failure the
    next id of the model may lie below that of the database.  No statement
    below depends on either. *)
Definition transaction {A} (stmt : Clock -> Tables -> A * Tables) : M A :=
  fun w =>
    match outages w with
    | true :: rest =>
        (Raise (OperationalError "server closed the connection unexpectedly"),
         set_outages rest w)
    | _ =>
        let (a, t) := stmt (clock w) (tables w) in
        (Ok a, set_tables t (set_outages (tail (outages w)) w))
    end.

(** *** The SQL statements *)

(** Columns returned by [INSERT ... RETURNING id, entry_date, created_at]. *)
Record Inserted : Type := mkInserted {
  ins_id : Z;
  ins_entry_date : Z;
  ins_created_at : Z
}.

(** [INSERT INTO habit_entries (user_id, notes) VALUES (%s, %s)
     RETURNING id, entry_date, created_at]. *)
Definition insert_entry (user_id : Z) (notes : option string)
  (c : Clock) (t : Tables) : option Inserted * Tables :=
  let i := habit_entries_id_seq t in
  let row := habit_entries.mkRow i user_id (CURRENT_DATE c) (CURRENT_TIMESTAMP c) notes in
  (Some (mkInserted i (CURRENT_DATE c) (CURRENT_TIMESTAMP c)),
   mkTables (users_table t) (habit_entries_table t ++ [row]) (i + 1)).

(** Rows of one user: [WHERE user_id = %s]. *)
Definition entries_of (user_id : Z) (t : Tables) : list habit_entries.Row :=
  filter (fun r => habit_entries.user_id r = user_id) (habit_entries_table t).

(** [a] comes before [b] in [ORDER BY entry_date DESC, created_at DESC]. *)
Definition sorts_before (a b : habit_entries.Row) : bool :=
  (habit_entries.entry_date b <? habit_entries.entry_date a) ||
  ((habit_entries.entry_date b =? habit_entries.entry_date a) &&
   (habit_entries.created_at b <? habit_entries.created_at a)).

(** [ORDER BY ... LIMIT 1]: the first row of the ordering.  Among rows
    that tie on both columns SQL may return any; the model takes the one
    inserted first. *)
Fixpoint order_by_limit_1 (rows : list habit_entries.Row)
  : option habit_entries.Row :=
  match rows with
  | [] => None
  | r :: rs =>
      match order_by_limit_1 rs with
      | Some r' => if sorts_before r' r then Some r' else Some r
      | None => Some r
      end
  end.

(** Columns returned by [SELECT entry_date, created_at, notes]. *)
Record LastEntry : Type := mkLastEntry {
  entry_date : Z;
  created_at : Z;
  notes : option string
}.

Definition select_last_entry (user_id : Z) (_ : Clock) (t : Tables)
  : option LastEntry * Tables :=
  ((fun r => mkLastEntry (habit_entries.entry_date r)
                         (habit_entries.created_at r)
                         (habit_entries.notes r))
     <$> order_by_limit_1 (entries_of user_id t), t).

(** [SELECT COUNT( * ) as total_count ... WHERE user_id = %s]: always one row. *)
Definition select_count (user_id : Z) (_ : Clock) (t : Tables)
  : option Z * Tables :=
  (Some (Z.of_nat (length (entries_of user_id t))), t).

(** [SELECT language FROM users WHERE user_id = %s]. *)
Definition select_language (user_id : Z) (_ : Clock) (t : Tables)
  : option string * Tables :=
  (users.language <$> users_table t !! user_id, t).

(** [INSERT INTO users (user_id, language) VALUES (%s, %s)
     ON CONFLICT (user_id) DO UPDATE SET language = EXCLUDED.language,
     updated_at = CURRENT_TIMESTAMP RETURNING language].
    Values are stored as given: column widths are not modelled. *)
Definition upsert_language (user_id : Z) (language : string)
  (c : Clock) (t : Tables) : option string * Tables :=
  let row :=
    match users_table t !! user_id with
    | Some old => users.mkRow language (users.created_at old) (CURRENT_TIMESTAMP c)
    | None => users.mkRow language (CURRENT_TIMESTAMP c) (CURRENT_TIMESTAMP c)
    end in
  (Some language,
   mkTables (<[user_id := row]> (users_table t)) (habit_entries_table t)
            (habit_entries_id_seq t)).

(** *** The operations *)

Local Open Scope prog_scope.

Definition add_entry (user_id : Z) (notes : option string) : M (option Inserted) :=
  try_except
    (result <- transaction (insert_entry user_id notes);
     logger INFO ("Added habit entry for user " +:+ pretty user_id);;
     ret result)
    (fun e =>
       logger ERROR ("Failed to add entry: " +:+ str e);;
       raise e).

Definition get_last_entry (user_id : Z) : M (option LastEntry) :=
  try_except
    (transaction (select_last_entry user_id))
    (fun e =>
       logger ERROR ("Failed to get last entry: " +:+ str e);;
       ret None).

Definition get_total_count (user_id : Z) : M Z :=
  try_except
    (result <- transaction (select_count user_id);
     ret (match result with Some n => n | None => 0 end))
    (fun e =>
       logger ERROR ("Failed to get total count: " +:+ str e);;
       ret 0).

(** [date.today()]. *)
Definition date_today : M Z := fun w => (Ok (today (clock w)), w).

Definition get_days_since_last (user_id : Z) : M (option Z) :=
  try_except
    (last_entry <- get_last_entry user_id;
     match last_entry with
     | None => ret None
     | Some last =>
         let last_date := entry_date last in
         today <- date_today;
         let days_diff := today - last_date in
         ret (Some days_diff)
     end)
    (fun e =>
       logger ERROR ("Failed to calculate days since last: " +:+ str e);;
       ret None).

(** The dictionary built by [get_user_stats]. *)
Record Stats : Type := mkStats {
  last_entry : option LastEntry;
  total_count : Z;
  days_since_last : option Z
}.

Definition get_user_stats (user_id : Z) : M (option Stats) :=
  try_except
    (last_entry <- get_last_entry user_id;
     total_count <- get_total_count user_id;
     days_since <- get_days_since_last user_id;
     ret (Some (mkStats last_entry total_count days_since)))
    (fun e =>
       logger ERROR ("Failed to get user stats: " +:+ str e);;
       ret None).

Definition set_user_language (user_id : Z) (language : string) : M string :=
  try_except
    (result <- transaction (upsert_language user_id language);
     logger INFO ("Set language for user " +:+ pretty user_id +:+ " to " +:+ language);;
     ret (match result with Some l => l | None => language end))
    (fun e =>
       logger ERROR ("Failed to set user language: " +:+ str e);;
       ret language).

Definition get_user_language (user_id : Z) : M string :=
  try_except
    (result <- transaction (select_language user_id);
     match result with
     | Some l => ret l
     | None => set_user_language user_id "english"
     end)
    (fun e =>
       logger ERROR ("Failed to get user language: " +:+ str e);;
       ret "english").

(** *** Vocabulary of the statements about the store *)

(** The [i]-th of the coming storage interactions fails. *)
Definition fails (i : nat) (w : World) : bool :=
  match outages w !! i with
  | Some true => true
  | _ => false
  end.

(** The next [n] storage interactions go through. *)
Definition answers (n : nat) (w : World) : Prop :=
  forallb (fun i => negb (fails i w)) (List.seq 0 n) = true.

(** What a read leaves behind: the tables and the clock as they were, the
    schedule one interaction further. *)
Definition read_step (w w' : World) : Prop :=
  tables w' = tables w /\ clock w' = clock w /\ outages w' = tail (outages w).

(** [e] is a most recent entry of the user: no entry of theirs comes before
    it in the order of [get_last_entry]. *)
Definition most_recent (user_id : Z) (t : Tables) (e : habit_entries.Row) : Prop :=
  e ∈ entries_of user_id t /\
  forall e', e' ∈ entries_of user_id t -> sorts_before e' e = false.

(** [recorded u n w w']: from [w] the store reached [w'] through [n]
    successful calls of [add_entry] for [u], with anything in between that
    leaves the entries of [u] alone (time passing, failed calls, other
    users, language changes). *)
Inductive recorded (user_id : Z) : nat -> World -> World -> Prop :=
| recorded_start w :
    recorded user_id 0 w w
| recorded_entry n w w1 w2 notes row :
    recorded user_id n w w1 ->
    add_entry user_id notes w1 = (Ok row, w2) ->
    recorded user_id (S n) w w2
| recorded_other n w w1 w2 :
    recorded user_id n w w1 ->
    entries_of user_id (tables w2) = entries_of user_id (tables w1) ->
    recorded user_id n w w2.

(** *** Sample stores *)

Definition noon : Clock := mkClock 19000 1641600000 19000.

(** A store without rows, facing the storage schedule [o]. *)
Definition fresh_world (o : list bool) : World :=
  mkWorld (mkTables ∅ [] 1) noon o [].

(** User 7 recorded one entry today; the schedule [o] lies ahead. *)
Definition one_entry_world (o : list bool) : World :=
  mkWorld (mkTables ∅ [habit_entries.mkRow 1 7 19000 1641600000 None] 2) noon o [].

(** User 7 chose Arabic earlier; the schedule [o] lies ahead. *)
Definition arabic_world (o : list bool) : World :=
  mkWorld (mkTables {[ 7 := users.mkRow "arabic" 1641500000 1641500000 ]} [] 1)
          noon o [].

End HabitTracker.

(* ===================================================================== *)
(** ** config.py *)
(* ===================================================================== *)

Module Config.

Record t : Type := mk {
  bot_token : string;
  chat_id : string;
  schedule_time : string;
  timezone : string;
  include_date : bool;
  retry_attempts : Z;
  retry_delay : Z
}.

(** The numeric checks of [Config.validate]: at least one attempt, no
    negative delay. *)
Definition validate_numeric (c : t) : bool :=
  negb (retry_attempts c <? 1) && negb (retry_delay c <? 0).

End Config.

(* ===================================================================== *)
(** ** The [datetime] values handled by the scheduler *)
(* ===================================================================== *)

Module datetime.

(** An aware [datetime]: the wall-clock fields and the name that [%Z]
    prints for the attached zone. *)
Record t : Type := mk {
  year : Z; month : Z; day : Z;
  hour : Z; minute : Z; second : Z; microsecond : Z;
  tzname : string
}.

Definition is_leap (y : Z) : bool :=
  (y mod 4 =? 0) && (negb (y mod 100 =? 0) || (y mod 400 =? 0)).

Definition days_in_month (y m : Z) : Z :=
  if m =? 2 then (if is_leap y then 29 else 28)
  else if (m =? 4) || (m =? 6) || (m =? 9) || (m =? 11) then 30
  else 31.

Definition MAXYEAR : Z := 9999.

(** A date that the [datetime] constructor accepts. *)
Definition valid_date (d : t) : Prop :=
  1 <= year d <= MAXYEAR /\ 1 <= month d <= 12 /\
  1 <= day d <= days_in_month (year d) (month d).

(** The last day a [datetime] can hold. *)
Definition is_max_date (d : t) : Prop :=
  year d = MAXYEAR /\ month d = 12 /\ day d = 31.

(** The day and zone of [dt] at [h]:[m]:00. *)
Definition at_time (dt : t) (h m : Z) : t :=
  mk (year dt) (month dt) (day dt) h m 0 0 (tzname dt).

(** [dt.replace(hour=h, minute=m, second=0, microsecond=0)]. *)
Definition replace_time (dt : t) (h m : Z) : Result t :=
  if negb ((0 <=? h) && (h <=? 23)) then
    Raise (ValueError "hour must be in 0..23")
  else if negb ((0 <=? m) && (m <=? 59)) then
    Raise (ValueError "minute must be in 0..59")
  else
    Ok (at_time dt h m).

(** [dt + timedelta(days=1)]: the same time on the next calendar day. *)
Definition plus_one_day (dt : t) : Result t :=
  if day dt <? days_in_month (year dt) (month dt) then
    Ok (mk (year dt) (month dt) (day dt + 1)
           (hour dt) (minute dt) (second dt) (microsecond dt) (tzname dt))
  else if month dt <? 12 then
    Ok (mk (year dt) (month dt + 1) 1
           (hour dt) (minute dt) (second dt) (microsecond dt) (tzname dt))
  else if year dt <? MAXYEAR then
    Ok (mk (year dt + 1) 1 1
           (hour dt) (minute dt) (second dt) (microsecond dt) (tzname dt))
  else
    Raise (OverflowError "date value out of range").

(** Comparison of two values that carry the same zone: field by field. *)
Definition fields (dt : t) : list Z :=
  [year dt; month dt; day dt; hour dt; minute dt; second dt; microsecond dt].

Fixpoint lex_compare (a b : list Z) : comparison :=
  match a, b with
  | [], [] => Eq
  | [], _ :: _ => Lt
  | _ :: _, [] => Gt
  | x :: a', y :: b' =>
      match x ?= y with
      | Eq => lex_compare a' b'
      | c => c
      end
  end.

Definition compare (a b : t) : comparison := lex_compare (fields a) (fields b).

Definition leb (a b : t) : bool :=
  match compare a b with Gt => false | _ => true end.

Definition lt (a b : t) : Prop := compare a b = Lt.

(** Day number of a date, counting 0001-01-01 as day 1 ([toordinal]). *)
Definition days_before_year (y : Z) : Z :=
  let p := y - 1 in p * 365 + p / 4 - p / 100 + p / 400.

Fixpoint days_before_month_nat (y : Z) (m : nat) : Z :=
  match m with
  | O => 0
  | S k => days_before_month_nat y k + days_in_month y (Z.of_nat (S k))
  end.

Definition days_before_month (y m : Z) : Z :=
  days_before_month_nat y (Z.to_nat (m - 1)).

Definition toordinal (d : t) : Z :=
  days_before_year (year d) + days_before_month (year d) (month d) + day d.

(** [strftime] fields: decimal, zero-padded on the left to [width]. *)
Fixpoint zeros (n : nat) : string :=
  match n with
  | O => EmptyString
  | S k => String "0" (zeros k)
  end.

Definition zfill (width : nat) (n : Z) : string :=
  let s := pretty n in
  zeros (width - String.length s) +:+ s.

(** [dt.strftime("%Y-%m-%d %H:%M:%S %Z")]. *)
Definition strftime (dt : t) : string :=
  zfill 4 (year dt) +:+ "-" +:+ zfill 2 (month dt) +:+ "-" +:+ zfill 2 (day dt)
  +:+ " " +:+ zfill 2 (hour dt) +:+ ":" +:+ zfill 2 (minute dt) +:+ ":"
  +:+ zfill 2 (second dt) +:+ " " +:+ tzname dt.

(** The text [s] is the number [n] in exactly [width] decimal digits. *)
Definition written (width : nat) (n : Z) (s : string) : Prop :=
  String.length s = width /\ digits_value 0 s = Some n.

End datetime.

(* ===================================================================== *)
(** ** scheduler.py *)
(* ===================================================================== *)

Module MessageScheduler.

(** What [_send_scheduled_message] does to its collaborators, in order:
    calls of [self.bot.send_daily_message()], of [time.sleep(secs)] and of
    [self.bot.send_message(text)]. *)
Inductive Call : Type :=
| Job
| Sleep (secs : Z)
| Notify (text : string).

Definition nl : string := String "010" EmptyString.

(** Readings of a list of calls: how often the job ran, the lengths slept,
    the texts sent. *)
Definition jobs (cs : list Call) : nat :=
  length (List.filter (fun c => match c with Job => true | _ => false end) cs).

Definition sleeps (cs : list Call) : list Z :=
  flat_map (fun c => match c with Sleep d => [d] | _ => [] end) cs.

Definition notifications (cs : list Call) : list string :=
  flat_map (fun c => match c with Notify t => [t] | _ => [] end) cs.

(** [m] attempts that all fail: the job, a sleep, the job, ... and after
    the last attempt the notification. *)
Fixpoint exhausted_calls (m : nat) (delay : Z) (text : string) : list Call :=
  match m with
  | O => []
  | S O => [Job; Notify text]
  | S m' => Job :: Sleep delay :: exhausted_calls m' delay text
  end.

(** [k] attempts of which the last succeeds: the job, a sleep, the job, ...
    ending with the job. *)
Fixpoint succeeded_calls (k : nat) (delay : Z) : list Call :=
  match k with
  | O => []
  | S O => [Job]
  | S k' => Job :: Sleep delay :: succeeded_calls k' delay
  end.

Definition raised {A} (r : Result A) : bool :=
  match r with
  | Raise _ => true
  | Ok _ => false
  end.

Section Firing.

(** The bot handed to the scheduler: its state and the two methods the
    scheduler calls. *)
Context {B : Type}.
Variable send_daily_message : Prog B unit.
Variable send_message : string -> Prog B unit.

Variable config : Config.t.

Record State : Type := mkState {
  bot : B;
  calls : list Call;
  log : list (Level * string)
}.

Abbreviation M := (Prog State).

Definition logger (lvl : Level) (msg : string) : M unit :=
  fun s => (Ok tt, mkState (bot s) (calls s) (log s ++ [(lvl, msg)])).

(** Run a method of the bot, recording the call. *)
Definition call {A} (c : Call) (method : Prog B A) : M A :=
  fun s =>
    let (r, b) := method (bot s) in
    (r, mkState b (calls s ++ [c]) (log s)).

(** [time.sleep(secs)] refuses a negative length. *)
Definition sleep (secs : Z) : M unit :=
  fun s =>
    if secs <? 0 then (Raise (ValueError "sleep length must be non-negative"), s)
    else (Ok tt, mkState (bot s) (calls s ++ [Sleep secs]) (log s)).

Definition error_msg (max_attempts : Z) (e : Exn) : string :=
  "❌ Failed to send daily message after " +:+ pretty max_attempts
  +:+ " attempts." +:+ nl +:+ "Last error: " +:+ str e.

(** How the body of the [while] loop ends. *)
Inductive Flow : Type := Return | Continue.

Local Open Scope prog_scope.

(** The body of [while attempt <= max_attempts]. *)
Definition attempt_once (attempt max_attempts : Z) : M Flow :=
  try_except
    (logger INFO ("Sending daily message (attempt " +:+ pretty attempt
                  +:+ "/" +:+ pretty max_attempts +:+ ")");;
     call Job send_daily_message;;
     logger INFO "Daily message sent successfully";;
     ret Return)
    (fun e =>
       logger ERROR ("Attempt " +:+ pretty attempt +:+ " failed: " +:+ str e);;
       (if attempt <? max_attempts then
          logger INFO ("Retrying in " +:+ pretty (Config.retry_delay config)
                       +:+ " seconds...");;
          sleep (Config.retry_delay config)
        else
          logger ERROR "All retry attempts failed";;
          try_except
            (let text := error_msg max_attempts e in
             call (Notify text) (send_message text))
            (fun _ => logger ERROR "Failed to send error notification"));;
       ret Continue).

Equations? while_attempts (max_attempts attempt : Z) (s : State)
  : Result unit * State
  by wf (Z.to_nat (max_attempts + 1 - attempt)) lt :=
  while_attempts max_attempts attempt s
    with decide (attempt <= max_attempts) := {
    | right _ := (Ok tt, s)
    | left _ with attempt_once attempt max_attempts s := {
      | (Ok Return, s') := (Ok tt, s')
      | (Ok Continue, s') := while_attempts max_attempts (attempt + 1) s'
      | (Raise e, s') := (Raise e, s') } }.
Proof. lia. Qed.

Definition _send_scheduled_message : M unit :=
  let attempt := 1 in
  let max_attempts := Config.retry_attempts config in
  while_attempts max_attempts attempt.

(** *** Vocabulary of the statements about one firing *)

(** The bot after [k] calls of the job in a row. *)
Fixpoint bot_after (k : nat) (b : B) : B :=
  match k with
  | O => b
  | S k' => bot_after k' (send_daily_message b).2
  end.

(** How call number [k + 1] of the job ends when the job is called again
    and again from [b]. *)
Definition outcome (k : nat) (b : B) : Result unit :=
  (send_daily_message (bot_after k b)).1.

(** The first [k] calls of the job from [b] all raise. *)
Definition fails_first (k : nat) (b : B) : Prop :=
  forallb (fun i => raised (outcome i b)) (List.seq 0 k) = true.

End Firing.

Section NextRun.

(** Provided by the host: the built-in [int], the zone database of
    [pytz] and the clock behind [datetime.now(tz)]. *)
Variable int : string -> option Z.
Context {TZ : Type}.
Variable pytz_timezone : string -> option TZ.
Variable pytz_UTC : TZ.
Variable datetime_now : TZ -> datetime.t.

Local Open Scope result_scope.

(** [hour, minute = map(int, schedule_time.split(':'))]: the items are
    converted one by one while the two targets are filled. *)
Definition parse_schedule_time (schedule_time : string) : Result (Z * Z) :=
  match split ":" schedule_time with
  | [] => Raise (ValueError "not enough values to unpack (expected 2, got 0)")
  | [a] =>
      _ <- int_of int a;
      Raise (ValueError "not enough values to unpack (expected 2, got 1)")
  | [a; b] =>
      hour <- int_of int a;
      minute <- int_of int b;
      Ok (hour, minute)
  | a :: b :: c :: _ =>
      _ <- int_of int a;
      _ <- int_of int b;
      _ <- int_of int c;
      Raise (ValueError "too many values to unpack (expected 2)")
  end.

Definition timezone (timezone_str : string) : Result TZ :=
  if String.eqb timezone_str "UTC" then Ok pytz_UTC
  else match pytz_timezone timezone_str with
       | Some tz => Ok tz
       | None => Raise (UnknownTimeZoneError timezone_str)
       end.

Definition next_run_time (schedule_time timezone_str : string)
  : Result datetime.t :=
  parsed <- parse_schedule_time schedule_time;
  let (hour, minute) := parsed : Z * Z in
  tz <- timezone timezone_str;
  let now := datetime_now tz in
  next_run <- datetime.replace_time now hour minute;
  if datetime.leb next_run now then datetime.plus_one_day next_run
  else Ok next_run.

Definition get_next_run_time (schedule_time timezone_str : string) : string :=
  match next_run_time schedule_time timezone_str with
  | Ok next_run => datetime.strftime next_run
  | Raise e => "Error calculating next run time: " +:+ str e
  end.

End NextRun.

(** *** Sample host *)

(** A host that knows no zone but UTC and whose clock shows
    2024-01-01 10:00:00. *)
Definition no_zones (name : string) : option unit := None.

Definition new_year_morning (tz : unit) : datetime.t :=
  datetime.mk 2024 1 1 10 0 0 0 "UTC".

(** A host that knows one zone besides UTC.  Its clock shows
    2024-01-01 10:00:00 in UTC, which is 13:00:00 in Riyadh. *)
Inductive Zone : Type := UTC | Riyadh.

Definition one_zone (name : string) : option Zone :=
  if String.eqb name "Asia/Riyadh" then Some Riyadh else None.

Definition new_year_clock (tz : Zone) : datetime.t :=
  match tz with
  | UTC => datetime.mk 2024 1 1 10 0 0 0 "UTC"
  | Riyadh => datetime.mk 2024 1 1 13 0 0 0 "+03"
  end.

End MessageScheduler.

(* ===================================================================== *)
(** ** bot.py *)
(* ===================================================================== *)

Module TelegramBot.

(** The chat as the bot sees it.  [transport] is the fate of the coming
    calls of the Telegram API ([true]: the call raises); [outbox] holds the
    texts that reached the chat, oldest first. *)
Record Chat : Type := mkChat {
  transport : list bool;
  outbox : list string;
  log : list (Level * string)
}.

Abbreviation M := (Prog Chat).

Definition logger (lvl : Level) (msg : string) : M unit :=
  fun c => (Ok tt, mkChat (transport c) (outbox c) (log c ++ [(lvl, msg)])).

(** [self.bot.send_message(chat_id=self.chat_id, text=message, ...)]. *)
Definition api_send_message (text : string) : M unit :=
  fun c =>
    match transport c with
    | true :: rest =>
        (Raise (ApiException "A request to the Telegram API was unsuccessful"),
         mkChat rest (outbox c) (log c))
    | _ =>
        (Ok tt, mkChat (tail (transport c)) (outbox c ++ [text]) (log c))
    end.

Local Open Scope prog_scope.

Section Bot.

Variable int : string -> option Z.

(** [self.chat_id]. *)
Variable chat_id : string.

(** The text of the day for a user: language lookup, choice of the
    message, date and awareness lines (the statements between
    [int(self.chat_id)] and the final [self.send_message(message)]). *)
Variable daily_text : Z -> M string.

(** [send_message]; the note it appends to [sent_messages.log] after a
    successful send swallows its own errors and is left out. *)
Definition send_message (message : string) : M unit :=
  try_except
    (api_send_message message;;
     logger INFO ("Message sent successfully to chat " +:+ chat_id);;
     ret tt)
    (fun e =>
       logger ERROR ("Failed to send message: " +:+ str e);;
       raise e).

Definition send_daily_message : M unit :=
  try_except
    (user_id <- eval (int_of int chat_id);
     message <- daily_text user_id;
     send_message message)
    (fun e =>
       logger ERROR ("Failed to send daily message: " +:+ str e);;
       let error_msg := "❌ Failed to send scheduled message: " +:+ str e in
       try_except (send_message error_msg) (fun _ => ret tt)).

End Bot.

(** *** Sample bots *)

(** A stand-in bot whose state counts the calls of its job: the job raises
    until it has been called [good_from] times and returns from then on;
    its [send_message] always goes through. *)
Definition flaky_job (good_from : nat) : Prog nat unit :=
  fun called =>
    (if (good_from <=? called)%nat then Ok tt else Raise (ApiException "Read timed out"),
     S called).

Definition quiet_send (text : string) : Prog nat unit :=
  fun called => (Ok tt, called).

Definition sample_config : Config.t :=
  Config.mk "123:abc" "12345" "09:00" "UTC" false 3 60.

(** A chat whose next API call fails and whose later calls go through. *)
Definition hiccup_chat : Chat := mkChat [true; false] [] [].

End TelegramBot.

(* ===================================================================== *)
(** ** models.py: the store under sequences of calls *)
(* ===================================================================== *)

Module StoreHistory.

Import HabitTracker.

(** A call of one of the public operations of [HabitTracker]. *)
Inductive Op : Type :=
| AddEntry (user_id : Z) (notes : option string)
| GetLastEntry (user_id : Z)
| GetTotalCount (user_id : Z)
| GetDaysSinceLast (user_id : Z)
| GetUserStats (user_id : Z)
| GetUserLanguage (user_id : Z)
| SetUserLanguage (user_id : Z) (language : string).

(** The world a call leaves behind, whether it returned or raised. *)
Definition run (o : Op) (w : World) : World :=
  match o with
  | AddEntry u notes => (add_entry u notes w).2
  | GetLastEntry u => (get_last_entry u w).2
  | GetTotalCount u => (get_total_count u w).2
  | GetDaysSinceLast u => (get_days_since_last u w).2
  | GetUserStats u => (get_user_stats u w).2
  | GetUserLanguage u => (get_user_language u w).2
  | SetUserLanguage u language => (set_user_language u language w).2
  end.

(** [reaches w w']: calls of the operations lead from [w] to [w'], the
    clocks and the fate of the coming storage interactions being free to
    change between two calls. *)
Inductive reaches : World -> World -> Prop :=
| reaches_here w :
    reaches w w
| reaches_call w w1 o :
    reaches w w1 ->
    reaches w (run o w1)
| reaches_env w w1 w2 :
    reaches w w1 ->
    tables w2 = tables w1 ->
    reaches w w2.

Definition entry_ids (t : Tables) : list Z :=
  habit_entries.id <$> habit_entries_table t.

(** The ids in use are pairwise different and below the next value of the
    sequence. *)
Definition well_numbered (t : Tables) : Prop :=
  NoDup (entry_ids t) /\
  forall i, i ∈ entry_ids t -> i < habit_entries_id_seq t.

End StoreHistory.

(* ===================================================================== *)
(** ** config.py: [Config.validate], and the same check in cli.py *)
(* ===================================================================== *)

Module ConfigValidation.

(** [not s or s.startswith('#')]. *)
Definition unset (s : string) : bool :=
  String.eqb s "" || String.prefix "#" s.

(** [sep.join(items)]. *)
Fixpoint join (sep : string) (items : list string) : string :=
  match items with
  | [] => ""
  | [x] => x
  | x :: rest => x +:+ sep +:+ join sep rest
  end.

Section Validate.

Variable int : string -> option Z.

Local Open Scope result_scope.

(** The [try] block around the schedule time: a bare [ValueError] when the
    text has not two parts or lies outside the day, the [ValueError] of
    [int] when a part is no integer.  No other exception can arise in it, so
    the [except ValueError] of the callers catches whatever it raises. *)
Definition check_schedule_time (schedule_time : string) : Result unit :=
  match split ":" schedule_time with
  | [part0; part1] =>
      hour <- int_of int part0;
      minute <- int_of int part1;
      if negb ((0 <=? hour) && (hour <=? 23) && ((0 <=? minute) && (minute <=? 59)))
      then Raise (ValueError "")
      else Ok tt
  | _ => Raise (ValueError "")
  end.

Definition errors (c : Config.t) : list string :=
  ((if unset (Config.bot_token c) then ["Bot token is required"] else []) ++
   (if unset (Config.chat_id c) then ["Chat ID is required"] else []) ++
   (match check_schedule_time (Config.schedule_time c) with
    | Ok _ => []
    | Raise _ => ["Schedule time must be in HH:MM format (24-hour)"]
    end) ++
   (if Config.retry_attempts c <? 1 then ["Retry attempts must be at least 1"] else []) ++
   (if Config.retry_delay c <? 0 then ["Retry delay must be non-negative"] else []))%list.

Definition validate (c : Config.t) : Result bool :=
  match errors c with
  | [] => Ok true
  | es => Raise (ValueError ("Configuration validation failed: " +:+ join "; " es))
  end.

(** [CLI._edit_config]: the three answers typed at the prompts, already
    read by [input()]; [strip] and [lower] are the string methods applied to
    them and [saved] tells whether [config.save()] went through.  Returns
    the configuration object as left behind and the lines printed after the
    prompts. *)
Variable strip : string -> string.
Variable lower : string -> string.

Definition with_schedule_time (t : string) (c : Config.t) : Config.t :=
  Config.mk (Config.bot_token c) (Config.chat_id c) t (Config.timezone c)
            (Config.include_date c) (Config.retry_attempts c) (Config.retry_delay c).

Definition with_chat_id (i : string) (c : Config.t) : Config.t :=
  Config.mk (Config.bot_token c) i (Config.schedule_time c) (Config.timezone c)
            (Config.include_date c) (Config.retry_attempts c) (Config.retry_delay c).

Definition with_include_date (b : bool) (c : Config.t) : Config.t :=
  Config.mk (Config.bot_token c) (Config.chat_id c) (Config.schedule_time c)
            (Config.timezone c) b (Config.retry_attempts c) (Config.retry_delay c).

Definition _edit_config (typed_time typed_chat typed_date : string) (saved : Result unit)
  (c : Config.t) : Config.t * list string :=
  let new_time := strip typed_time in
  let '(c1, out1) :=
    if String.eqb new_time "" then (c, [])
    else match check_schedule_time new_time with
         | Ok _ => (with_schedule_time new_time c, [])
         | Raise _ => (c, ["❌ Invalid time format. Keeping current value."])
         end in
  let new_chat := strip typed_chat in
  let c2 := if String.eqb new_chat "" then c1 else with_chat_id new_chat c1 in
  let new_date := lower (strip typed_date) in
  let c3 :=
    if String.eqb new_date "true" || String.eqb new_date "false"
    then with_include_date (String.eqb new_date "true") c2
    else c2 in
  (c3,
   (out1 ++
    [match saved with
     | Ok _ => "✅ Configuration saved successfully!"
     | Raise e => "❌ Error saving configuration: " +:+ str e
     end])%list).

End Validate.

(** *** A sample configuration that [validate] rejects *)

Definition hasty_config : Config.t :=
  Config.mk "123:abc" "12345" "09:00" "UTC" false 3 (-5).

End ConfigValidation.

(* ===================================================================== *)
(** ** language_manager.py: loading the bundles, texts and daily messages *)
(* ===================================================================== *)

Module LanguageFiles.

Import LanguageManager.

(** What [json.load] yields for a language file of the shape the program
    expects: the texts by category and key, the daily messages and the
    habit phrases.  [None] stands for a key the file does not have.  A file
    of another shape (a category that is [null] or a list, a text that is a
    number) is valid JSON too, but lies outside this type: on such a file
    [get_text] can end in its [except] branch. *)
Record Document : Type := mkDocument {
  texts : gmap string (gmap string string);
  daily_messages : option (list string);
  patterns : option (list string)
}.

(** The part of a document that the classifier reads. *)
Definition bundle (d : Document) : Bundle := mkBundle (patterns d).

(** The literal dictionary of the [except] branch of [load_languages]. *)
Definition fallback : Document :=
  mkDocument
    {[ "commands" := {[ "welcome" := "Welcome! Language files not found." ]};
       "general" := {[ "error" := "Error loading languages" ]} ]}
    None None.

(** [load_languages] on the dictionary [languages]; [english_json] and
    [arabic_json] are the outcomes of opening and parsing the two files.
    The second file is opened only after the first was stored. *)
Definition load_languages (languages : gmap string Document)
  (english_json arabic_json : Result Document) : gmap string Document :=
  match english_json with
  | Ok english =>
      let languages := <["english" := english]> languages in
      match arabic_json with
      | Ok arabic => <["arabic" := arabic]> languages
      | Raise _ => <["english" := fallback]> languages
      end
  | Raise _ => <["english" := fallback]> languages
  end.

(** [LanguageManager()]: an empty dictionary, then [load_languages]. *)
Definition __init__ (english_json arabic_json : Result Document)
  : gmap string Document :=
  load_languages ∅ english_json arabic_json.

(** [if language not in self.languages: language = 'english']. *)
Definition known (languages : gmap string Document) (language : string) : string :=
  match languages !! language with
  | Some _ => language
  | None => "english"
  end.

Section Texts.

(** The keyword arguments handed to [str.format], and that built-in. *)
Context {V : Type}.
Variable format : string -> list (string * V) -> Result string.

Definition get_text_try (languages : gmap string Document)
  (language category key : string) (kwargs : list (string * V)) : Result string :=
  (let language := known languages language in
   d <- getitem languages language;
   let text := default "Text not found" (default ∅ (texts d !! category) !! key) in
   match kwargs with
   | [] => Ok text
   | _ => format text kwargs
   end)%result.

Definition get_text (languages : gmap string Document)
  (language category key : string) (kwargs : list (string * V)) : string :=
  match get_text_try languages language category key kwargs with
  | Ok text => text
  | Raise _ => "Error loading text"
  end.

End Texts.

Section DailyMessage.

(** The index that [random.choice] draws for a sequence of the given
    length. *)
Variable randbelow : nat -> nat.

(** [get_daily_message]; both ways into the [except] branch (no English
    bundle, a draw from an empty list) end in the default text. *)
Definition get_daily_message (languages : gmap string Document) (language : string)
  : string :=
  match languages !! known languages language with
  | None => "Stay mindful today!"
  | Some d =>
      let messages := default ["Stay mindful today!"] (daily_messages d) in
      match messages !! randbelow (length messages) with
      | Some message => message
      | None => "Stay mindful today!"
      end
  end.

End DailyMessage.

(** *** Sample files *)

Definition english_file : Document :=
  mkDocument
    {[ "status" := {[ "title" := "📊 Your Habit Tracking Status" ]} ]}
    (Some ["Breathe."; "One day at a time."])
    None.

Definition arabic_file : Document :=
  mkDocument ∅ None (Some ["فعلتها"]).

End LanguageFiles.

(* ===================================================================== *)
(** ** scheduler.py: setting up, starting, stopping and rescheduling *)
(* ===================================================================== *)

Module SchedulerLifecycle.

Import MessageScheduler.

Section Lifecycle.

(** The bot and its [send_message]. *)
Context {B : Type}.
Variable send_message : string -> Prog B unit.

(** [schedule.every().day.at(time)]: the library accepts the text or
    raises. *)
Variable every_day_at : string -> Result unit.

(** The built-ins and the host that [get_next_run_time] relies on. *)
Variable int : string -> option Z.
Context {TZ : Type}.
Variable pytz_timezone : string -> option TZ.
Variable pytz_UTC : TZ.
Variable datetime_now : TZ -> datetime.t.

(** The scheduler object together with the registry of the [schedule]
    module.  [jobs] lists the fire times of the registered daily jobs,
    [threads] counts the threads started so far; what the loop of such a
    thread does in between is not part of a call. *)
Record Scheduler : Type := mkScheduler {
  bot : B;
  schedule_time : string;
  timezone : string;
  running : bool;
  scheduler_thread : bool;
  jobs : list string;
  threads : nat;
  log : list (Level * string)
}.

Abbreviation M := (Prog Scheduler).

Definition logger (lvl : Level) (msg : string) : M unit :=
  fun s =>
    (Ok tt, mkScheduler (bot s) (schedule_time s) (timezone s) (running s)
                        (scheduler_thread s) (jobs s) (threads s)
                        (log s ++ [(lvl, msg)])).

(** [schedule.clear()]. *)
Definition clear : M unit :=
  fun s =>
    (Ok tt, mkScheduler (bot s) (schedule_time s) (timezone s) (running s)
                        (scheduler_thread s) [] (threads s) (log s)).

(** [.do(self._send_scheduled_message)]: the job joins the registry. *)
Definition do (time : string) : M unit :=
  fun s =>
    (Ok tt, mkScheduler (bot s) (schedule_time s) (timezone s) (running s)
                        (scheduler_thread s) (jobs s ++ [time]) (threads s) (log s)).

(** [self.config.schedule_time = new_time]. *)
Definition set_schedule_time (new_time : string) : M unit :=
  fun s =>
    (Ok tt, mkScheduler (bot s) new_time (timezone s) (running s)
                        (scheduler_thread s) (jobs s) (threads s) (log s)).

(** [self.running = b]. *)
Definition set_running (b : bool) : M unit :=
  fun s =>
    (Ok tt, mkScheduler (bot s) (schedule_time s) (timezone s) b
                        (scheduler_thread s) (jobs s) (threads s) (log s)).

(** [self.scheduler_thread = threading.Thread(...)] and its [start()]. *)
Definition start_thread : M unit :=
  fun s =>
    (Ok tt, mkScheduler (bot s) (schedule_time s) (timezone s) (running s)
                        true (jobs s) (S (threads s)) (log s)).

(** A call of a method of the bot. *)
Definition call_bot {A} (p : Prog B A) : M A :=
  fun s =>
    let (r, b) := p (bot s) in
    (r, mkScheduler b (schedule_time s) (timezone s) (running s)
                    (scheduler_thread s) (jobs s) (threads s) (log s)).

Local Open Scope prog_scope.

Definition _setup_schedule : M unit :=
  try_except
    (clear;;
     (fun s => (and_then (eval (every_day_at (schedule_time s)))
                         (fun _ => do (schedule_time s))) s);;
     (fun s => logger INFO ("Daily message scheduled for " +:+ schedule_time s
                            +:+ " (" +:+ timezone s +:+ ")") s))
    (fun e =>
       logger ERROR ("Failed to setup schedule: " +:+ str e);;
       raise e).

Definition startup_msg (time : string) : string :=
  "🤖 Daily Message Bot started!" +:+ nl +:+ nl
  +:+ "📅 Next message scheduled for: "
  +:+ get_next_run_time int pytz_timezone pytz_UTC datetime_now time "UTC".

Definition start : M unit :=
  fun s =>
    if running s then
      logger WARNING "Scheduler is already running" s
    else
      (set_running true;;
       start_thread;;
       logger INFO "Message scheduler started";;
       try_except
         (fun s1 => call_bot (send_message (startup_msg (schedule_time s1))) s1)
         (fun e => logger ERROR ("Failed to send startup notification: " +:+ str e))) s.

(** [stop]; joining the thread changes nothing that is modelled. *)
Definition stop : M unit :=
  set_running false;;
  clear;;
  logger INFO "Message scheduler stopped".

Definition reschedule (new_time : string) : M bool :=
  try_except
    (set_schedule_time new_time;;
     _setup_schedule;;
     logger INFO ("Rescheduled daily message to " +:+ new_time);;
     ret true)
    (fun e =>
       logger ERROR ("Failed to reschedule: " +:+ str e);;
       ret false).

End Lifecycle.

(** *** A sample scheduler *)

(** A scheduler at rest with the job of 09:00 registered; its bot is the
    list of the texts sent. *)
Definition morning_scheduler : Scheduler (B := list string) :=
  mkScheduler [] "09:00" "Asia/Riyadh" false false ["09:00"] 0 [].

Definition record_send (text : string) : Prog (list string) unit :=
  fun sent => (Ok tt, (sent ++ [text])%list).

End SchedulerLifecycle.

(* ===================================================================== *)
(** ** bot.py: the handlers of incoming messages *)
(* ===================================================================== *)

Module Handlers.

Import LanguageManager LanguageFiles.

(** A call of the Telegram API made by a handler. *)
Inductive ApiCall : Type :=
| ReplyTo (text : string)                      (* bot.reply_to(message, text) *)
| SendMessage (chat : Z) (text : string)       (* bot.send_message(chat, text) *)
| DeleteMessage (chat message_id : Z)          (* bot.delete_message(chat, id) *)
| AnswerCallbackQuery (text : option string).  (* bot.answer_callback_query(id, text) *)

(** What a handler runs against: the store behind the habit tracker, the
    fate of the coming calls of the Telegram API ([true]: the call raises),
    the calls that went through, oldest first, and the log of the bot. *)
Record Session : Type := mkSession {
  store : HabitTracker.World;
  api : list bool;
  sent : list ApiCall;
  log : list (Level * string)
}.

Abbreviation M := (Prog Session).

Definition logger (lvl : Level) (msg : string) : M unit :=
  fun s => (Ok tt, mkSession (store s) (api s) (sent s) (log s ++ [(lvl, msg)])).

(** A call of a method of [self.habit_tracker]. *)
Definition on_store {A} (p : HabitTracker.M A) : M A :=
  fun s =>
    let (r, w) := p (store s) in
    (r, mkSession w (api s) (sent s) (log s)).

(** A call of a method of [self.bot]. *)
Definition telegram (c : ApiCall) : M unit :=
  fun s =>
    match api s with
    | true :: rest =>
        (Raise (ApiException "A request to the Telegram API was unsuccessful"),
         mkSession (store s) rest (sent s) (log s))
    | _ =>
        (Ok tt, mkSession (store s) (tail (api s)) (sent s ++ [c]) (log s))
    end.

(** Values passed to [str.format] as keyword arguments. *)
Inductive Arg : Type :=
| Date (d : Z)
| Int (n : Z).

Local Open Scope prog_scope.

Section Bot.

(** [str.lower] and [str.format]. *)
Variable lower : string -> string.
Variable format : string -> list (string * Arg) -> Result string.

(** [self.habit_tracker] is an object ([true]) or [None]; so is
    [self.language_manager], which then holds the bundles it loaded. *)
Variable habit_tracker : bool.
Variable language_manager : option (gmap string Document).

Definition _get_user_language (user_id : Z) : M string :=
  if negb habit_tracker then ret "english"
  else
    try_except
      (on_store (HabitTracker.get_user_language user_id))
      (fun e =>
         logger ERROR ("Failed to get user language: " +:+ str e);;
         ret "english").

Definition _get_text (user_id : Z) (category key : string)
  (kwargs : list (string * Arg)) : M string :=
  match language_manager with
  | None => ret "Language system not available"
  | Some languages =>
      language <- _get_user_language user_id;
      ret (get_text format languages language category key kwargs)
  end.

(** [message.text] is [None] for a message without text. *)
Definition _is_habit_message (text : option string) (user_id : Z) : M bool :=
  match text, language_manager with
  | Some t, Some languages =>
      if String.eqb t "" then ret false
      else
        user_language <- _get_user_language user_id;
        ret (is_habit_message lower (bundle <$> languages) t user_language)
  | _, _ => ret false
  end.

(** The lines about the last entry that [track_habit] appends to its
    answer. *)
Definition last_time_lines (user_id : Z) (stats : option HabitTracker.Stats)
  (response : string) : M string :=
  match stats with
  | Some st =>
      match HabitTracker.last_entry st with
      | Some last =>
          let last_date := HabitTracker.entry_date last in
          line <- _get_text user_id "tracking" "last_time" [("date", Date last_date)];
          let response := response +:+ line in
          match HabitTracker.days_since_last st with
          | Some days =>
              if days =? 0 then
                line <- _get_text user_id "tracking" "was_today" [];
                ret (response +:+ line)
              else if days =? 1 then
                line <- _get_text user_id "tracking" "was_yesterday" [];
                ret (response +:+ line)
              else
                line <- _get_text user_id "tracking" "was_days_ago" [("days", Int days)];
                ret (response +:+ line)
          | None => ret response
          end
      | None => ret response
      end
  | None => ret response
  end.

(** The handler of habit messages, for a message of [user_id] with text
    [text]. *)
Definition track_habit (user_id : Z) (text : option string) : M unit :=
  try_except
    (if negb habit_tracker then
       error_text <- _get_text user_id "tracking" "failed_to_record" [];
       telegram (ReplyTo error_text)
     else
       entry <- on_store (HabitTracker.add_entry user_id text);
       match entry with
       | None =>
           error_text <- _get_text user_id "tracking" "failed_to_record" [];
           telegram (ReplyTo error_text)
       | Some _ =>
           stats <- on_store (HabitTracker.get_user_stats user_id);
           response <- _get_text user_id "tracking" "entry_recorded" [];
           response <- last_time_lines user_id stats response;
           line <- _get_text user_id "tracking" "total_times"
                     [("count", Int (match stats with
                                     | Some st => HabitTracker.total_count st
                                     | None => 0
                                     end))];
           let response := response +:+ line in
           line <- _get_text user_id "tracking" "awareness_message" [];
           let response := response +:+ line in
           telegram (ReplyTo response)
       end)
    (fun e =>
       logger ERROR ("Error tracking habit: " +:+ str e);;
       error_text <- _get_text user_id "tracking" "error_recording" [];
       telegram (ReplyTo error_text)).

(** The handler of the language buttons, for a press of [user_id] carrying
    [data] on the message [message_id] of [chat]. *)
Definition handle_language_callback (user_id : Z) (data : string)
  (chat message_id : Z) : M unit :=
  try_except
    (response <-
       (if negb habit_tracker then
          ret "❌ Language system not available"
        else if String.eqb data "lang_english" then
          on_store (HabitTracker.set_user_language user_id "english");;
          _get_text user_id "language" "changed_to_english" []
        else if String.eqb data "lang_arabic" then
          on_store (HabitTracker.set_user_language user_id "arabic");;
          _get_text user_id "language" "changed_to_arabic" []
        else
          _get_text user_id "language" "invalid_choice" []);
     try_except (telegram (DeleteMessage chat message_id)) (fun _ => ret tt);;
     telegram (SendMessage chat response);;
     telegram (AnswerCallbackQuery None))
    (fun e =>
       logger ERROR ("Error handling language callback: " +:+ str e);;
       try_except
         (telegram (AnswerCallbackQuery (Some "❌ Error changing language")))
         (fun _ => ret tt)).

End Bot.

(** The habit entries on record. *)
Abbreviation entries s :=
  (HabitTracker.habit_entries_table (HabitTracker.tables (store s))).

(** A step that sends nothing, uses up no call of the Telegram API and
    leaves the habit entries alone. *)
Definition calm (s s' : Session) : Prop :=
  sent s' = sent s /\ api s' = api s /\
  entries s' = entries s /\
  HabitTracker.habit_entries_id_seq (HabitTracker.tables (store s')) =
    HabitTracker.habit_entries_id_seq (HabitTracker.tables (store s)).

(** *** Sample sessions *)

(** A session over the store [w] with the Telegram API answering. *)
Definition session_on (w : HabitTracker.World) : Session := mkSession w [] [] [].

(** [str.format] that leaves the text as it is. *)
Definition no_format (text : string) (kwargs : list (string * Arg)) : Result string :=
  Ok text.

End Handlers.

(* ===================================================================== *)
(** ** bot.py: the file of sent messages *)
(* ===================================================================== *)

Module SentLog.

Section Log.

(** The characters of a Python string (code points, which is what [len]
    and slicing count), and the full stop. *)
Context {Char : Type}.
Variable dot : Char.

(** An entry of [sent_messages.log]. *)
Record Entry : Type := mkEntry {
  timestamp : string;
  message : list Char;
  chat_id : string
}.

(** What opening and parsing [sent_messages.log] comes to. *)
Inductive LogFile : Type :=
| Missing                      (* FileNotFoundError *)
| Garbled                      (* json.JSONDecodeError *)
| Unreadable                   (* any other error of [open] or [read] *)
| NotAList                     (* JSON without [append]: an object, a number, ... *)
| Logs (logs : list Entry).

(** What writing the file back comes to: written, refused by [open], or
    broken off inside [json.dump], which leaves a truncated file. *)
Inductive Write : Type := Written | Refused | BrokenOff.

(** [message[:100] + "..." if len(message) > 100 else message]. *)
Definition shorten (text : list Char) : list Char :=
  if (100 <? length text)%nat then take 100 text ++ [dot; dot; dot] else text.

(** [_log_sent_message]; every exception ends in the outer [except], which
    only logs it (that line of the log is left out). *)
Definition _log_sent_message (now chat : string) (write : Write)
  (text : list Char) (file : LogFile) : LogFile :=
  let log_entry := mkEntry now (shorten text) chat in
  let loaded :=
    match file with
    | Missing | Garbled => Some []
    | Logs logs => Some logs
    | Unreadable | NotAList => None
    end in
  match loaded with
  | None => file
  | Some logs =>
      let logs := (logs ++ [log_entry])%list in
      let logs := drop (length logs - 100) logs in
      match write with
      | Written => Logs logs
      | Refused => file
      | BrokenOff => Garbled
      end
  end.

End Log.

End SentLog.

(* ===================================================================== *)
(** * Properties *)
(* ===================================================================== *)

(** ** Strings *)

Section StringFacts.

Lemma app_String (c : ascii) (a b : string) :
  String c a +:+ b = String c (a +:+ b).
Proof. reflexivity. Qed.

Lemma prefix_app (p s : string) :
  String.prefix p s = true <-> exists b, s = p +:+ b.
Proof.
  revert s. induction p as [|c p IH]; intros s.
  - split; [intros _; exists s; reflexivity | intros _; destruct s; reflexivity].
  - destruct s as [|d s]; simpl.
    + split; [discriminate | intros [b Hb]; discriminate].
    + destruct (Ascii.ascii_dec c d) as [->|Hne].
      * rewrite IH. split; intros [b Hb]; exists b;
          rewrite app_String in *; congruence.
      * split; [discriminate|].
        intros [b Hb]. rewrite app_String in Hb. congruence.
Qed.

Lemma contains_unfold (p : string) (c : ascii) (s : string) :
  contains p (String c s) = String.prefix p (String c s) || contains p s.
Proof. reflexivity. Qed.

Lemma contains_occurs (p s : string) :
  contains p s = true <-> exists a b, s = a +:+ p +:+ b.
Proof.
  induction s as [|c s IH].
  - change (contains p "") with (String.prefix p "" || false).
    rewrite orb_false_r, prefix_app. split.
    + intros [b Hb]. exists EmptyString, b. exact Hb.
    + intros ([|x a] & b & Hab); [exists b; exact Hab | discriminate].
  - rewrite contains_unfold, orb_true_iff, prefix_app, IH. split.
    + intros [[b Hb]|(a & b & Hab)].
      * exists EmptyString, b. exact Hb.
      * exists (String c a), b. rewrite app_String. congruence.
    + intros ([|x a] & b & Hab).
      * left. exists b. exact Hab.
      * right. exists a, b. rewrite app_String in Hab. congruence.
Qed.

End StringFacts.

(** ** The habit classifier *)

Section ClassifierFacts.

Import LanguageManager.

Lemma get_habit_patterns_default (languages : Languages) (language : string) :
  language <> "arabic" ->
  get_habit_patterns languages language = english_patterns.
Proof.
  intros Hne. unfold get_habit_patterns, get_habit_patterns_try.
  destruct (String.eqb_spec language "arabic") as [Heq|_]; [contradiction|reflexivity].
Qed.

Lemma get_habit_patterns_arabic (languages : Languages) (b : Bundle) :
  languages !! "arabic" = Some b ->
  get_habit_patterns languages "arabic" = default [] (habit_patterns b).
Proof.
  intros Hb. unfold get_habit_patterns, get_habit_patterns_try, getitem.
  simpl. rewrite Hb. reflexivity.
Qed.



End ClassifierFacts.

(** ** Sequencing and exception handling *)

Section ProgFacts.

Context {S A B : Type}.

Lemma and_then_ok (p : Prog S A) (k : A -> Prog S B) (s s' : S) (a : A) :
  p s = (Ok a, s') -> and_then p k s = k a s'.
Proof. unfold and_then. intros ->. reflexivity. Qed.

Lemma and_then_raise (p : Prog S A) (k : A -> Prog S B) (s s' : S) (e : Exn) :
  p s = (Raise e, s') -> and_then p k s = (Raise e, s').
Proof. unfold and_then. intros ->. reflexivity. Qed.

Lemma try_except_ok (body : Prog S A) (handler : Exn -> Prog S A) (s s' : S) (a : A) :
  body s = (Ok a, s') -> try_except body handler s = (Ok a, s').
Proof. unfold try_except. intros ->. reflexivity. Qed.

Lemma try_except_raise (body : Prog S A) (handler : Exn -> Prog S A) (s s' : S) (e : Exn) :
  body s = (Raise e, s') -> try_except body handler s = handler e s'.
Proof. unfold try_except. intros ->. reflexivity. Qed.

End ProgFacts.

(** ** The store *)

Section StoreFacts.

Import HabitTracker.

(** What one storage interaction does, by the head of the schedule. *)
Lemma transaction_fails {A} (stmt : Clock -> Tables -> A * Tables) (w : World) :
  fails 0 w = true ->
  exists e, transaction stmt w = (Raise e, set_outages (tail (outages w)) w).
Proof.
  unfold fails, transaction. destruct (outages w) as [|[] rest]; simpl; try discriminate.
  intros _. eexists. reflexivity.
Qed.

Lemma transaction_answers {A} (stmt : Clock -> Tables -> A * Tables) (w : World) :
  fails 0 w = false ->
  transaction stmt w =
    (Ok (stmt (clock w) (tables w)).1,
     set_tables (stmt (clock w) (tables w)).2 (set_outages (tail (outages w)) w)).
Proof.
  unfold fails, transaction. destruct (outages w) as [|[] rest]; simpl; try discriminate;
    intros _; destruct (stmt (clock w) (tables w)); reflexivity.
Qed.

Lemma fails_tail (i : nat) (w w' : World) :
  outages w' = tail (outages w) -> fails i w' = fails (S i) w.
Proof.
  unfold fails. intros ->. destruct (outages w); [destruct i|]; reflexivity.
Qed.

Lemma answers_at (n i : nat) (w : World) :
  answers n w -> (i < n)%nat -> fails i w = false.
Proof.
  unfold answers. rewrite forallb_forall. intros H Hi.
  apply negb_true_iff, H, in_seq. lia.
Qed.

Lemma get_last_entry_run (u : Z) (w : World) :
  exists w',
    get_last_entry u w =
      (Ok (if fails 0 w then None else (select_last_entry u (clock w) (tables w)).1), w')
    /\ read_step w w'.
Proof.
  unfold get_last_entry, try_except.
  destruct (fails 0 w) eqn:Hf.
  - destruct (transaction_fails (select_last_entry u) w Hf) as [e ->].
    eexists. split; [reflexivity|]. repeat split.
  - rewrite (transaction_answers (select_last_entry u) w Hf).
    eexists. split; [reflexivity|]. repeat split.
Qed.

Lemma get_total_count_run (u : Z) (w : World) :
  exists w',
    get_total_count u w =
      (Ok (if fails 0 w then 0 else Z.of_nat (length (entries_of u (tables w)))), w')
    /\ read_step w w'.
Proof.
  unfold get_total_count, try_except, and_then.
  destruct (fails 0 w) eqn:Hf.
  - destruct (transaction_fails (select_count u) w Hf) as [e ->].
    eexists. split; [reflexivity|]. repeat split.
  - rewrite (transaction_answers (select_count u) w Hf).
    eexists. split; [reflexivity|]. repeat split.
Qed.

Lemma get_days_since_last_run (u : Z) (w : World) :
  exists w',
    get_days_since_last u w =
      (Ok (if fails 0 w then None
           else (fun last => today (clock w) - entry_date last)
                  <$> (select_last_entry u (clock w) (tables w)).1), w')
    /\ read_step w w'.
Proof.
  unfold get_days_since_last, try_except, and_then.
  destruct (get_last_entry_run u w) as (w1 & -> & Ht & Hc & Ho).
  destruct (fails 0 w).
  - eexists. split; [reflexivity|]. repeat split; assumption.
  - destruct (select_last_entry u (clock w) (tables w)).1 as [last|]; simpl.
    + unfold date_today, ret. rewrite Hc. eexists. split; [reflexivity|].
      repeat split; assumption.
    + eexists. split; [reflexivity|]. repeat split; assumption.
Qed.

(** C1 (amended).  [get_user_stats] always returns a struct, never [None]:
    each field carries the result of its own sub-query, and a sub-query that
    fails contributes its own fallback ([last_entry = None],
    [total_count = 0], [days_since_last = None]) while the fields of the
    sub-queries that succeeded keep their results.  The three storage
    interactions are, in order, those of [get_last_entry],
    [get_total_count] and [get_days_since_last]. *)
Theorem get_user_stats_fail_soft_fields (u : Z) (w : World) :
  exists w',
    get_user_stats u w =
      (Ok (Some (mkStats
         (if fails 0 w then None
          else (select_last_entry u (clock w) (tables w)).1)
         (if fails 1 w then 0
          else Z.of_nat (length (entries_of u (tables w))))
         (if fails 2 w then None
          else (fun last => today (clock w) - entry_date last)
                 <$> (select_last_entry u (clock w) (tables w)).1))), w')
    /\ tables w' = tables w.
Proof.
  unfold get_user_stats, try_except, and_then.
  destruct (get_last_entry_run u w) as (w1 & -> & Ht1 & Hc1 & Ho1).
  destruct (get_total_count_run u w1) as (w2 & -> & Ht2 & Hc2 & Ho2).
  destruct (get_days_since_last_run u w2) as (w3 & -> & Ht3 & Hc3 & Ho3).
  rewrite (fails_tail 0 w1 w2 Ho2), !(fails_tail _ w w1 Ho1), Ht2, Hc2, Ht1, Hc1.
  eexists. split; [reflexivity|]. simpl. congruence.
Qed.

Lemma set_user_language_run (u : Z) (language : string) (w : World) :
  exists w',
    set_user_language u language w = (Ok language, w')
    /\ tables w' = (if fails 0 w then tables w
                    else (upsert_language u language (clock w) (tables w)).2)
    /\ clock w' = clock w /\ outages w' = tail (outages w).
Proof.
  unfold set_user_language, try_except, and_then.
  destruct (fails 0 w) eqn:Hf.
  - destruct (transaction_fails (upsert_language u language) w Hf) as [e ->].
    eexists. split; [reflexivity|]. repeat split.
  - rewrite (transaction_answers (upsert_language u language) w Hf).
    eexists. split; [reflexivity|]. repeat split.
Qed.

Lemma get_user_language_run (u : Z) (w : World) :
  exists w',
    get_user_language u w =
      (Ok (if fails 0 w then "english"
           else default "english" (users.language <$> users_table (tables w) !! u)), w')
    /\ tables w' =
         (if fails 0 w then tables w
          else match users_table (tables w) !! u with
               | Some _ => tables w
               | None => if fails 1 w then tables w
                         else (upsert_language u "english" (clock w) (tables w)).2
               end)
    /\ clock w' = clock w.
Proof.
  unfold get_user_language, try_except, and_then.
  destruct (fails 0 w) eqn:Hf.
  - destruct (transaction_fails (select_language u) w Hf) as [e ->].
    eexists. split; [reflexivity|]. repeat split.
  - rewrite (transaction_answers (select_language u) w Hf). simpl.
    destruct (users_table (tables w) !! u) as [row|] eqn:Hrow; simpl.
    + eexists. split; [reflexivity|]. repeat split.
    + match goal with |- context [set_user_language u "english" ?w1] =>
        destruct (set_user_language_run u "english" w1) as (w2 & -> & Ht & Hc & Ho);
        rewrite (fails_tail 0 w w1 eq_refl) in Ht
      end.
      eexists. split; [reflexivity|]. split; [|exact Hc].
      rewrite Ht. unfold upsert_language. simpl. rewrite Hrow. reflexivity.
Qed.

(** C9.  When the storage lookup inside [get_user_language] raises, the
    call returns ["english"], raises nothing and leaves the tables alone,
    whatever preference is stored for the user. *)
Theorem get_user_language_storage_failure (u : Z) (w : World) :
  fails 0 w = true ->
  exists w', get_user_language u w = (Ok "english", w') /\ tables w' = tables w.
Proof.
  intros Hf. destruct (get_user_language_run u w) as (w' & Hrun & Ht & _).
  rewrite Hf in Hrun, Ht. exists w'. split; assumption.
Qed.

(** C7.  When the storage interactions of the two calls succeed,
    [set_user_language u language] followed by [get_user_language u] returns
    [language], for every user, every language value and every store
    (with or without a row for [u]). *)
Theorem set_then_get_user_language (u : Z) (language : string) (w : World) :
  answers 2 w ->
  exists w1 w2,
    set_user_language u language w = (Ok language, w1) /\
    get_user_language u w1 = (Ok language, w2).
Proof.
  intros Hup.
  destruct (set_user_language_run u language w) as (w1 & Hset & Ht & Hc & Ho).
  destruct (get_user_language_run u w1) as (w2 & Hget & _).
  rewrite (answers_at 2 0 w Hup) in Ht by lia.
  rewrite (fails_tail 0 w w1 Ho), (answers_at 2 1 w Hup) in Hget by lia.
  exists w1, w2. split; [exact Hset|].
  rewrite Hget, Ht. simpl. rewrite lookup_insert_eq.
  destruct (users_table (tables w) !! u); reflexivity.
Qed.

(** C6 (amended).  For a user without a row, two calls of
    [get_user_language] in a row both return ["english"]; when the lookup
    and the insert of the first call go through, the first call creates the
    row of the user (one row more in the table, holding ["english"]) and the
    second call leaves the tables as they are. *)
Theorem get_user_language_twice (u : Z) (w : World) :
  users_table (tables w) !! u = None ->
  exists w1 w2,
    get_user_language u w = (Ok "english", w1) /\
    get_user_language u w1 = (Ok "english", w2) /\
    (answers 2 w ->
     users.language <$> users_table (tables w1) !! u = Some "english" /\
     size (users_table (tables w1)) = S (size (users_table (tables w))) /\
     tables w2 = tables w1).
Proof.
  intros Hnew.
  destruct (get_user_language_run u w) as (w1 & Hget1 & Ht1 & Hc1).
  destruct (get_user_language_run u w1) as (w2 & Hget2 & Ht2 & Hc2).
  rewrite Hnew in Hget1, Ht1. simpl in Hget1.
  assert (Hrow : users_table (tables w1) !! u = None \/
                 users.language <$> users_table (tables w1) !! u = Some "english").
  { rewrite Ht1. destruct (fails 0 w); [left; exact Hnew|].
    destruct (fails 1 w); [left; exact Hnew|].
    right. simpl. rewrite lookup_insert_eq, Hnew. reflexivity. }
  exists w1, w2. split; [|split].
  - rewrite Hget1. destruct (fails 0 w); reflexivity.
  - rewrite Hget2. destruct (fails 0 w1); [reflexivity|].
    destruct Hrow as [-> | ->]; reflexivity.
  - intros Hup.
    rewrite (answers_at 2 0 w Hup) in Ht1 by lia.
    assert (Hf1 : fails 1 w = false) by (apply (answers_at 2); [exact Hup|lia]).
    rewrite Hf1 in Ht1.
    assert (Hin : users.language <$> users_table (tables w1) !! u = Some "english").
    { rewrite Ht1. simpl. rewrite lookup_insert_eq, Hnew. reflexivity. }
    split; [exact Hin|]. split.
    + rewrite Ht1. simpl. rewrite Hnew. apply map_size_insert_None. exact Hnew.
    + rewrite Ht2. destruct (fails 0 w1); [reflexivity|].
      destruct (users_table (tables w1) !! u); [reflexivity|discriminate].
Qed.

(** *** Counting and dating the entries *)

Lemma add_entry_tables (u : Z) (notes : option string) (w w' : World) row :
  add_entry u notes w = (Ok row, w') ->
  tables w' = (insert_entry u notes (clock w) (tables w)).2.
Proof.
  unfold add_entry, try_except, and_then.
  destruct (fails 0 w) eqn:Hf.
  - destruct (transaction_fails (insert_entry u notes) w Hf) as [e ->].
    simpl. discriminate.
  - rewrite (transaction_answers (insert_entry u notes) w Hf). simpl.
    intros [= _ <-]. reflexivity.
Qed.

Lemma entries_of_insert (u : Z) (notes : option string) (c : Clock) (t : Tables) :
  entries_of u (insert_entry u notes c t).2 =
  (entries_of u t ++
    [habit_entries.mkRow (habit_entries_id_seq t) u (CURRENT_DATE c) (CURRENT_TIMESTAMP c) notes])%list.
Proof.
  unfold entries_of, insert_entry. simpl. rewrite filter_app.
  rewrite filter_cons_True by reflexivity. reflexivity.
Qed.

Lemma recorded_count (u : Z) (n : nat) (w0 w : World) :
  recorded u n w0 w ->
  length (entries_of u (tables w)) = (length (entries_of u (tables w0)) + n)%nat.
Proof.
  induction 1 as [w | n w w1 w2 notes row _ IH Hadd | n w w1 w2 _ IH Hsame].
  - lia.
  - rewrite (add_entry_tables _ _ _ _ _ Hadd), entries_of_insert, length_app, IH.
    simpl. lia.
  - rewrite Hsame. exact IH.
Qed.

Lemma sorts_before_true (a b : habit_entries.Row) :
  sorts_before a b = true <->
  habit_entries.entry_date b < habit_entries.entry_date a \/
  (habit_entries.entry_date b = habit_entries.entry_date a /\
   habit_entries.created_at b < habit_entries.created_at a).
Proof. unfold sorts_before. lia. Qed.

Lemma sorts_before_false (a b : habit_entries.Row) :
  sorts_before a b = false <->
  habit_entries.entry_date a < habit_entries.entry_date b \/
  (habit_entries.entry_date a = habit_entries.entry_date b /\
   habit_entries.created_at a <= habit_entries.created_at b).
Proof. unfold sorts_before. lia. Qed.

(** The row picked by [ORDER BY ... LIMIT 1] is one of the rows, and none
    comes before it. *)
Lemma order_by_limit_1_first (rows : list habit_entries.Row) (r : habit_entries.Row) :
  order_by_limit_1 rows = Some r ->
  r ∈ rows /\ forall e, e ∈ rows -> sorts_before e r = false.
Proof.
  revert r. induction rows as [|x rows IH]; intros r; simpl; [discriminate|].
  destruct (order_by_limit_1 rows) as [r'|] eqn:Hrest.
  - destruct (IH r' eq_refl) as [Hin Hmax].
    destruct (sorts_before r' x) eqn:Hcmp; intros [= <-].
    + split; [right; exact Hin|].
      intros e [->|He]%elem_of_cons; [|exact (Hmax e He)].
      apply sorts_before_true in Hcmp. apply sorts_before_false. lia.
    + split; [left|].
      intros e [->|He]%elem_of_cons.
      * apply sorts_before_false. lia.
      * specialize (Hmax e He).
        apply sorts_before_false in Hcmp, Hmax. apply sorts_before_false. lia.
  - intros [= <-]. destruct rows as [|y rows]; [|simpl in Hrest;
      destruct (order_by_limit_1 rows) as [?|]; [destruct (sorts_before _ y)|]; discriminate].
    split; [left|]. intros e ->%list_elem_of_singleton.
    apply sorts_before_false. lia.
Qed.

Lemma order_by_limit_1_nonempty (rows : list habit_entries.Row) (e : habit_entries.Row) :
  e ∈ rows -> exists r, order_by_limit_1 rows = Some r.
Proof.
  destruct rows as [|x rows]; [intros H; inversion H|]. intros _. simpl.
  destruct (order_by_limit_1 rows) as [r'|]; [destruct (sorts_before r' x)|]; eauto.
Qed.

(** Whichever most recent entry the query returns, its date is the date of
    every most recent entry. *)
Lemma select_last_entry_date (u : Z) (c : Clock) (t : Tables) (e : habit_entries.Row) :
  most_recent u t e ->
  exists last,
    (select_last_entry u c t).1 = Some last /\
    entry_date last = habit_entries.entry_date e.
Proof.
  intros [Hin Hmax]. unfold select_last_entry. simpl.
  destruct (order_by_limit_1_nonempty _ _ Hin) as [r Hr]. rewrite Hr. simpl.
  eexists. split; [reflexivity|]. simpl.
  destruct (order_by_limit_1_first _ _ Hr) as [Hrin Hrmax].
  specialize (Hmax r Hrin). specialize (Hrmax e Hin).
  apply sorts_before_false in Hmax, Hrmax. lia.
Qed.

(** C8 (amended).  From a store without entries of [u], after [n]
    successful calls of [add_entry] for [u], and provided the query of the
    read goes through: [get_total_count u] is [n], and [get_days_since_last u]
    is [0] whenever a most recent entry of [u] is dated today. *)
Theorem count_and_days_after_recording (u : Z) (n : nat) (w0 w : World) :
  entries_of u (tables w0) = [] ->
  recorded u n w0 w ->
  fails 0 w = false ->
  (exists w', get_total_count u w = (Ok (Z.of_nat n), w')) /\
  (forall e,
      most_recent u (tables w) e ->
      habit_entries.entry_date e = today (clock w) ->
      exists w', get_days_since_last u w = (Ok (Some 0), w')).
Proof.
  intros Hempty Hrec Hup. split.
  - destruct (get_total_count_run u w) as (w' & Hrun & _).
    rewrite Hup, (recorded_count _ _ _ _ Hrec), Hempty in Hrun.
    exists w'. exact Hrun.
  - intros e He Hdate.
    destruct (get_days_since_last_run u w) as (w' & Hrun & _).
    destruct (select_last_entry_date u (clock w) (tables w) e He) as (last & Hlast & Hd).
    rewrite Hup, Hlast in Hrun. simpl in Hrun.
    rewrite Hd, Hdate, Z.sub_diag in Hrun.
    exists w'. exact Hrun.
Qed.

(** C1 as stated fails: with one entry of today on record and the first
    sub-query failing, the result is not [None] but a struct whose
    [last_entry] is defaulted while [total_count] and [days_since_last]
    come from the sub-queries that succeeded. *)
Lemma get_user_stats_partial_struct :
  fails 0 (one_entry_world [true]) = true /\
  (get_user_stats 7 (one_entry_world [true])).1 = Ok (Some (mkStats None 1 (Some 0))).
Proof. split; vm_compute; reflexivity. Qed.

(** A user whose stored preference is Arabic is reported as English while
    the storage is down. *)
Lemma get_user_language_storage_failure_witness :
  users.language <$> users_table (tables (arabic_world [true])) !! 7 = Some "arabic" /\
  exists w',
    get_user_language 7 (arabic_world [true]) = (Ok "english", w') /\
    tables w' = tables (arabic_world [true]).
Proof.
  split; [reflexivity|].
  apply (get_user_language_storage_failure 7 (arabic_world [true])). reflexivity.
Defined.

Lemma set_then_get_user_language_witness :
  exists w1 w2,
    set_user_language 7 "arabic" (fresh_world []) = (Ok "arabic", w1) /\
    get_user_language 7 w1 = (Ok "arabic", w2).
Proof. apply (set_then_get_user_language 7 "arabic" (fresh_world [])). reflexivity. Defined.

Lemma get_user_language_twice_witness :
  exists w1 w2,
    get_user_language 7 (fresh_world []) = (Ok "english", w1) /\
    get_user_language 7 w1 = (Ok "english", w2) /\
    (answers 2 (fresh_world []) ->
     users.language <$> users_table (tables w1) !! 7 = Some "english" /\
     size (users_table (tables w1)) = S (size (users_table (tables (fresh_world [])))) /\
     tables w2 = tables w1).
Proof. apply (get_user_language_twice 7 (fresh_world [])). reflexivity. Defined.

(** C6 as stated fails: while the storage is down both calls answer
    ["english"] and the store is left without a row for the user. *)
Lemma get_user_language_twice_no_row :
  users_table (tables (fresh_world [true; true])) !! 7 = None /\
  (get_user_language 7 (fresh_world [true; true])).1 = Ok "english" /\
  (get_user_language 7 (get_user_language 7 (fresh_world [true; true])).2).1 = Ok "english" /\
  users_table
    (tables (get_user_language 7 (get_user_language 7 (fresh_world [true; true])).2).2) !! 7
  = None.
Proof. repeat split; vm_compute; reflexivity. Qed.

(** C8 as stated fails: after one successful [add_entry], with the entry
    dated today, a read whose query fails reports a count of [0] and no
    number of days. *)
Lemma total_count_during_outage :
  entries_of 7 (tables (fresh_world [false; true])) = [] /\
  recorded 7 1 (fresh_world [false; true]) (add_entry 7 None (fresh_world [false; true])).2 /\
  (get_total_count 7 (add_entry 7 None (fresh_world [false; true])).2).1 = Ok 0 /\
  most_recent 7 (tables (add_entry 7 None (fresh_world [false; true])).2)
    (habit_entries.mkRow 1 7 19000 1641600000 None) /\
  today (clock (add_entry 7 None (fresh_world [false; true])).2) = 19000 /\
  (get_days_since_last 7 (add_entry 7 None (fresh_world [false; true])).2).1 = Ok None.
Proof.
  split; [reflexivity|]. split; [|split; [vm_compute; reflexivity|split; [|split]]].
  - eapply recorded_entry; [apply recorded_start|]. vm_compute. reflexivity.
  - assert (Hrows : entries_of 7 (tables (add_entry 7 None (fresh_world [false; true])).2)
                    = [habit_entries.mkRow 1 7 19000 1641600000 None])
      by (vm_compute; reflexivity).
    unfold most_recent. rewrite Hrows. split; [apply list_elem_of_singleton; reflexivity|].
    intros e' ->%list_elem_of_singleton. reflexivity.
  - reflexivity.
  - vm_compute. reflexivity.
Qed.

Lemma count_and_days_after_recording_witness :
  (exists w', get_total_count 7 (add_entry 7 None (fresh_world [])).2 = (Ok 1, w')) /\
  (forall e,
      most_recent 7 (tables (add_entry 7 None (fresh_world [])).2) e ->
      habit_entries.entry_date e = today (clock (add_entry 7 None (fresh_world [])).2) ->
      exists w', get_days_since_last 7 (add_entry 7 None (fresh_world [])).2 = (Ok (Some 0), w')).
Proof.
  apply (count_and_days_after_recording 7 1 (fresh_world [])).
  - reflexivity.
  - eapply recorded_entry; [apply recorded_start|]. vm_compute. reflexivity.
  - reflexivity.
Defined.

End StoreFacts.

(** ** One firing of the daily job *)

Section FiringFacts.

Import MessageScheduler.

Context {B : Type}.
Variable send_daily_message : Prog B unit.
Variable send_message : string -> Prog B unit.
Variable config : Config.t.

Abbreviation attempt_once := (attempt_once send_daily_message send_message config).
Abbreviation while_attempts := (while_attempts send_daily_message send_message config).
Abbreviation outcome := (outcome send_daily_message).
Abbreviation fails_first := (fails_first send_daily_message).

Lemma while_attempts_step (n a : Z) (s : State) :
  while_attempts n a s =
  if decide (a <= n) then
    match attempt_once a n s with
    | (Ok Return, s') => (Ok tt, s')
    | (Ok Continue, s') => while_attempts n (a + 1) s'
    | (Raise e, s') => (Raise e, s')
    end
  else (Ok tt, s).
Proof.
  simp while_attempts. destruct (decide (a <= n)); simpl; [|reflexivity].
  destruct (attempt_once a n s) as [[[]|e] s']; reflexivity.
Qed.

Lemma attempt_once_ok (a n : Z) (s : State) :
  (send_daily_message (bot s)).1 = Ok tt ->
  exists s',
    attempt_once a n s = (Ok Return, s') /\
    calls s' = (calls s ++ [Job])%list /\
    bot s' = (send_daily_message (bot s)).2.
Proof.
  intros Hjob. unfold MessageScheduler.attempt_once, try_except, and_then, call.
  simpl. destruct (send_daily_message (bot s)) as [r b]. simpl in *. subst r.
  eexists. split; [reflexivity|]. split; reflexivity.
Qed.

Lemma attempt_once_retry (a n : Z) (s : State) (e : Exn) :
  (send_daily_message (bot s)).1 = Raise e ->
  a < n ->
  0 <= Config.retry_delay config ->
  exists s',
    attempt_once a n s = (Ok Continue, s') /\
    calls s' = (calls s ++ [Job; Sleep (Config.retry_delay config)])%list /\
    bot s' = (send_daily_message (bot s)).2.
Proof.
  intros Hjob Ha Hd. unfold MessageScheduler.attempt_once, try_except, and_then, call.
  simpl. destruct (send_daily_message (bot s)) as [r b]. simpl in *. subst r.
  destruct (Z.ltb_spec a n) as [_|]; [|lia].
  unfold sleep. simpl.
  destruct (Z.ltb_spec (Config.retry_delay config) 0) as [|_]; [lia|].
  eexists. split; [reflexivity|]. simpl. rewrite <- app_assoc. split; reflexivity.
Qed.

Lemma attempt_once_last (a n : Z) (s : State) (e : Exn) :
  (send_daily_message (bot s)).1 = Raise e ->
  n <= a ->
  exists s',
    attempt_once a n s = (Ok Continue, s') /\
    calls s' = (calls s ++ [Job; Notify (error_msg n e)])%list.
Proof.
  intros Hjob Ha. unfold MessageScheduler.attempt_once, try_except, and_then, call.
  simpl. destruct (send_daily_message (bot s)) as [r b]. simpl in *. subst r.
  destruct (Z.ltb_spec a n) as [|_]; [lia|]. simpl.
  destruct (send_message (error_msg n e) b) as [[[]|e'] b'];
    (eexists; split; [reflexivity|]; simpl; rewrite <- app_assoc; reflexivity).
Qed.

Lemma fails_first_S (k : nat) (b : B) :
  fails_first (S k) b <->
  raised (send_daily_message b).1 = true /\ fails_first k (send_daily_message b).2.
Proof.
  unfold MessageScheduler.fails_first.
  change (List.seq 0 (S k)) with (0%nat :: List.seq 1 k).
  rewrite <- seq_shift. simpl. rewrite andb_true_iff, forallb_forall, forallb_forall.
  split; intros [H0 H]; (split; [exact H0|]).
  - intros i Hi. apply (H (S i)), in_map, Hi.
  - intros i (j & <- & Hj)%in_map_iff. apply (H j Hj).
Qed.

Lemma raised_true {A} (r : Result A) : raised r = true -> exists e, r = Raise e.
Proof. destruct r as [a|e]; [discriminate|]. intros _. exists e. reflexivity. Qed.

(** All remaining attempts fail: the loop runs them all and notifies once. *)
Lemma while_attempts_exhausted (n : Z) (m : nat) :
  0 <= Config.retry_delay config ->
  forall (a : Z) (s : State),
    a + Z.of_nat m = n ->
    fails_first (S m) (bot s) ->
    exists e s',
      outcome m (bot s) = Raise e /\
      while_attempts n a s = (Ok tt, s') /\
      calls s' =
        (calls s ++ exhausted_calls (S m) (Config.retry_delay config) (error_msg n e))%list.
Proof.
  intros Hd. induction m as [|m IH]; intros a s Ha Hfail;
    apply fails_first_S in Hfail as [Hnow Hrest];
    apply raised_true in Hnow as [e He].
  - destruct (attempt_once_last a n s e He) as (s1 & Hrun & Hcalls); [lia|].
    exists e, s1. split; [exact He|].
    rewrite while_attempts_step. destruct (decide (a <= n)); [|lia].
    rewrite Hrun, while_attempts_step. destruct (decide (a + 1 <= n)); [lia|].
    split; [reflexivity | exact Hcalls].
  - destruct (attempt_once_retry a n s e He) as (s1 & Hrun & Hcalls & Hbot); [lia|exact Hd|].
    rewrite <- Hbot in Hrest.
    destruct (IH (a + 1) s1) as (e' & s' & Hlast & Hloop & Hcs); [lia|exact Hrest|].
    exists e', s'. split; [|split].
    + unfold MessageScheduler.outcome in *. simpl. rewrite <- Hbot. exact Hlast.
    + rewrite while_attempts_step. destruct (decide (a <= n)); [|lia].
      rewrite Hrun. exact Hloop.
    + rewrite Hcs, Hcalls, <- app_assoc. reflexivity.
Qed.

(** The first [k] attempts fail and the next one succeeds: the loop stops
    there, having notified nobody. *)
Lemma while_attempts_succeeds (n : Z) (k : nat) :
  0 <= Config.retry_delay config ->
  forall (a : Z) (s : State),
    a + Z.of_nat k <= n ->
    fails_first k (bot s) ->
    outcome k (bot s) = Ok tt ->
    exists s',
      while_attempts n a s = (Ok tt, s') /\
      calls s' = (calls s ++ succeeded_calls (S k) (Config.retry_delay config))%list.
Proof.
  intros Hd. induction k as [|k IH]; intros a s Ha Hfail Hok.
  - destruct (attempt_once_ok a n s Hok) as (s1 & Hrun & Hcalls & _).
    exists s1. rewrite while_attempts_step. destruct (decide (a <= n)); [|lia].
    rewrite Hrun. split; [reflexivity | exact Hcalls].
  - apply fails_first_S in Hfail as [Hnow Hrest].
    apply raised_true in Hnow as [e He].
    destruct (attempt_once_retry a n s e He) as (s1 & Hrun & Hcalls & Hbot); [lia|exact Hd|].
    rewrite <- Hbot in Hrest.
    destruct (IH (a + 1) s1) as (s' & Hloop & Hcs); [lia|exact Hrest| |].
    { unfold MessageScheduler.outcome in *. rewrite Hbot. exact Hok. }
    exists s'. split.
    + rewrite while_attempts_step. destruct (decide (a <= n)); [|lia].
      rewrite Hrun. exact Hloop.
    + rewrite Hcs, Hcalls, <- app_assoc. reflexivity.
Qed.

Lemma exhausted_calls_readings (m : nat) (d : Z) (text : string) :
  jobs (exhausted_calls (S m) d text) = S m /\
  sleeps (exhausted_calls (S m) d text) = replicate m d /\
  notifications (exhausted_calls (S m) d text) = [text].
Proof.
  induction m as [|m (Hj & Hs & Hn)]; [repeat split|].
  change (exhausted_calls (S (S m)) d text)
    with (Job :: Sleep d :: exhausted_calls (S m) d text).
  unfold jobs, sleeps, notifications in *. simpl in *.
  rewrite Hj, Hs, Hn. repeat split.
Qed.

Lemma succeeded_calls_readings (k : nat) (d : Z) :
  jobs (succeeded_calls (S k) d) = S k /\
  sleeps (succeeded_calls (S k) d) = replicate k d /\
  notifications (succeeded_calls (S k) d) = [].
Proof.
  induction k as [|k (Hj & Hs & Hn)]; [repeat split|].
  change (succeeded_calls (S (S k)) d) with (Job :: Sleep d :: succeeded_calls (S k) d).
  unfold jobs, sleeps, notifications in *. simpl in *.
  rewrite Hj, Hs, Hn. repeat split.
Qed.


End FiringFacts.

Section FiringExamples.

Import MessageScheduler TelegramBot.



End FiringExamples.

(** ** The daily job of the bot under the scheduler *)

Section DailyMessageFacts.

Import MessageScheduler TelegramBot.

Variable int : string -> option Z.
Variable chat_id : string.
Variable daily_text : Z -> Prog Chat string.

Abbreviation send_message := (send_message chat_id).
Abbreviation send_daily_message := (send_daily_message int chat_id daily_text).

(** [send_daily_message] handles every exception itself: its caller never
    sees one. *)
Lemma send_daily_message_never_raises (c : Chat) :
  (send_daily_message c).1 = Ok tt.
Proof.
  unfold TelegramBot.send_daily_message, try_except.
  match goal with |- context [and_then ?p ?k c] => destruct (and_then p k c) as [[[]|e] c1] end;
    [reflexivity|].
  unfold and_then. simpl.
  match goal with |- context [TelegramBot.send_message ?i ?m ?c2] =>
    destruct (TelegramBot.send_message i m c2) as [[[]|e'] c3] end; reflexivity.
Qed.

(** Hence, under the scheduler, the job of the bot is called exactly once
    per firing, whatever happens inside it. *)
Lemma daily_job_runs_once (config : Config.t) (s : State) :
  1 <= Config.retry_attempts config ->
  exists s',
    _send_scheduled_message send_daily_message send_message config s = (Ok tt, s') /\
    calls s' = (calls s ++ [Job])%list.
Proof.
  intros Hn. unfold _send_scheduled_message.
  rewrite while_attempts_step. destruct (decide (1 <= Config.retry_attempts config)); [|lia].
  destruct (attempt_once_ok send_daily_message send_message config 1
              (Config.retry_attempts config) s (send_daily_message_never_raises (bot s)))
    as (s' & -> & Hcalls & _).
  exists s'. split; [reflexivity | exact Hcalls].
Qed.

(** The send that fails inside the job. *)
Lemma send_message_down (text : string) (c : Chat) (rest : list bool) :
  transport c = true :: rest ->
  exists c',
    send_message text c =
      (Raise (ApiException "A request to the Telegram API was unsuccessful"), c') /\
    transport c' = rest /\ outbox c' = outbox c.
Proof.
  intros Ht. unfold TelegramBot.send_message, try_except, and_then, api_send_message.
  rewrite Ht. simpl. eexists. split; [reflexivity|]. split; reflexivity.
Qed.

Lemma send_message_up (text : string) (c : Chat) (rest : list bool) :
  transport c = false :: rest ->
  exists c',
    send_message text c = (Ok tt, c') /\
    transport c' = rest /\ outbox c' = (outbox c ++ [text])%list.
Proof.
  intros Ht. unfold TelegramBot.send_message, try_except, and_then, api_send_message.
  rewrite Ht. simpl. eexists. split; [reflexivity|]. split; reflexivity.
Qed.

(** C3 does not hold of the code.  [send_daily_message] catches its own
    failure, so a firing whose first call of the Telegram API fails puts the
    failure text into the chat during the first attempt, returns normally,
    and the scheduler stops after that one attempt although further attempts
    remain. *)
Theorem failed_attempt_reaches_the_chat_at_once
  (config : Config.t) (s : State) (user_id : Z) (text : string) (rest : list bool) :
  1 <= Config.retry_attempts config ->
  int chat_id = Some user_id ->
  (forall c, daily_text user_id c = (Ok text, c)) ->
  transport (bot s) = true :: false :: rest ->
  exists s',
    _send_scheduled_message send_daily_message send_message config s = (Ok tt, s') /\
    calls s' = (calls s ++ [Job])%list /\
    outbox (bot s') =
      (outbox (bot s) ++
       ["❌ Failed to send scheduled message: A request to the Telegram API was unsuccessful"])%list.
Proof.
  intros Hn Hid Htext Ht.
  unfold _send_scheduled_message.
  rewrite while_attempts_step. destruct (decide (1 <= Config.retry_attempts config)); [|lia].
  destruct (attempt_once_ok send_daily_message send_message config 1
              (Config.retry_attempts config) s (send_daily_message_never_raises (bot s)))
    as (s' & -> & Hcalls & Hbot).
  exists s'. split; [reflexivity|]. split; [exact Hcalls|].
  rewrite Hbot. clear Hbot Hcalls s'.
  destruct (send_message_down text (bot s) _ Ht) as (c1 & Hdown & Ht1 & Ho1).
  unfold TelegramBot.send_daily_message.
  erewrite try_except_raise; cycle 1.
  { erewrite and_then_ok; [|unfold eval, int_of; rewrite Hid; reflexivity].
    erewrite and_then_ok; [|apply Htext]. exact Hdown. }
  erewrite and_then_ok; [|reflexivity].
  match goal with |- context [try_except (TelegramBot.send_message _ ?m) _ ?c2] =>
    destruct (send_message_up m c2 rest Ht1) as (c3 & Hup & _ & Ho3) end.
  erewrite try_except_ok; [|exact Hup].
  simpl. rewrite Ho3. simpl. rewrite Ho1. reflexivity.
Qed.

End DailyMessageFacts.

Section DailyMessageExamples.

Import MessageScheduler TelegramBot.

Lemma failed_attempt_reaches_the_chat_at_once_witness :
  Config.retry_attempts sample_config = 3 /\
  exists s',
    _send_scheduled_message
      (send_daily_message int_ascii "12345" (fun _ => ret "Stay mindful today!"))
      (send_message "12345") sample_config (mkState hiccup_chat [] []) = (Ok tt, s') /\
    calls s' = [Job] /\
    outbox (bot s') =
      ["❌ Failed to send scheduled message: A request to the Telegram API was unsuccessful"].
Proof.
  split; [reflexivity|].
  apply (failed_attempt_reaches_the_chat_at_once int_ascii "12345"
           (fun _ => ret "Stay mindful today!") sample_config
           (mkState hiccup_chat [] []) 12345 "Stay mindful today!" []);
    [simpl; lia | reflexivity | reflexivity | reflexivity].
Defined.

End DailyMessageExamples.

(** ** The next run time *)

Section CalendarFacts.

Import datetime.

Lemma lex_compare_refl (a : list Z) : lex_compare a a = Eq.
Proof. induction a as [|x a IH]; simpl; [reflexivity|]. rewrite Z.compare_refl. exact IH. Qed.

Lemma lex_compare_antisym (a b : list Z) :
  lex_compare b a = CompOpp (lex_compare a b).
Proof.
  revert b. induction a as [|x a IH]; intros [|y b]; simpl; try reflexivity.
  rewrite (Z.compare_antisym x y). destruct (x ?= y); simpl; auto.
Qed.

Lemma leb_false_lt (a b : t) : leb a b = false -> lt b a.
Proof.
  unfold leb, lt, compare. rewrite (lex_compare_antisym (fields a) (fields b)).
  destruct (lex_compare (fields a) (fields b)); simpl; congruence.
Qed.

Lemma leb_true_not_lt (a b : t) : leb a b = true -> ~ lt b a.
Proof.
  unfold leb, lt, compare. rewrite (lex_compare_antisym (fields a) (fields b)).
  destruct (lex_compare (fields a) (fields b)); simpl; congruence.
Qed.

(** The next day is later than any moment of the day it follows. *)
Lemma plus_one_day_later (d next now : t) :
  plus_one_day d = Ok next ->
  year now = year d -> month now = month d -> day now = day d ->
  lt now next.
Proof.
  unfold plus_one_day, lt, compare, fields. intros Hnext Hy Hm Hd.
  destruct (day d <? _); [|destruct (Z.ltb_spec (month d) 12); [|destruct (Z.ltb_spec (year d) MAXYEAR)]];
    try discriminate; injection Hnext as <-; simpl; rewrite ?Hy, ?Hm, ?Hd.
  - rewrite !Z.compare_refl. replace (day d ?= day d + 1) with Lt; [reflexivity|].
    symmetry. apply Z.compare_lt_iff. lia.
  - rewrite Z.compare_refl. replace (month d ?= month d + 1) with Lt; [reflexivity|].
    symmetry. apply Z.compare_lt_iff. lia.
  - replace (year d ?= year d + 1) with Lt; [reflexivity|].
    symmetry. apply Z.compare_lt_iff. lia.
Qed.

Lemma days_before_year_succ (y : Z) :
  days_before_year (y + 1) = days_before_year y + (if is_leap y then 366 else 365).
Proof.
  unfold days_before_year, is_leap.
  replace (y + 1 - 1) with (y - 1 + 1) by lia.
  destruct (Z.eqb_spec (y mod 4) 0), (Z.eqb_spec (y mod 100) 0), (Z.eqb_spec (y mod 400) 0);
    simpl; Z.to_euclidean_division_equations; lia.
Qed.

Lemma days_before_month_succ (y m : Z) :
  1 <= m <= 11 ->
  days_before_month y (m + 1) = days_before_month y m + days_in_month y m.
Proof.
  intros Hm. unfold days_before_month.
  replace (Z.to_nat (m + 1 - 1)) with (S (Z.to_nat (m - 1))) by lia.
  simpl days_before_month_nat. f_equal. f_equal. lia.
Qed.

Lemma days_before_december (y : Z) :
  days_before_month y 12 + 31 = (if is_leap y then 366 else 365).
Proof.
  unfold days_before_month. change (Z.to_nat (12 - 1)) with 11%nat.
  simpl days_before_month_nat. unfold days_in_month. simpl.
  destruct (is_leap y); reflexivity.
Qed.

(** The next day is the day whose number is one more, and it is again a
    date of the calendar. *)
Lemma plus_one_day_ordinal (d next : t) :
  valid_date d ->
  plus_one_day d = Ok next ->
  toordinal next = toordinal d + 1 /\ valid_date next.
Proof.
  unfold plus_one_day, toordinal, valid_date. intros (Hy & Hm & Hd) Hnext.
  destruct (Z.ltb_spec (day d) (days_in_month (year d) (month d)));
    [|destruct (Z.ltb_spec (month d) 12); [|destruct (Z.ltb_spec (year d) MAXYEAR)]];
    try discriminate; injection Hnext as <-; simpl.
  - split; lia.
  - rewrite days_before_month_succ by lia. split; [lia|].
    repeat split; try lia. unfold days_in_month.
    repeat match goal with |- context [if ?c then _ else _] => destruct c end; lia.
  - assert (month d = 12) as Hm12 by lia. rewrite Hm12 in *.
    assert (day d = 31) as Hd31 by (change (days_in_month (year d) 12) with 31 in *; lia).
    rewrite days_before_year_succ, Hd31, <- (days_before_december (year d)).
    change (days_before_month (year d + 1) 1) with 0.
    split; [lia|]. repeat split; try lia. unfold days_in_month. simpl. lia.
Qed.

Lemma days_in_month_le (y mo : Z) : days_in_month y mo <= 31.
Proof.
  unfold days_in_month.
  destruct (mo =? 2); [destruct (is_leap y); lia|].
  destruct ((mo =? 4) || (mo =? 6) || (mo =? 9) || (mo =? 11)); lia.
Qed.

(** Zero-padded fields read back as the numbers they render: checked for
    every year of the calendar and every two-digit field. *)
Lemma zfill_4_table :
  forallb (fun k => (String.length (zfill 4 (Z.of_nat k)) =? 4)%nat &&
                    match digits_value 0 (zfill 4 (Z.of_nat k)) with
                    | Some v => v =? Z.of_nat k
                    | None => false
                    end)
          (List.seq 0 (Z.to_nat 10000)) = true.
Proof. vm_compute. reflexivity. Qed.

Lemma zfill_2_table :
  forallb (fun k => (String.length (zfill 2 (Z.of_nat k)) =? 2)%nat &&
                    match digits_value 0 (zfill 2 (Z.of_nat k)) with
                    | Some v => v =? Z.of_nat k
                    | None => false
                    end)
          (List.seq 0 (Z.to_nat 100)) = true.
Proof. vm_compute. reflexivity. Qed.

Lemma zfill_4_written (n : Z) : 0 <= n <= 9999 -> written 4 n (zfill 4 n).
Proof.
  intros Hn. pose proof zfill_4_table as H. rewrite forallb_forall in H.
  specialize (H (Z.to_nat n)). rewrite Z2Nat.id in H by lia.
  assert (Hin : In (Z.to_nat n) (List.seq 0 (Z.to_nat 10000))) by (apply in_seq; lia).
  apply H in Hin. apply andb_true_iff in Hin as [Hlen Hval].
  apply Nat.eqb_eq in Hlen. split; [exact Hlen|].
  destruct (digits_value 0 (zfill 4 n)) as [v|]; [|discriminate].
  apply Z.eqb_eq in Hval. congruence.
Qed.

Lemma zfill_2_written (n : Z) : 0 <= n <= 99 -> written 2 n (zfill 2 n).
Proof.
  intros Hn. pose proof zfill_2_table as H. rewrite forallb_forall in H.
  specialize (H (Z.to_nat n)). rewrite Z2Nat.id in H by lia.
  assert (Hin : In (Z.to_nat n) (List.seq 0 (Z.to_nat 100))) by (apply in_seq; lia).
  apply H in Hin. apply andb_true_iff in Hin as [Hlen Hval].
  apply Nat.eqb_eq in Hlen. split; [exact Hlen|].
  destruct (digits_value 0 (zfill 2 n)) as [v|]; [|discriminate].
  apply Z.eqb_eq in Hval. congruence.
Qed.

(** The text of an instant on the minute: [YYYY-MM-DD HH:MM:00] and the
    name of the zone. *)
Lemma strftime_on_the_minute (dt : t) :
  valid_date dt ->
  0 <= hour dt <= 23 ->
  0 <= minute dt <= 59 ->
  second dt = 0 ->
  exists yyyy mm dd HH MM,
    strftime dt =
      yyyy +:+ "-" +:+ mm +:+ "-" +:+ dd +:+ " " +:+ HH +:+ ":" +:+ MM +:+ ":00 "
      +:+ tzname dt /\
    written 4 (year dt) yyyy /\
    written 2 (month dt) mm /\
    written 2 (day dt) dd /\
    written 2 (hour dt) HH /\
    written 2 (minute dt) MM.
Proof.
  intros (Hy & Hmo & Hd) Hh Hmi Hs.
  pose proof (days_in_month_le (year dt) (month dt)) as Hdim.
  exists (zfill 4 (year dt)), (zfill 2 (month dt)), (zfill 2 (day dt)),
         (zfill 2 (hour dt)), (zfill 2 (minute dt)).
  split; [unfold strftime; rewrite Hs; reflexivity|].
  unfold MAXYEAR in Hy.
  split; [apply zfill_4_written; lia|].
  split; [apply zfill_2_written; lia|].
  split; [apply zfill_2_written; lia|].
  split; apply zfill_2_written; lia.
Qed.

End CalendarFacts.

Section NextRunFacts.

Import MessageScheduler.

Variable int : string -> option Z.
Context {TZ : Type}.
Variable pytz_timezone : string -> option TZ.
Variable pytz_UTC : TZ.
Variable datetime_now : TZ -> datetime.t.

Abbreviation parse_schedule_time := (parse_schedule_time int).
Abbreviation timezone := (timezone pytz_timezone pytz_UTC).
Abbreviation next_run_time := (next_run_time int pytz_timezone pytz_UTC datetime_now).
Abbreviation get_next_run_time := (get_next_run_time int pytz_timezone pytz_UTC datetime_now).

Lemma parse_schedule_time_ok (schedule_time a b : string) (h m : Z) :
  split ":" schedule_time = [a; b] -> int a = Some h -> int b = Some m ->
  parse_schedule_time schedule_time = Ok (h, m).
Proof.
  intros Hs Ha Hb. unfold MessageScheduler.parse_schedule_time, int_of.
  rewrite Hs, Ha. simpl. rewrite Hb. reflexivity.
Qed.

(** Only two integers around one colon are accepted. *)
Lemma parse_schedule_time_inv (schedule_time : string) (h m : Z) :
  parse_schedule_time schedule_time = Ok (h, m) ->
  exists a b, split ":" schedule_time = [a; b] /\ int a = Some h /\ int b = Some m.
Proof.
  unfold MessageScheduler.parse_schedule_time, int_of.
  destruct (split ":" schedule_time) as [|a [|b [|c rest]]]; simpl; try discriminate.
  - destruct (int a); discriminate.
  - destruct (int a) as [x|] eqn:Ha; simpl; [|discriminate].
    destruct (int b) as [y|] eqn:Hb; simpl; [|discriminate].
    intros [= <- <-]. exists a, b. repeat split; assumption.
  - destruct (int a); simpl; [|discriminate].
    destruct (int b); simpl; [|discriminate].
    destruct (int c); discriminate.
Qed.

(** C4.  For a fire time [HH:MM] within the day and a zone that is UTC or
    known to the zone database, [get_next_run_time] returns the text
    [YYYY-MM-DD HH:MM:00 ZONE] of an instant [next_run] that is strictly
    later than the reading [now] of the clock of that zone: the digits of
    the text are those of the date of [next_run] and of the fire time, and
    [next_run] is today's [HH:MM:00] when that is still ahead of [now], and
    [HH:MM:00] of the next calendar day when [now] has reached or passed it.
    The clock reading is a date of the calendar before its last day. *)
Theorem get_next_run_time_next_occurrence
  (schedule_time timezone_str a b : string) (h m : Z) (tz : TZ) :
  split ":" schedule_time = [a; b] ->
  int a = Some h ->
  int b = Some m ->
  0 <= h <= 23 ->
  0 <= m <= 59 ->
  (timezone_str = "UTC" /\ tz = pytz_UTC) \/
  (timezone_str <> "UTC" /\ pytz_timezone timezone_str = Some tz) ->
  datetime.valid_date (datetime_now tz) ->
  ~ datetime.is_max_date (datetime_now tz) ->
  exists next_run,
    get_next_run_time schedule_time timezone_str = datetime.strftime next_run /\
    (exists yyyy mm dd HH MM,
        get_next_run_time schedule_time timezone_str =
          yyyy +:+ "-" +:+ mm +:+ "-" +:+ dd +:+ " " +:+ HH +:+ ":" +:+ MM +:+ ":00 "
          +:+ datetime.tzname (datetime_now tz) /\
        datetime.written 4 (datetime.year next_run) yyyy /\
        datetime.written 2 (datetime.month next_run) mm /\
        datetime.written 2 (datetime.day next_run) dd /\
        datetime.written 2 h HH /\
        datetime.written 2 m MM) /\
    datetime.lt (datetime_now tz) next_run /\
    (datetime.lt (datetime_now tz) (datetime.at_time (datetime_now tz) h m) ->
     next_run = datetime.at_time (datetime_now tz) h m) /\
    (~ datetime.lt (datetime_now tz) (datetime.at_time (datetime_now tz) h m) ->
     datetime.toordinal next_run = datetime.toordinal (datetime_now tz) + 1 /\
     datetime.valid_date next_run /\
     datetime.hour next_run = h /\ datetime.minute next_run = m /\
     datetime.second next_run = 0 /\ datetime.microsecond next_run = 0 /\
     datetime.tzname next_run = datetime.tzname (datetime_now tz)).
Proof.
  intros Hs Ha Hb Hh Hm Hzone Hvalid Hmax.
  assert (Htz : timezone timezone_str = Ok tz).
  { unfold MessageScheduler.timezone. destruct Hzone as [[-> ->] | [Hne Hz]].
    - reflexivity.
    - destruct (String.eqb_spec timezone_str "UTC"); [contradiction|].
      rewrite Hz. reflexivity. }
  unfold MessageScheduler.get_next_run_time, MessageScheduler.next_run_time.
  rewrite (parse_schedule_time_ok _ _ _ _ _ Hs Ha Hb). simpl. rewrite Htz. simpl.
  set (now := datetime_now tz) in *.
  unfold datetime.replace_time.
  destruct (Z.leb_spec 0 h), (Z.leb_spec h 23); try lia.
  destruct (Z.leb_spec 0 m), (Z.leb_spec m 59); try lia. simpl.
  set (today_at := datetime.at_time now h m).
  destruct (datetime.leb today_at now) eqn:Hpassed.
  - destruct (datetime.plus_one_day today_at) as [next|e] eqn:Hnext.
    + destruct (plus_one_day_ordinal today_at next Hvalid Hnext) as [Hord Hv].
      assert (Hfields : datetime.hour next = h /\ datetime.minute next = m /\
                        datetime.second next = 0 /\ datetime.microsecond next = 0 /\
                        datetime.tzname next = datetime.tzname now).
      { unfold datetime.plus_one_day in Hnext.
        repeat match type of Hnext with
               | (if ?c then _ else _) = _ => destruct c
               end; try discriminate; injection Hnext as <-; repeat split. }
      destruct Hfields as (Hhour & Hminute & Hsecond & Hmicro & Hname).
      exists next. split; [reflexivity|]. split.
      { destruct (strftime_on_the_minute next Hv) as (yyyy & mm & dd & HH & MM & Ht & Hw);
          [lia | lia | exact Hsecond |].
        rewrite Hhour, Hminute in Hw. rewrite Hname in Ht.
        exists yyyy, mm, dd, HH, MM. split; [exact Ht | exact Hw]. }
      split; [apply (plus_one_day_later today_at next now Hnext); reflexivity|].
      split; [intros Hlt; destruct (leb_true_not_lt _ _ Hpassed Hlt)|].
      intros _. repeat split; assumption || apply Hv.
    + exfalso. apply Hmax. destruct Hvalid as (Hy & Hmo & Hd).
      unfold datetime.plus_one_day in Hnext. simpl in Hnext.
      destruct (Z.ltb_spec (datetime.day now)
                  (datetime.days_in_month (datetime.year now) (datetime.month now)));
        [discriminate|].
      destruct (Z.ltb_spec (datetime.month now) 12); [discriminate|].
      destruct (Z.ltb_spec (datetime.year now) datetime.MAXYEAR); [discriminate|].
      assert (datetime.month now = 12) as Hm12 by lia. rewrite Hm12 in *.
      change (datetime.days_in_month (datetime.year now) 12) with 31 in *.
      unfold datetime.is_max_date. lia.
  - exists today_at. split; [reflexivity|]. split.
    { destruct (strftime_on_the_minute today_at Hvalid) as (yyyy & mm & dd & HH & MM & Ht & Hw);
        [simpl; lia | simpl; lia | reflexivity |].
      exists yyyy, mm, dd, HH, MM. split; [exact Ht | exact Hw]. }
    split; [apply leb_false_lt; exact Hpassed|]. split.
    + intros _. reflexivity.
    + intros Hnot. destruct (Hnot (leb_false_lt _ _ Hpassed)).
Qed.

(** C10.  For every pair of strings [get_next_run_time] returns a string
    and raises nothing: the formatted instant when the computation goes
    through, the text of the error behind the prefix
    ["Error calculating next run time: "] when it raises.  The latter is what
    the caller gets when the fire time is not two integers around one colon
    or when the zone is unknown. *)
Theorem get_next_run_time_error_text (schedule_time timezone_str : string) :
  ((exists next_run,
       next_run_time schedule_time timezone_str = Ok next_run /\
       get_next_run_time schedule_time timezone_str = datetime.strftime next_run) \/
   (exists e,
       next_run_time schedule_time timezone_str = Raise e /\
       get_next_run_time schedule_time timezone_str =
       "Error calculating next run time: " +:+ str e)) /\
  ((~ (exists a b h m,
          split ":" schedule_time = [a; b] /\ int a = Some h /\ int b = Some m) \/
    (timezone_str <> "UTC" /\ pytz_timezone timezone_str = None)) ->
   exists reason,
     get_next_run_time schedule_time timezone_str =
     "Error calculating next run time: " +:+ reason).
Proof.
  unfold MessageScheduler.get_next_run_time. split.
  { destruct (next_run_time schedule_time timezone_str) as [dt|e]; [left|right]; eauto. }
  intros Hbad. unfold MessageScheduler.next_run_time.
  destruct (parse_schedule_time schedule_time) as [[h m]|e] eqn:Hparse; simpl;
    [|eexists; reflexivity].
  destruct Hbad as [Hform|[Hutc Hzone]].
  - destruct Hform. apply parse_schedule_time_inv in Hparse as (a & b & ? & ? & ?).
    exists a, b, h, m. repeat split; assumption.
  - unfold MessageScheduler.timezone.
    destruct (String.eqb_spec timezone_str "UTC"); [contradiction|].
    rewrite Hzone. simpl. eexists. reflexivity.
Qed.

(** A fire time outside the day is answered with the error text as well. *)
Lemma get_next_run_time_out_of_range (schedule_time timezone_str a b : string) (h m : Z) :
  split ":" schedule_time = [a; b] ->
  int a = Some h ->
  int b = Some m ->
  ~ (0 <= h <= 23 /\ 0 <= m <= 59) ->
  exists reason,
    get_next_run_time schedule_time timezone_str =
    "Error calculating next run time: " +:+ reason.
Proof.
  intros Hs Ha Hb Hrange.
  unfold MessageScheduler.get_next_run_time, MessageScheduler.next_run_time.
  rewrite (parse_schedule_time_ok _ _ _ _ _ Hs Ha Hb). simpl.
  destruct (timezone timezone_str) as [tz|e]; simpl; [|eexists; reflexivity].
  unfold datetime.replace_time.
  destruct (Z.leb_spec 0 h), (Z.leb_spec h 23), (Z.leb_spec 0 m), (Z.leb_spec m 59);
    simpl; try (eexists; reflexivity); lia.
Qed.

End NextRunFacts.

Section NextRunExamples.

Import MessageScheduler.

Lemma get_next_run_time_example :
  get_next_run_time int_ascii no_zones tt new_year_morning "09:00" "UTC"
  = "2024-01-02 09:00:00 UTC".
Proof. vm_compute. reflexivity. Qed.

Lemma get_next_run_time_example_same_day :
  get_next_run_time int_ascii no_zones tt new_year_morning "18:30" "UTC"
  = "2024-01-01 18:30:00 UTC".
Proof. vm_compute. reflexivity. Qed.

Lemma get_next_run_time_next_occurrence_witness :
  get_next_run_time int_ascii one_zone UTC new_year_clock "12:30" "Asia/Riyadh"
  = "2024-01-02 12:30:00 +03" /\
  get_next_run_time int_ascii one_zone UTC new_year_clock "12:30" "UTC"
  = "2024-01-01 12:30:00 UTC" /\
  exists next_run,
    get_next_run_time int_ascii one_zone UTC new_year_clock "12:30" "Asia/Riyadh"
      = datetime.strftime next_run /\
    (exists yyyy mm dd HH MM,
        get_next_run_time int_ascii one_zone UTC new_year_clock "12:30" "Asia/Riyadh" =
          yyyy +:+ "-" +:+ mm +:+ "-" +:+ dd +:+ " " +:+ HH +:+ ":" +:+ MM +:+ ":00 "
          +:+ datetime.tzname (new_year_clock Riyadh) /\
        datetime.written 4 (datetime.year next_run) yyyy /\
        datetime.written 2 (datetime.month next_run) mm /\
        datetime.written 2 (datetime.day next_run) dd /\
        datetime.written 2 12 HH /\
        datetime.written 2 30 MM) /\
    datetime.lt (new_year_clock Riyadh) next_run /\
    (datetime.lt (new_year_clock Riyadh) (datetime.at_time (new_year_clock Riyadh) 12 30) ->
     next_run = datetime.at_time (new_year_clock Riyadh) 12 30) /\
    (~ datetime.lt (new_year_clock Riyadh) (datetime.at_time (new_year_clock Riyadh) 12 30) ->
     datetime.toordinal next_run = datetime.toordinal (new_year_clock Riyadh) + 1 /\
     datetime.valid_date next_run /\
     datetime.hour next_run = 12 /\ datetime.minute next_run = 30 /\
     datetime.second next_run = 0 /\ datetime.microsecond next_run = 0 /\
     datetime.tzname next_run = datetime.tzname (new_year_clock Riyadh)).
Proof.
  split; [vm_compute; reflexivity|]. split; [vm_compute; reflexivity|].
  apply (get_next_run_time_next_occurrence int_ascii one_zone UTC new_year_clock
           "12:30" "Asia/Riyadh" "12" "30" 12 30 Riyadh).
  - reflexivity.
  - reflexivity.
  - reflexivity.
  - lia.
  - lia.
  - right. split; [discriminate | reflexivity].
  - vm_compute. repeat split; discriminate.
  - intros (Hy & _). discriminate Hy.
Defined.

Lemma get_next_run_time_error_text_witness :
  (exists reason,
      get_next_run_time int_ascii no_zones tt new_year_morning "9am" "UTC"
      = "Error calculating next run time: " +:+ reason) /\
  (exists reason,
      get_next_run_time int_ascii no_zones tt new_year_morning "09:00" "Mars/Phobos"
      = "Error calculating next run time: " +:+ reason).
Proof.
  split.
  - apply (get_next_run_time_error_text int_ascii no_zones tt new_year_morning).
    left. intros (a & b & h & m & Hs & _). discriminate Hs.
  - apply (get_next_run_time_error_text int_ascii no_zones tt new_year_morning).
    right. split; [discriminate | reflexivity].
Defined.

End NextRunExamples.

(** ** The store under sequences of calls *)

Section StoreHistoryFacts.

Import HabitTracker StoreHistory.

Lemma add_entry_run (u : Z) (notes : option string) (w : World) :
  exists w',
    add_entry u notes w =
      ((if fails 0 w
        then Raise (OperationalError "server closed the connection unexpectedly")
        else Ok (insert_entry u notes (clock w) (tables w)).1), w') /\
    tables w' = (if fails 0 w then tables w
                 else (insert_entry u notes (clock w) (tables w)).2) /\
    clock w' = clock w /\ outages w' = tail (outages w).
Proof.
  unfold add_entry, try_except, and_then.
  destruct (fails 0 w) eqn:Hf.
  - unfold fails in Hf. unfold transaction.
    destruct (outages w) as [|[] rest] eqn:Ho; simpl in Hf; try discriminate.
    simpl. eexists. split; [reflexivity|]. repeat split.
  - rewrite (transaction_answers (insert_entry u notes) w Hf).
    eexists. split; [reflexivity|]. repeat split.
Qed.

Lemma get_user_stats_run (u : Z) (w : World) :
  exists w1 w2 w3 r1 r2 r3,
    get_last_entry u w = (Ok r1, w1) /\ read_step w w1 /\
    get_total_count u w1 = (Ok r2, w2) /\ read_step w1 w2 /\
    get_days_since_last u w2 = (Ok r3, w3) /\ read_step w2 w3 /\
    get_user_stats u w = (Ok (Some (mkStats r1 r2 r3)), w3).
Proof.
  destruct (get_last_entry_run u w) as (w1 & H1 & Hs1).
  destruct (get_total_count_run u w1) as (w2 & H2 & Hs2).
  destruct (get_days_since_last_run u w2) as (w3 & H3 & Hs3).
  do 6 eexists. split; [exact H1|]. split; [exact Hs1|].
  split; [exact H2|]. split; [exact Hs2|]. split; [exact H3|]. split; [exact Hs3|].
  unfold get_user_stats, try_except, and_then. rewrite H1, H2, H3. reflexivity.
Qed.

Lemma get_user_stats_tables (u : Z) (w : World) :
  exists w', get_user_stats u w = ((get_user_stats u w).1, w') /\ tables w' = tables w.
Proof.
  destruct (get_user_stats_run u w)
    as (w1 & w2 & w3 & r1 & r2 & r3 & _ & (Ht1 & _) & _ & (Ht2 & _) & _ & (Ht3 & _) & ->).
  exists w3. split; [reflexivity|]. congruence.
Qed.

(** What each call does to the tables. *)
Lemma run_tables (o : Op) (w : World) :
  tables (run o w) = tables w \/
  (exists u notes, tables (run o w) = (insert_entry u notes (clock w) (tables w)).2) \/
  (exists u language,
      tables (run o w) = (upsert_language u language (clock w) (tables w)).2).
Proof.
  destruct o as [u notes|u|u|u|u|u|u language]; simpl.
  - destruct (add_entry_run u notes w) as (w' & -> & Ht & _). simpl. rewrite Ht.
    destruct (fails 0 w); [left; reflexivity|right; left; eauto].
  - destruct (get_last_entry_run u w) as (w' & -> & Ht & _). left. exact Ht.
  - destruct (get_total_count_run u w) as (w' & -> & Ht & _). left. exact Ht.
  - destruct (get_days_since_last_run u w) as (w' & -> & Ht & _). left. exact Ht.
  - destruct (get_user_stats_tables u w) as (w' & -> & Ht). left. exact Ht.
  - destruct (get_user_language_run u w) as (w' & -> & Ht & _). simpl. rewrite Ht.
    destruct (fails 0 w); [left; reflexivity|].
    destruct (users_table (tables w) !! u); [left; reflexivity|].
    destruct (fails 1 w); [left; reflexivity|right; right; eauto].
  - destruct (set_user_language_run u language w) as (w' & -> & Ht & _). simpl. rewrite Ht.
    destruct (fails 0 w); [left; reflexivity|right; right; eauto].
Qed.


Lemma insert_entry_ids (u : Z) (notes : option string) (c : Clock) (t : Tables) :
  entry_ids (insert_entry u notes c t).2 = (entry_ids t ++ [habit_entries_id_seq t])%list /\
  habit_entries_id_seq (insert_entry u notes c t).2 = habit_entries_id_seq t + 1.
Proof. unfold entry_ids, insert_entry. simpl. rewrite fmap_app. split; reflexivity. Qed.

(** X1. Calls of the operations of [HabitTracker], in any number and order,
    with any outcome, only ever append to the habit entries: the entries on
    record stay where they are (as a prefix of the table), the id sequence
    never goes back and no user row disappears. Nothing in models.py updates
    or deletes an entry. *)
Theorem store_is_append_only (w w' : World) :
  reaches w w' ->
  habit_entries_table (tables w) `prefix_of` habit_entries_table (tables w') /\
  habit_entries_id_seq (tables w) <= habit_entries_id_seq (tables w') /\
  forall u, is_Some (users_table (tables w) !! u) ->
            is_Some (users_table (tables w') !! u).
Proof.
  induction 1 as [w | w w1 o _ (Hpre & Hseq & Hdom) | w w1 w2 _ IH Hsame].
  - split; [reflexivity|]. split; [lia|]. auto.
  - destruct (run_tables o w1) as [-> | [(u & notes & ->) | (u & language & ->)]].
    + split; [exact Hpre|]. split; [exact Hseq|exact Hdom].
    + simpl. split; [|split; [lia|exact Hdom]].
      etransitivity; [exact Hpre|]. apply prefix_app_r. reflexivity.
    + simpl. split; [exact Hpre|]. split; [exact Hseq|].
      intros v Hv. destruct (decide (u = v)) as [->|Hne].
      * rewrite lookup_insert_eq. eauto.
      * rewrite lookup_insert_ne by exact Hne. apply Hdom, Hv.
  - rewrite Hsame. exact IH.
Qed.

(** X2. Under any sequence of calls the ids of the habit entries stay pairwise
    different and below the next value of the sequence, provided they were so
    at the start. *)
Theorem entry_ids_stay_distinct (w w' : World) :
  reaches w w' ->
  well_numbered (tables w) ->
  well_numbered (tables w').
Proof.
  induction 1 as [w | w w1 o _ IH | w w1 w2 _ IH Hsame]; intros Hw.
  - exact Hw.
  - specialize (IH Hw). destruct IH as [Hnd Hlt].
    destruct (run_tables o w1) as [-> | [(u & notes & ->) | (u & language & ->)]].
    + split; assumption.
    + unfold well_numbered.
      destruct (insert_entry_ids u notes (clock w1) (tables w1)) as [-> ->]. split.
      * apply NoDup_app. split; [exact Hnd|]. split; [|apply NoDup_singleton].
        intros i Hi ->%list_elem_of_singleton. specialize (Hlt _ Hi). lia.
      * intros i [Hi | ->%list_elem_of_singleton]%elem_of_app; [specialize (Hlt _ Hi)|]; lia.
    + split; assumption.
  - rewrite Hsame. exact (IH Hw).
Qed.

(** X3. The four read operations [get_last_entry], [get_total_count],
    [get_days_since_last] and [get_user_stats] return normally whatever the
    storage does, and leave every table as it was. *)
Theorem reads_never_raise_nor_write (u : Z) (w : World) :
  (exists r w', get_last_entry u w = (Ok r, w') /\ tables w' = tables w) /\
  (exists r w', get_total_count u w = (Ok r, w') /\ tables w' = tables w) /\
  (exists r w', get_days_since_last u w = (Ok r, w') /\ tables w' = tables w) /\
  (exists r w', get_user_stats u w = (Ok r, w') /\ tables w' = tables w).
Proof.
  split; [|split; [|split]].
  - destruct (get_last_entry_run u w) as (w' & H & Ht & _). eauto.
  - destruct (get_total_count_run u w) as (w' & H & Ht & _). eauto.
  - destruct (get_days_since_last_run u w) as (w' & H & Ht & _). eauto.
  - destruct (get_user_stats_run u w)
      as (w1 & w2 & w3 & r1 & r2 & r3 & _ & (Ht1 & _) & _ & (Ht2 & _) & _ & (Ht3 & _) & H).
    do 2 eexists. split; [exact H|]. congruence.
Qed.

(** X4. [add_entry] lets a storage failure through: when its statement fails
    it raises, and no row of either table is added, changed or removed (what
    becomes of the sequence value that the failed [INSERT] drew is not
    stated); otherwise it returns the id, date and time of the new entry,
    which is appended with the given notes under the next id of the sequence,
    and the users are left alone. *)
Theorem add_entry_stores_or_raises (u : Z) (notes : option string) (w : World) :
  exists w',
    if fails 0 w then
      (exists e, add_entry u notes w = (Raise e, w')) /\
      habit_entries_table (tables w') = habit_entries_table (tables w) /\
      users_table (tables w') = users_table (tables w)
    else
      add_entry u notes w =
        (Ok (Some (mkInserted (habit_entries_id_seq (tables w))
                              (CURRENT_DATE (clock w)) (CURRENT_TIMESTAMP (clock w)))), w') /\
      habit_entries_table (tables w') =
        (habit_entries_table (tables w) ++
         [habit_entries.mkRow (habit_entries_id_seq (tables w)) u
            (CURRENT_DATE (clock w)) (CURRENT_TIMESTAMP (clock w)) notes])%list /\
      habit_entries_id_seq (tables w') = habit_entries_id_seq (tables w) + 1 /\
      users_table (tables w') = users_table (tables w).
Proof.
  destruct (add_entry_run u notes w) as (w' & Hrun & Ht & _). exists w'.
  destruct (fails 0 w).
  - rewrite Ht. split; [eauto|]. split; reflexivity.
  - rewrite Ht. split; [exact Hrun|]. repeat split.
Qed.

(** X5. [set_user_language] and [get_user_language] return normally whatever
    the storage does ([set_user_language] with the language it was given),
    never touch the habit entries or their id sequence, and never touch the
    row of another user; [get_user_language] moreover never changes a row that
    exists. *)
Theorem language_operations_frame (u : Z) (language : string) (w : World) :
  (exists w',
      set_user_language u language w = (Ok language, w') /\
      habit_entries_table (tables w') = habit_entries_table (tables w) /\
      habit_entries_id_seq (tables w') = habit_entries_id_seq (tables w) /\
      forall v, v <> u -> users_table (tables w') !! v = users_table (tables w) !! v) /\
  (exists l w',
      get_user_language u w = (Ok l, w') /\
      habit_entries_table (tables w') = habit_entries_table (tables w) /\
      habit_entries_id_seq (tables w') = habit_entries_id_seq (tables w) /\
      (forall v, v <> u -> users_table (tables w') !! v = users_table (tables w) !! v) /\
      (forall row, users_table (tables w) !! u = Some row ->
                   users_table (tables w') !! u = Some row)).
Proof.
  split.
  - destruct (set_user_language_run u language w) as (w' & Hrun & Ht & _).
    exists w'. split; [exact Hrun|]. rewrite Ht.
    destruct (fails 0 w); [repeat split|]. simpl. repeat split.
    intros v Hv. apply lookup_insert_ne. congruence.
  - destruct (get_user_language_run u w) as (w' & Hrun & Ht & _).
    do 2 eexists. split; [exact Hrun|]. rewrite Ht.
    destruct (fails 0 w); [repeat split; auto|].
    destruct (users_table (tables w) !! u) as [row|] eqn:Hrow;
      [repeat split; auto; intros row0 [= <-]; exact Hrow|].
    destruct (fails 1 w); [repeat split; auto; discriminate|].
    simpl. split; [reflexivity|]. split; [reflexivity|]. split.
    + intros v Hv. apply lookup_insert_ne. congruence.
    + discriminate.
Qed.

(** X6. When its statement goes through, [set_user_language] leaves for the
    user a row with the new language, stamped as updated now, whose creation
    time is the one of the row it replaces, or now for a new user ([ON
    CONFLICT ... DO UPDATE] sets [language] and [updated_at] only). *)
Theorem set_user_language_stamps (u : Z) (language : string) (w : World) :
  fails 0 w = false ->
  exists w',
    set_user_language u language w = (Ok language, w') /\
    users_table (tables w') !! u =
      Some (users.mkRow language
              (match users_table (tables w) !! u with
               | Some old => users.created_at old
               | None => CURRENT_TIMESTAMP (clock w)
               end)
              (CURRENT_TIMESTAMP (clock w))).
Proof.
  intros Hf. destruct (set_user_language_run u language w) as (w' & Hrun & Ht & _).
  exists w'. split; [exact Hrun|]. rewrite Ht, Hf. simpl. rewrite lookup_insert_eq.
  destruct (users_table (tables w) !! u); reflexivity.
Qed.

(** X7. When its query goes through, [get_last_entry] returns [None] exactly
    for a user without entries, and otherwise the date, time and notes of an
    entry of that user that no other entry of theirs precedes in the order
    [entry_date DESC, created_at DESC]. *)
Theorem get_last_entry_most_recent (u : Z) (w : World) :
  fails 0 w = false ->
  exists w',
    (entries_of u (tables w) = [] /\ get_last_entry u w = (Ok None, w')) \/
    (exists e,
        most_recent u (tables w) e /\
        get_last_entry u w =
          (Ok (Some (mkLastEntry (habit_entries.entry_date e)
                                 (habit_entries.created_at e)
                                 (habit_entries.notes e))), w')).
Proof.
  intros Hf. destruct (get_last_entry_run u w) as (w' & Hrun & _). exists w'.
  rewrite Hf in Hrun. unfold select_last_entry in Hrun. simpl in Hrun.
  destruct (order_by_limit_1 (entries_of u (tables w))) as [r|] eqn:Hpick.
  - right. exists r. split; [|exact Hrun].
    destruct (order_by_limit_1_first _ _ Hpick) as [Hin Hmax]. split; assumption.
  - left. split; [|exact Hrun].
    destruct (entries_of u (tables w)) as [|x rows]; [reflexivity|].
    destruct (order_by_limit_1_nonempty (x :: rows) x) as [r Hr]; [left|congruence].
Qed.

(** X8. When its three queries go through, the fields of the result of
    [get_user_stats] agree with each other: the count is the number of the
    user's entries, the last entry and the number of days are absent exactly
    when the count is 0, and the days are today minus the date of the last
    entry. *)
Theorem get_user_stats_coherent (u : Z) (w : World) :
  answers 3 w ->
  exists stats w',
    get_user_stats u w = (Ok (Some stats), w') /\
    total_count stats = Z.of_nat (length (entries_of u (tables w))) /\
    (last_entry stats = None <-> total_count stats = 0) /\
    (days_since_last stats = None <-> total_count stats = 0) /\
    (forall last, last_entry stats = Some last ->
                  days_since_last stats = Some (today (clock w) - entry_date last)).
Proof.
  intros Hup.
  destruct (get_user_stats_run u w)
    as (w1 & w2 & w3 & r1 & r2 & r3 & H1 & (Ht1 & Hc1 & Ho1) & H2 & (Ht2 & Hc2 & Ho2)
        & H3 & _ & Hstats).
  destruct (get_last_entry_run u w) as (w1' & H1' & _).
  destruct (get_total_count_run u w1) as (w2' & H2' & _).
  destruct (get_days_since_last_run u w2) as (w3' & H3' & _).
  rewrite H1 in H1'. rewrite H2 in H2'. rewrite H3 in H3'.
  rewrite (answers_at 3 0 w Hup) in H1' by lia.
  rewrite (fails_tail 0 w w1 Ho1), (answers_at 3 1 w Hup) in H2' by lia.
  rewrite (fails_tail 0 w1 w2 Ho2), (fails_tail 1 w w1 Ho1), (answers_at 3 2 w Hup) in H3' by lia.
  injection H1' as -> _. injection H2' as -> _. injection H3' as -> _.
  exists (mkStats (select_last_entry u (clock w) (tables w)).1
                  (Z.of_nat (length (entries_of u (tables w))))
                  ((fun last => today (clock w) - entry_date last)
                     <$> (select_last_entry u (clock w) (tables w)).1)), w3.
  rewrite Ht2, Hc2, Ht1, Hc1 in Hstats. split; [exact Hstats|]. simpl.
  split; [reflexivity|].
  assert (Hnone : order_by_limit_1 (entries_of u (tables w)) = None <->
                  entries_of u (tables w) = []).
  { split.
    - destruct (entries_of u (tables w)) as [|x rows]; [reflexivity|]. intros Hn.
      destruct (order_by_limit_1_nonempty (x :: rows) x) as [r Hr]; [left|congruence].
    - intros ->. reflexivity. }
  assert (Hlen : Z.of_nat (length (entries_of u (tables w))) = 0 <->
                 entries_of u (tables w) = []).
  { destruct (entries_of u (tables w)); simpl; split; try reflexivity; try discriminate; lia. }
  rewrite Hlen, <- Hnone.
  destruct (order_by_limit_1 (entries_of u (tables w))) as [r|]; simpl.
  - split; [split; discriminate|]. split; [split; discriminate|].
    intros last [= <-]. reflexivity.
  - split; [tauto|]. split; [tauto|]. discriminate.
Qed.


End StoreHistoryFacts.

Section StoreHistoryExamples.

Import HabitTracker StoreHistory.

Lemma store_is_append_only_witness :
  habit_entries_table (tables (one_entry_world [])) `prefix_of`
    habit_entries_table
      (tables (run (AddEntry 7 (Some "did it")) (run (SetUserLanguage 7 "arabic")
                                                       (one_entry_world [])))) /\
  habit_entries_id_seq (tables (one_entry_world [])) <=
    habit_entries_id_seq
      (tables (run (AddEntry 7 (Some "did it")) (run (SetUserLanguage 7 "arabic")
                                                       (one_entry_world [])))) /\
  forall u, is_Some (users_table (tables (one_entry_world [])) !! u) ->
            is_Some (users_table
                       (tables (run (AddEntry 7 (Some "did it"))
                                    (run (SetUserLanguage 7 "arabic")
                                         (one_entry_world [])))) !! u).
Proof.
  apply (store_is_append_only (one_entry_world [])
           (run (AddEntry 7 (Some "did it")) (run (SetUserLanguage 7 "arabic")
                                                  (one_entry_world [])))).
  apply reaches_call, reaches_call, reaches_here.
Defined.

Lemma entry_ids_stay_distinct_witness :
  well_numbered (tables (run (AddEntry 8 None) (run (AddEntry 7 (Some "did it"))
                                                    (one_entry_world [false; true])))).
Proof.
  apply (entry_ids_stay_distinct (one_entry_world [false; true])
           (run (AddEntry 8 None) (run (AddEntry 7 (Some "did it"))
                                       (one_entry_world [false; true])))).
  - apply reaches_call, reaches_call, reaches_here.
  - split.
    + apply NoDup_singleton.
    + intros i Hi. apply list_elem_of_singleton in Hi. subst i. reflexivity.
Defined.

Lemma set_user_language_stamps_witness :
  exists w',
    set_user_language 7 "english" (arabic_world []) = (Ok "english", w') /\
    users_table (tables w') !! 7 =
      Some (users.mkRow "english"
              (match users_table (tables (arabic_world [])) !! 7 with
               | Some old => users.created_at old
               | None => CURRENT_TIMESTAMP (clock (arabic_world []))
               end)
              (CURRENT_TIMESTAMP (clock (arabic_world [])))).
Proof. apply (set_user_language_stamps 7 "english" (arabic_world [])). reflexivity. Defined.

Lemma get_last_entry_most_recent_witness :
  exists w',
    (entries_of 7 (tables (one_entry_world [])) = [] /\
     get_last_entry 7 (one_entry_world []) = (Ok None, w')) \/
    (exists e,
        most_recent 7 (tables (one_entry_world [])) e /\
        get_last_entry 7 (one_entry_world []) =
          (Ok (Some (mkLastEntry (habit_entries.entry_date e)
                                 (habit_entries.created_at e)
                                 (habit_entries.notes e))), w')).
Proof. apply (get_last_entry_most_recent 7 (one_entry_world [])). reflexivity. Defined.

Lemma get_user_stats_coherent_witness :
  exists stats w',
    get_user_stats 7 (one_entry_world []) = (Ok (Some stats), w') /\
    total_count stats = Z.of_nat (length (entries_of 7 (tables (one_entry_world [])))) /\
    (last_entry stats = None <-> total_count stats = 0) /\
    (days_since_last stats = None <-> total_count stats = 0) /\
    (forall last, last_entry stats = Some last ->
                  days_since_last stats =
                    Some (today (clock (one_entry_world [])) - entry_date last)).
Proof. apply (get_user_stats_coherent 7 (one_entry_world [])). reflexivity. Defined.

End StoreHistoryExamples.

(** ** The retry loop outside validated configurations *)

Section FiringEdgeFacts.

Import MessageScheduler.

Context {B : Type}.
Variable send_daily_message : Prog B unit.
Variable send_message : string -> Prog B unit.
Variable config : Config.t.

Lemma jobs_app (a b : list Call) : jobs (a ++ b) = (jobs a + jobs b)%nat.
Proof. unfold jobs. rewrite List.filter_app, length_app. reflexivity. Qed.

Lemma notifications_app (a b : list Call) :
  notifications (a ++ b) = (notifications a ++ notifications b)%list.
Proof. unfold notifications. apply flat_map_app. Qed.

(** Whatever the job does, the loop ends normally within the attempts that
    are left, and it notifies only after the last of them. *)
Lemma while_attempts_bounded (n : Z) (m : nat) :
  0 <= Config.retry_delay config ->
  forall (a : Z) (s : State),
    a + Z.of_nat m = n + 1 ->
    exists s' cs,
      while_attempts send_daily_message send_message config n a s = (Ok tt, s') /\
      calls s' = (calls s ++ cs)%list /\
      (jobs cs <= m)%nat /\
      (length (notifications cs) <= 1)%nat /\
      (notifications cs <> [] -> jobs cs = m).
Proof.
  intros Hd. induction m as [|m IH]; intros a s Ha.
  - exists s, []. rewrite while_attempts_step. destruct (decide (a <= n)); [lia|].
    rewrite app_nil_r. repeat split; auto; intros H; destruct H; reflexivity.
  - rewrite while_attempts_step. destruct (decide (a <= n)); [|lia].
    destruct (send_daily_message (bot s)).1 as [[]|e] eqn:Hjob.
    + destruct (attempt_once_ok send_daily_message send_message config a n s Hjob)
        as (s1 & -> & Hcalls & _).
      exists s1, [Job]. split; [reflexivity|]. split; [exact Hcalls|].
      cbn. repeat split; try lia. intros H. destruct H. reflexivity.
    + destruct (decide (a < n)) as [Hlt|Hge].
      * destruct (attempt_once_retry send_daily_message send_message config a n s e Hjob Hlt Hd)
          as (s1 & -> & Hcalls & _).
        destruct (IH (a + 1) s1) as (s' & cs & -> & Hcs & Hj & Hn & Hlast); [lia|].
        exists s', ([Job; Sleep (Config.retry_delay config)] ++ cs)%list.
        split; [reflexivity|]. split; [rewrite Hcs, Hcalls, <- app_assoc; reflexivity|].
        rewrite jobs_app, notifications_app. cbn.
        split; [lia|]. split; [exact Hn|]. intros H. rewrite (Hlast H). reflexivity.
      * destruct (attempt_once_last send_daily_message send_message config a n s e Hjob)
          as (s1 & -> & Hcalls); [lia|].
        rewrite while_attempts_step. destruct (decide (a + 1 <= n)); [lia|].
        exists s1, [Job; Notify (error_msg n e)]. split; [reflexivity|].
        split; [exact Hcalls|]. cbn. assert (m = 0%nat) by lia. subst m.
        repeat split; lia.
Qed.


(** X10. With a negative [retry_delay] and at least two attempts, a first
    attempt that fails ends the firing with the [ValueError] of [time.sleep]:
    the exception leaves [_send_scheduled_message], the job has run once, and
    neither a retry nor the notification follows. *)
Theorem negative_delay_aborts_the_firing (s : State) (e : Exn) :
  Config.retry_delay config < 0 ->
  2 <= Config.retry_attempts config ->
  (send_daily_message (bot s)).1 = Raise e ->
  exists s',
    _send_scheduled_message send_daily_message send_message config s =
      (Raise (ValueError "sleep length must be non-negative"), s') /\
    calls s' = (calls s ++ [Job])%list /\
    bot s' = (send_daily_message (bot s)).2.
Proof.
  intros Hd Hn Hjob. unfold _send_scheduled_message. rewrite while_attempts_step.
  destruct (decide (1 <= Config.retry_attempts config)); [|lia].
  unfold MessageScheduler.attempt_once, try_except, and_then, call. simpl.
  destruct (send_daily_message (bot s)) as [r b]. simpl in *. subst r.
  destruct (Z.ltb_spec 1 (Config.retry_attempts config)); [|lia].
  unfold sleep. simpl. destruct (Z.ltb_spec (Config.retry_delay config) 0); [|lia].
  eexists. split; [reflexivity|]. split; reflexivity.
Qed.

End FiringEdgeFacts.

Section FiringEdgeExamples.

Import MessageScheduler TelegramBot.


Lemma negative_delay_aborts_the_firing_witness :
  exists s',
    _send_scheduled_message (flaky_job 9) quiet_send ConfigValidation.hasty_config (mkState 0%nat [] []) =
      (Raise (ValueError "sleep length must be non-negative"), s') /\
    calls s' = (calls (mkState 0%nat [] []) ++ [Job])%list /\
    bot s' = (flaky_job 9 (bot (mkState 0%nat [] []))).2.
Proof.
  apply (negative_delay_aborts_the_firing (flaky_job 9) quiet_send ConfigValidation.hasty_config
           (mkState 0%nat [] []) (ApiException "Read timed out")).
  - reflexivity.
  - vm_compute. discriminate.
  - reflexivity.
Defined.

End FiringEdgeExamples.

(** ** Validation of the configuration *)

Section ValidationFacts.

Import ConfigValidation MessageScheduler.

Variable int : string -> option Z.

(** The time check of [validate] and the parser of the scheduler accept the
    same texts. *)
Lemma check_schedule_time_ok (schedule_time : string) :
  check_schedule_time int schedule_time = Ok tt <->
  exists h m,
    parse_schedule_time int schedule_time = Ok (h, m) /\
    0 <= h <= 23 /\ 0 <= m <= 59.
Proof.
  unfold check_schedule_time, parse_schedule_time.
  destruct (split ":" schedule_time) as [|a [|b [|c rest]]]; simpl.
  - split; [discriminate|intros (h & m & H & _); discriminate].
  - split; [discriminate|intros (h & m & H & _)]. destruct (int_of int a); discriminate.
  - destruct (int_of int a) as [h|e]; simpl;
      [|split; [discriminate|intros (? & ? & H & _); discriminate]].
    destruct (int_of int b) as [m|e]; simpl;
      [|split; [discriminate|intros (? & ? & H & _); discriminate]].
    destruct (negb _) eqn:Hr.
    + split; [discriminate|]. intros (h' & m' & [= <- <-] & ? & ?). exfalso.
      apply negb_true_iff in Hr. rewrite !andb_false_iff, !Z.leb_gt in Hr. lia.
    + split; [intros _|reflexivity]. exists h, m. split; [reflexivity|].
      apply negb_false_iff in Hr. rewrite !andb_true_iff, !Z.leb_le in Hr. lia.
  - split; [discriminate|intros (h & m & H & _)].
    destruct (int_of int a); simpl in H; [|discriminate].
    destruct (int_of int b); simpl in H; [|discriminate].
    destruct (int_of int c); discriminate.
Qed.

Lemma errors_nil (c : Config.t) :
  errors int c = [] ->
  unset (Config.bot_token c) = false /\
  unset (Config.chat_id c) = false /\
  check_schedule_time int (Config.schedule_time c) = Ok tt /\
  Config.validate_numeric c = true.
Proof.
  unfold errors, Config.validate_numeric.
  destruct (unset (Config.bot_token c)); [discriminate|].
  destruct (unset (Config.chat_id c)); [discriminate|].
  destruct (check_schedule_time int (Config.schedule_time c)) as [[]|e]; [|discriminate].
  destruct (Config.retry_attempts c <? 1); [discriminate|].
  destruct (Config.retry_delay c <? 0); [discriminate|].
  intros _. repeat split.
Qed.

Lemma validate_ok (c : Config.t) : validate int c = Ok true -> errors int c = [].
Proof. unfold validate. destruct (errors int c); [reflexivity|discriminate]. Qed.


Context {TZ : Type}.
Variable pytz_timezone : string -> option TZ.
Variable pytz_UTC : TZ.
Variable datetime_now : TZ -> datetime.t.

Lemma plus_one_day_ok (d : datetime.t) :
  datetime.valid_date d ->
  ~ datetime.is_max_date d ->
  exists next, datetime.plus_one_day d = Ok next.
Proof.
  intros (Hy & Hm & Hd) Hmax. unfold datetime.plus_one_day.
  destruct (Z.ltb_spec (datetime.day d) (datetime.days_in_month (datetime.year d) (datetime.month d)));
    [eauto|].
  destruct (Z.ltb_spec (datetime.month d) 12); [eauto|].
  destruct (Z.ltb_spec (datetime.year d) datetime.MAXYEAR); [eauto|].
  exfalso. apply Hmax. assert (datetime.month d = 12) as Hm12 by lia. rewrite Hm12 in *.
  change (datetime.days_in_month (datetime.year d) 12) with 31 in *.
  unfold datetime.is_max_date. lia.
Qed.

(** X11. A configuration that [Config.validate] accepts can be scheduled: its
    numeric settings are those the retry loop needs ([retry_attempts >= 1],
    [retry_delay >= 0]), and for a zone the host knows and a clock before
    9999-12-31, [get_next_run_time] returns the rendering of an instant later
    than now, not its error text. *)
Theorem validated_time_is_schedulable (c : Config.t) (tz : TZ) :
  validate int c = Ok true ->
  timezone pytz_timezone pytz_UTC (Config.timezone c) = Ok tz ->
  datetime.valid_date (datetime_now tz) ->
  ~ datetime.is_max_date (datetime_now tz) ->
  Config.validate_numeric c = true /\
  exists next_run,
    get_next_run_time int pytz_timezone pytz_UTC datetime_now
      (Config.schedule_time c) (Config.timezone c) = datetime.strftime next_run /\
    datetime.lt (datetime_now tz) next_run.
Proof.
  intros Hv Htz Hvalid Hmax.
  destruct (errors_nil c (validate_ok c Hv)) as (_ & _ & Htime & Hnum).
  split; [exact Hnum|].
  apply check_schedule_time_ok in Htime as (h & m & Hparse & Hh & Hm).
  unfold get_next_run_time, next_run_time. rewrite Hparse. simpl. rewrite Htz. simpl.
  unfold datetime.replace_time.
  destruct (Z.leb_spec 0 h), (Z.leb_spec h 23); try lia.
  destruct (Z.leb_spec 0 m), (Z.leb_spec m 59); try lia. simpl.
  destruct (datetime.leb (datetime.at_time (datetime_now tz) h m) (datetime_now tz)) eqn:Hpassed.
  - destruct (plus_one_day_ok (datetime.at_time (datetime_now tz) h m) Hvalid Hmax)
      as [next Hnext].
    rewrite Hnext. exists next. split; [reflexivity|].
    apply (plus_one_day_later _ _ _ Hnext); reflexivity.
  - eexists. split; [reflexivity|]. apply leb_false_lt. exact Hpassed.
Qed.

(** X12. A schedule time that the check of [Config.validate] (and of the
    configuration editor) rejects never yields a run time: for every zone and
    every clock [get_next_run_time] returns its error text. This includes
    times outside the day such as [25:00], which parse as two integers. *)
Theorem rejected_time_is_never_scheduled (schedule_time timezone_str : string) (e : Exn) :
  check_schedule_time int schedule_time = Raise e ->
  exists reason,
    get_next_run_time int pytz_timezone pytz_UTC datetime_now schedule_time timezone_str =
    "Error calculating next run time: " +:+ reason.
Proof.
  intros Hbad. unfold get_next_run_time, next_run_time.
  destruct (parse_schedule_time int schedule_time) as [[h m]|e1] eqn:Hparse; simpl;
    [|eexists; reflexivity].
  destruct (timezone pytz_timezone pytz_UTC timezone_str) as [tz|e2]; simpl;
    [|eexists; reflexivity].
  unfold datetime.replace_time.
  destruct (negb ((0 <=? h) && (h <=? 23))) eqn:Hh; [eexists; reflexivity|].
  destruct (negb ((0 <=? m) && (m <=? 59))) eqn:Hm; [eexists; reflexivity|].
  exfalso. apply negb_false_iff in Hh, Hm.
  rewrite andb_true_iff, !Z.leb_le in Hh, Hm.
  assert (Hok : check_schedule_time int schedule_time = Ok tt).
  { apply check_schedule_time_ok. exists h, m. split; [exact Hparse|lia]. }
  congruence.
Qed.

Variable strip : string -> string.
Variable lower : string -> string.

(** X13. Whatever is typed at its three prompts and whether or not the file
    can be saved, the configuration editor [CLI._edit_config] keeps a schedule
    time that passes the check, and leaves the token, the zone and the retry
    settings as they were. *)
Theorem edit_config_keeps_the_time_valid
  (typed_time typed_chat typed_date : string) (saved : Result unit) (c : Config.t) :
  check_schedule_time int (Config.schedule_time c) = Ok tt ->
  check_schedule_time int
    (Config.schedule_time (_edit_config int strip lower typed_time typed_chat typed_date saved c).1)
  = Ok tt /\
  Config.bot_token (_edit_config int strip lower typed_time typed_chat typed_date saved c).1
  = Config.bot_token c /\
  Config.timezone (_edit_config int strip lower typed_time typed_chat typed_date saved c).1
  = Config.timezone c /\
  Config.retry_attempts (_edit_config int strip lower typed_time typed_chat typed_date saved c).1
  = Config.retry_attempts c /\
  Config.retry_delay (_edit_config int strip lower typed_time typed_chat typed_date saved c).1
  = Config.retry_delay c.
Proof.
  intros Hok. unfold _edit_config.
  destruct (String.eqb (strip typed_time) "");
    [|destruct (check_schedule_time int (strip typed_time)) as [[]|e] eqn:Hnew];
    destruct (String.eqb (strip typed_chat) "");
    destruct (String.eqb (lower (strip typed_date)) "true" ||
              String.eqb (lower (strip typed_date)) "false");
    simpl; repeat split; assumption.
Qed.

End ValidationFacts.

Section ValidationExamples.

Import ConfigValidation MessageScheduler TelegramBot.

Lemma validated_time_is_schedulable_witness :
  Config.validate_numeric sample_config = true /\
  exists next_run,
    get_next_run_time int_ascii no_zones tt new_year_morning
      (Config.schedule_time sample_config) (Config.timezone sample_config)
    = datetime.strftime next_run /\
    datetime.lt (new_year_morning tt) next_run.
Proof.
  apply (validated_time_is_schedulable int_ascii no_zones tt new_year_morning
           sample_config tt).
  - reflexivity.
  - reflexivity.
  - vm_compute. repeat split; discriminate.
  - intros (Hy & _). discriminate Hy.
Defined.

Lemma rejected_time_is_never_scheduled_witness :
  exists reason,
    get_next_run_time int_ascii no_zones tt new_year_morning "25:00" "UTC" =
    "Error calculating next run time: " +:+ reason.
Proof.
  apply (rejected_time_is_never_scheduled int_ascii no_zones tt new_year_morning
           "25:00" "UTC" (ValueError EmptyString)).
  reflexivity.
Defined.

Lemma edit_config_keeps_the_time_valid_witness :
  check_schedule_time int_ascii
    (Config.schedule_time
       (_edit_config int_ascii id ascii_lower "7pm" "@daily" "TRUE"
          (Ok tt) sample_config).1)
  = Ok tt /\
  Config.bot_token
    (_edit_config int_ascii id ascii_lower "7pm" "@daily" "TRUE" (Ok tt) sample_config).1
  = Config.bot_token sample_config /\
  Config.timezone
    (_edit_config int_ascii id ascii_lower "7pm" "@daily" "TRUE" (Ok tt) sample_config).1
  = Config.timezone sample_config /\
  Config.retry_attempts
    (_edit_config int_ascii id ascii_lower "7pm" "@daily" "TRUE" (Ok tt) sample_config).1
  = Config.retry_attempts sample_config /\
  Config.retry_delay
    (_edit_config int_ascii id ascii_lower "7pm" "@daily" "TRUE" (Ok tt) sample_config).1
  = Config.retry_delay sample_config.
Proof.
  apply (edit_config_keeps_the_time_valid int_ascii id ascii_lower "7pm" "@daily" "TRUE"
           (Ok tt) sample_config).
  reflexivity.
Defined.

End ValidationExamples.

(** ** The daily job at its edges *)

Section DailyEdgeFacts.

Import TelegramBot.

Variable int : string -> option Z.
Variable chat_id : string.
Variable daily_text : Z -> Prog Chat string.

(** One call of [send_message], whatever the transport does next. *)
Lemma send_message_run (text : string) (c : Chat) :
  exists c',
    send_message chat_id text c =
      ((match transport c with
        | true :: _ => Raise (ApiException "A request to the Telegram API was unsuccessful")
        | _ => Ok tt
        end), c') /\
    transport c' = tail (transport c) /\
    outbox c' = (outbox c ++ match transport c with
                             | true :: _ => []
                             | _ => [text]
                             end)%list.
Proof.
  unfold send_message, try_except, and_then, api_send_message.
  destruct (transport c) as [|[] rest]; simpl;
    (eexists; split; [reflexivity|]; split; [reflexivity|]);
    rewrite ?app_nil_r; reflexivity.
Qed.

(** X14. A chat id that [int] does not read as an integer (a channel name,
    say) stops the daily job before any text is composed: the job still
    returns normally, the text of the day is never computed, and what reaches
    the chat is the failure notice quoting the [ValueError] of [int], or
    nothing when that send fails too. *)
Theorem daily_message_needs_a_numeric_chat_id (c : Chat) :
  int chat_id = None ->
  exists c',
    send_daily_message int chat_id daily_text c = (Ok tt, c') /\
    transport c' = tail (transport c) /\
    outbox c' =
      (outbox c ++
       match transport c with
       | true :: _ => []
       | _ => ["❌ Failed to send scheduled message: "
               +:+ "invalid literal for int() with base 10: '" +:+ chat_id +:+ "'"]
       end)%list.
Proof.
  intros Hid. unfold send_daily_message.
  erewrite try_except_raise; cycle 1.
  { erewrite and_then_raise; [reflexivity|]. unfold eval, int_of. rewrite Hid. reflexivity. }
  erewrite and_then_ok; [|reflexivity].
  match goal with |- context [try_except (send_message _ ?m) _ ?c2] =>
    destruct (send_message_run m c2) as (c3 & Hrun & Ht & Ho) end.
  unfold try_except. rewrite Hrun. simpl in Ht, Ho. simpl.
  destruct (transport c) as [|[] rest]; simpl;
    (eexists; split; [reflexivity|]; split; [exact Ht|exact Ho]).
Qed.

(** X15. With a numeric chat id and a text of the day that composes normally,
    one run of the daily job returns normally and puts at most one text into
    the chat, decided by the next two calls of the Telegram API: the text of
    the day when the first goes through, the failure notice when only the
    second does, and nothing at all when both fail. *)
Theorem daily_message_delivery (c : Chat) (user_id : Z) (text : string) :
  int chat_id = Some user_id ->
  (forall c0, daily_text user_id c0 = (Ok text, c0)) ->
  exists c',
    send_daily_message int chat_id daily_text c = (Ok tt, c') /\
    outbox c' =
      (outbox c ++
       match transport c with
       | true :: true :: _ => []
       | true :: _ =>
           ["❌ Failed to send scheduled message: "
            +:+ "A request to the Telegram API was unsuccessful"]
       | _ => [text]
       end)%list.
Proof.
  intros Hid Htext. unfold send_daily_message.
  destruct (send_message_run text c) as (c1 & Hrun & Ht1 & Ho1).
  destruct (transport c) as [|[] rest] eqn:Hc.
  - erewrite try_except_ok; cycle 1.
    { erewrite and_then_ok; [|unfold eval, int_of; rewrite Hid; reflexivity].
      erewrite and_then_ok; [|apply Htext]. exact Hrun. }
    eexists. split; [reflexivity|exact Ho1].
  - erewrite try_except_raise; cycle 1.
    { erewrite and_then_ok; [|unfold eval, int_of; rewrite Hid; reflexivity].
      erewrite and_then_ok; [|apply Htext]. exact Hrun. }
    erewrite and_then_ok; [|reflexivity].
    match goal with |- context [try_except (send_message _ ?m) _ ?c2] =>
      destruct (send_message_run m c2) as (c3 & Hrun3 & _ & Ho3) end.
    unfold try_except. rewrite Hrun3. simpl in Ho3 |- *.
    rewrite Ht1 in Ho3 |- *. rewrite Ho1 in Ho3. rewrite app_nil_r in Ho3. simpl in Ho3 |- *.
    destruct rest as [|[] rest']; simpl;
      (eexists; split; [reflexivity|]); rewrite Ho3; rewrite ?app_nil_r; reflexivity.
  - erewrite try_except_ok; cycle 1.
    { erewrite and_then_ok; [|unfold eval, int_of; rewrite Hid; reflexivity].
      erewrite and_then_ok; [|apply Htext]. exact Hrun. }
    eexists. split; [reflexivity|exact Ho1].
Qed.

End DailyEdgeFacts.

Section DailyEdgeExamples.

Import TelegramBot.

Lemma daily_message_needs_a_numeric_chat_id_witness :
  exists c',
    send_daily_message int_ascii "@mindful_channel" (fun _ => ret "Stay mindful today!")
      (mkChat [] [] []) = (Ok tt, c') /\
    transport c' = tail (transport (mkChat [] [] [])) /\
    outbox c' =
      (outbox (mkChat [] [] []) ++
       match transport (mkChat [] [] []) with
       | true :: _ => []
       | _ => ["❌ Failed to send scheduled message: "
               +:+ "invalid literal for int() with base 10: '" +:+ "@mindful_channel" +:+ "'"]
       end)%list.
Proof.
  apply (daily_message_needs_a_numeric_chat_id int_ascii "@mindful_channel"
           (fun _ => ret "Stay mindful today!") (mkChat [] [] [])).
  reflexivity.
Defined.

Lemma daily_message_delivery_witness :
  exists c',
    send_daily_message int_ascii "12345" (fun _ => ret "Stay mindful today!")
      (mkChat [true; true] [] []) = (Ok tt, c') /\
    outbox c' =
      (outbox (mkChat [true; true] [] []) ++
       match transport (mkChat [true; true] [] []) with
       | true :: true :: _ => []
       | true :: _ =>
           ["❌ Failed to send scheduled message: "
            +:+ "A request to the Telegram API was unsuccessful"]
       | _ => ["Stay mindful today!"]
       end)%list.
Proof.
  apply (daily_message_delivery int_ascii "12345" (fun _ => ret "Stay mindful today!")
           (mkChat [true; true] [] []) 12345 "Stay mindful today!").
  - reflexivity.
  - reflexivity.
Defined.

End DailyEdgeExamples.

(** ** Loading the language files *)

Section LanguageFilesFacts.

Import LanguageManager LanguageFiles.

Lemma load_languages_broken (english_json arabic_json : Result Document) :
  (exists e, english_json = Raise e) \/ (exists e, arabic_json = Raise e) ->
  __init__ english_json arabic_json = {[ "english" := fallback ]}.
Proof.
  unfold __init__, load_languages.
  intros [[e ->] | [e ->]]; [|destruct english_json as [english|e']].
  - apply insert_empty.
  - rewrite insert_insert_eq. apply insert_empty.
  - apply insert_empty.
Qed.

(** The keys after loading. *)
Lemma load_languages_keys (english_json arabic_json : Result Document) :
  is_Some (__init__ english_json arabic_json !! "english") /\
  (forall language, language <> "english" -> language <> "arabic" ->
                    __init__ english_json arabic_json !! language = None).
Proof.
  destruct english_json as [english|e1], arabic_json as [arabic|e2];
    unfold __init__, load_languages; cbv zeta;
    (split; [|intros l H1 H2; rewrite !lookup_insert_ne by congruence; apply lookup_empty]).
  - rewrite lookup_insert_ne by discriminate. rewrite lookup_insert_eq. eauto.
  - rewrite lookup_insert_eq. eauto.
  - rewrite lookup_insert_eq. eauto.
  - rewrite lookup_insert_eq. eauto.
Qed.

(** X16. However the two files load, the manager ends up with an English
    bundle and with nothing besides English and Arabic; it has the Arabic
    bundle exactly when both files loaded, and then both are the files'
    contents; when either file fails, also the English bundle is the built-in
    fallback, whatever [english.json] held. *)
Theorem load_languages_outcome (english_json arabic_json : Result Document) :
  is_Some (__init__ english_json arabic_json !! "english") /\
  (forall language, language <> "english" -> language <> "arabic" ->
                    __init__ english_json arabic_json !! language = None) /\
  (is_Some (__init__ english_json arabic_json !! "arabic") <->
   exists english arabic, english_json = Ok english /\ arabic_json = Ok arabic) /\
  (forall english arabic,
      english_json = Ok english -> arabic_json = Ok arabic ->
      __init__ english_json arabic_json !! "english" = Some english /\
      __init__ english_json arabic_json !! "arabic" = Some arabic) /\
  ((exists e, english_json = Raise e) \/ (exists e, arabic_json = Raise e) ->
   __init__ english_json arabic_json !! "english" = Some fallback).
Proof.
  destruct (load_languages_keys english_json arabic_json) as (Hen & Hother).
  split; [exact Hen|]. split; [exact Hother|]. clear Hen Hother.
  destruct english_json as [english|e1], arabic_json as [arabic|e2];
    unfold __init__, load_languages; cbv zeta.
  - split; [split; [eauto|intros _; rewrite lookup_insert_eq; eauto]|].
    split.
    + intros ? ? [= <-] [= <-]. rewrite lookup_insert_ne by discriminate.
      rewrite !lookup_insert_eq. split; reflexivity.
    + intros [[e [=]] | [e [=]]].
  - split; [split|].
    + rewrite !lookup_insert_ne by discriminate. rewrite lookup_empty. intros [? [=]].
    + intros (? & ? & _ & [=]).
    + split; [intros ? ? _ [=]|]. intros _. apply lookup_insert_eq.
  - split; [split|].
    + rewrite !lookup_insert_ne by discriminate. rewrite lookup_empty. intros [? [=]].
    + intros (? & ? & [=] & _).
    + split; [intros ? ? [=]|]. intros _. apply lookup_insert_eq.
  - split; [split|].
    + rewrite !lookup_insert_ne by discriminate. rewrite lookup_empty. intros [? [=]].
    + intros (? & ? & [=] & _).
    + split; [intros ? ? [=]|]. intros _. apply lookup_insert_eq.
Qed.

(** X17. When [arabic.json] cannot be loaded, a user whose language is Arabic
    is classified with the two phrases of the last-resort list only: a message
    counts as a habit message exactly when its lower-cased text contains ["did
    it"] or ["slipped up"], whatever [english.json] held. *)
Theorem arabic_without_its_file
  (lower : string -> string) (english_json : Result Document) (e : Exn) (text : string) :
  get_habit_patterns (bundle <$> __init__ english_json (Raise e)) "arabic"
  = ["did it"; "slipped up"] /\
  is_habit_message lower (bundle <$> __init__ english_json (Raise e)) text "arabic"
  = contains "did it" (lower text) || contains "slipped up" (lower text).
Proof.
  rewrite load_languages_broken by (right; eauto).
  assert (Hp : get_habit_patterns (bundle <$> {[ "english" := fallback ]}) "arabic"
               = ["did it"; "slipped up"]).
  { unfold get_habit_patterns, get_habit_patterns_try, getitem. simpl.
    rewrite lookup_fmap, lookup_singleton_ne by discriminate. reflexivity. }
  split; [exact Hp|].
  unfold is_habit_message, is_habit_message_try. rewrite Hp. simpl.
  rewrite orb_false_r. reflexivity.
Qed.

Section TextFacts.

Context {V : Type}.
Variable format : string -> list (string * V) -> Result string.

(** X18. After loading, every language other than Arabic gets from [get_text]
    the answer English gets, keyword arguments or not. When a file failed to
    load, every language, also English and Arabic, is answered from the
    built-in fallback bundle: without keyword arguments the answer is the
    welcome text for [commands]/[welcome], the error text of the bundle for
    [general]/[error], and ["Text not found"] for every other category and
    key. *)
Theorem get_text_after_loading
  (english_json arabic_json : Result Document) (language category key : string)
  (kwargs : list (string * V)) :
  (language <> "arabic" ->
   get_text format (__init__ english_json arabic_json) language category key kwargs =
   get_text format (__init__ english_json arabic_json) "english" category key kwargs) /\
  ((exists e, english_json = Raise e) \/ (exists e, arabic_json = Raise e) ->
   get_text format (__init__ english_json arabic_json) language category key kwargs =
   get_text format {[ "english" := fallback ]} "english" category key kwargs /\
   get_text format (__init__ english_json arabic_json) language category key [] =
     if String.eqb category "commands" && String.eqb key "welcome"
     then "Welcome! Language files not found."
     else if String.eqb category "general" && String.eqb key "error"
          then "Error loading languages"
          else "Text not found").
Proof.
  destruct (load_languages_keys english_json arabic_json) as ([en Hen] & Hother).
  assert (Hknown : forall l, l <> "arabic" ->
            known (__init__ english_json arabic_json) l = "english").
  { intros l Hl. unfold known. destruct (String.eqb_spec l "english") as [->|Hne].
    - rewrite Hen. reflexivity.
    - rewrite (Hother l Hne Hl). reflexivity. }
  split.
  - intros Hl. unfold get_text, get_text_try. rewrite (Hknown language Hl).
    rewrite (Hknown "english") by discriminate. reflexivity.
  - intros Hbroken. rewrite (load_languages_broken _ _ Hbroken).
    assert (Hany : forall kw,
              get_text format {[ "english" := fallback ]} language category key kw =
              get_text format {[ "english" := fallback ]} "english" category key kw).
    { intros kw. unfold get_text, get_text_try, known.
      destruct (String.eqb_spec language "english") as [->|Hne]; [reflexivity|].
      rewrite lookup_singleton_ne by congruence. reflexivity. }
    split; [apply Hany|]. rewrite Hany.
    unfold get_text, get_text_try, known, getitem. rewrite lookup_singleton_eq.
    simpl.
    destruct (String.eqb_spec category "commands") as [->|Hc].
    + rewrite lookup_insert_eq. simpl.
      destruct (String.eqb_spec key "welcome") as [->|Hk].
      * rewrite lookup_singleton_eq. reflexivity.
      * rewrite lookup_singleton_ne by congruence. reflexivity.
    + rewrite lookup_insert_ne by congruence. simpl.
      destruct (String.eqb_spec category "general") as [->|Hg].
      * rewrite lookup_singleton_eq. simpl.
        destruct (String.eqb_spec key "error") as [->|Hk].
        -- rewrite lookup_singleton_eq. reflexivity.
        -- rewrite lookup_singleton_ne by congruence. reflexivity.
      * rewrite lookup_singleton_ne by congruence. reflexivity.
Qed.

End TextFacts.

(** X19. Whatever index is drawn, [get_daily_message] returns either the
    default text or one of the daily messages of the bundle it reads (the
    language's own, or the English one for a language that is not loaded);
    with a draw inside the list, as [random.choice] makes it, and messages on
    file, it is one of these messages. *)
Theorem get_daily_message_from_the_list
  (randbelow : nat -> nat) (languages : gmap string Document) (language : string) :
  (get_daily_message randbelow languages language = "Stay mindful today!" \/
   exists d messages,
     languages !! known languages language = Some d /\
     daily_messages d = Some messages /\
     get_daily_message randbelow languages language ∈ messages) /\
  (forall d message messages,
      languages !! known languages language = Some d ->
      daily_messages d = Some (message :: messages) ->
      (randbelow (length (message :: messages)) < length (message :: messages))%nat ->
      get_daily_message randbelow languages language ∈ message :: messages).
Proof.
  unfold get_daily_message. split.
  - destruct (languages !! known languages language) as [d|]; [|left; reflexivity].
    destruct (daily_messages d) as [messages|] eqn:Hm; simpl.
    + destruct (messages !! randbelow (length messages)) as [m|] eqn:Hdraw;
        [|left; reflexivity].
      right. exists d, messages. split; [reflexivity|]. split; [exact Hm|].
      eapply list_elem_of_lookup_2. exact Hdraw.
    + left. destruct (randbelow 1%nat) as [|n]; reflexivity.
  - intros d message messages -> -> Hdraw. simpl default.
    destruct (lookup_lt_is_Some_2 (message :: messages) _ Hdraw) as [m Hm].
    rewrite Hm. eapply list_elem_of_lookup_2. exact Hm.
Qed.

End LanguageFilesFacts.

Section LanguageFilesExamples.

Import LanguageManager LanguageFiles.

Lemma get_text_example :
  get_text (V := Z) (fun text _ => Ok text) (__init__ (Ok english_file) (Ok arabic_file))
    "french" "status" "title" [] = "📊 Your Habit Tracking Status" /\
  get_text (V := Z) (fun text _ => Ok text)
    (__init__ (Ok english_file) (Raise (ValueError "Expecting value")))
    "english" "status" "title" [] = "Text not found".
Proof. split; vm_compute; reflexivity. Qed.

End LanguageFilesExamples.

(** ** The life cycle of the scheduler *)

Section LifecycleFacts.

Import MessageScheduler SchedulerLifecycle.

Context {B : Type}.
Variable send_message : string -> Prog B unit.
Variable every_day_at : string -> Result unit.
Variable int : string -> option Z.
Context {TZ : Type}.
Variable pytz_timezone : string -> option TZ.
Variable pytz_UTC : TZ.
Variable datetime_now : TZ -> datetime.t.

Abbreviation start := (start send_message int pytz_timezone pytz_UTC datetime_now).
Abbreviation startup_msg := (startup_msg int pytz_timezone pytz_UTC datetime_now).

Lemma setup_schedule_run (s : @Scheduler B) :
  exists s',
    _setup_schedule every_day_at s = (every_day_at (schedule_time s), s') /\
    jobs s' = match every_day_at (schedule_time s) with
              | Ok _ => [schedule_time s]
              | Raise _ => []
              end /\
    bot s' = bot s /\ schedule_time s' = schedule_time s /\ timezone s' = timezone s /\
    running s' = running s /\ scheduler_thread s' = scheduler_thread s /\
    threads s' = threads s.
Proof.
  unfold _setup_schedule, try_except, and_then, clear, do, eval, logger, raise. simpl.
  destruct (every_day_at (schedule_time s)) as [[]|e]; simpl;
    (eexists; split; [reflexivity|]; repeat split).
Qed.

(** X20. [reschedule] never raises and always leaves the new time in the
    configuration. When the [schedule] library accepts the time, it returns
    [True] and exactly one job, at the new time, is registered, whatever was
    registered before; when the library rejects it, it returns [False] and no
    job at all is registered any more: the job that was scheduled before is
    gone and the configuration holds the rejected time. *)
Theorem reschedule_outcome (new_time : string) (s : @Scheduler B) :
  exists s',
    reschedule every_day_at new_time s =
      (Ok (match every_day_at new_time with Ok _ => true | Raise _ => false end), s') /\
    jobs s' = match every_day_at new_time with
              | Ok _ => [new_time]
              | Raise _ => []
              end /\
    schedule_time s' = new_time /\
    bot s' = bot s /\ running s' = running s /\ threads s' = threads s.
Proof.
  unfold reschedule.
  destruct (setup_schedule_run
              (mkScheduler (bot s) new_time (timezone s) (running s)
                           (scheduler_thread s) (jobs s) (threads s) (log s)))
    as (s1 & Hrun & Hjobs & Hbot & Htime & _ & Hrunning & _ & Hthreads).
  simpl in Hrun, Hjobs, Hbot, Htime, Hrunning, Hthreads.
  unfold try_except, and_then at 1. unfold set_schedule_time at 1.
  unfold and_then at 1. rewrite Hrun.
  destruct (every_day_at new_time) as [[]|e]; simpl;
    (eexists; split; [reflexivity|]; simpl; repeat split; assumption).
Qed.

(** X21. [start] never raises, also when the start-up notification cannot be
    sent, and leaves the scheduler running. From rest it starts one thread and
    hands the bot exactly one text, which announces the next run as
    [get_next_run_time(schedule_time)] computes it for its default zone UTC,
    whatever zone the configuration names. A second [start] only logs a
    warning: it starts no second thread, sends nothing and leaves the
    registered jobs alone. *)
Theorem start_twice (s : @Scheduler B) :
  exists s1 s2,
    start s = (Ok tt, s1) /\
    running s1 = true /\ jobs s1 = jobs s /\
    (running s = false ->
     threads s1 = S (threads s) /\
     bot s1 =
       (send_message
          ("🤖 Daily Message Bot started!" +:+ nl +:+ nl
           +:+ "📅 Next message scheduled for: "
           +:+ get_next_run_time int pytz_timezone pytz_UTC datetime_now
                 (schedule_time s) "UTC")
          (bot s)).2) /\
    start s1 = (Ok tt, s2) /\
    bot s2 = bot s1 /\ threads s2 = threads s1 /\ jobs s2 = jobs s1 /\
    running s2 = true /\
    log s2 = (log s1 ++ [(WARNING, "Scheduler is already running")])%list.
Proof.
  assert (Hfirst : exists s1,
             start s = (Ok tt, s1) /\ running s1 = true /\ jobs s1 = jobs s /\
             (running s = false ->
              threads s1 = S (threads s) /\
              bot s1 = (send_message (startup_msg (schedule_time s)) (bot s)).2)).
  { unfold SchedulerLifecycle.start. destruct (running s) eqn:Hr.
    - eexists. split; [reflexivity|]. split; [exact Hr|]. split; [reflexivity|].
      discriminate.
    - unfold and_then, try_except, set_running, start_thread, logger, call_bot. simpl.
      match goal with |- context [send_message ?m ?b] =>
        destruct (send_message m b) as [[[]|e] b1] end;
        (eexists; split; [reflexivity|]; repeat split). }
  destruct Hfirst as (s1 & H1 & Hr1 & Hj1 & Hrest). exists s1. eexists.
  split; [exact H1|]. split; [exact Hr1|]. split; [exact Hj1|]. split; [exact Hrest|].
  unfold SchedulerLifecycle.start at 1. rewrite Hr1.
  split; [reflexivity|]. simpl. repeat split. exact Hr1.
Qed.

(** X22. A scheduler that is stopped and started again runs with nothing to
    run: [stop] clears the registry of the [schedule] module and [start] does
    not set the daily job up again, so after the restart the thread loops over
    an empty list of jobs. *)
Theorem restart_leaves_nothing_scheduled (s : @Scheduler B) :
  exists s1 s2,
    stop s = (Ok tt, s1) /\
    running s1 = false /\ jobs s1 = [] /\
    start s1 = (Ok tt, s2) /\
    running s2 = true /\ jobs s2 = [] /\ threads s2 = S (threads s).
Proof.
  exists (stop s).2.
  assert (Hstart : exists s2,
             start (stop s).2 = (Ok tt, s2) /\
             running s2 = true /\ jobs s2 = [] /\ threads s2 = S (threads s)).
  { unfold SchedulerLifecycle.start, and_then, try_except, set_running, start_thread,
      logger, call_bot. simpl.
    match goal with |- context [send_message ?m ?b] =>
      destruct (send_message m b) as [[[]|e] b1] end;
      (eexists; split; [reflexivity|]; repeat split). }
  destruct Hstart as (s2 & Hstart & Hr & Hj & Ht). exists s2.
  split; [reflexivity|]. split; [reflexivity|]. split; [reflexivity|].
  split; [exact Hstart|]. repeat split; assumption.
Qed.

End LifecycleFacts.

Section LifecycleExamples.

Import MessageScheduler SchedulerLifecycle.

Lemma reschedule_example :
  exists s',
    reschedule (ConfigValidation.check_schedule_time int_ascii) "9 o'clock" morning_scheduler
      = (Ok false, s') /\
    jobs s' = [] /\ schedule_time s' = "9 o'clock".
Proof. eexists. vm_compute. repeat split. Qed.

Lemma start_example :
  exists s',
    start record_send int_ascii no_zones tt new_year_morning morning_scheduler = (Ok tt, s') /\
    timezone s' = "Asia/Riyadh" /\
    bot s' = ["🤖 Daily Message Bot started!" +:+ nl +:+ nl
              +:+ "📅 Next message scheduled for: 2024-01-02 09:00:00 UTC"].
Proof. eexists. vm_compute. repeat split. Qed.

End LifecycleExamples.

(** ** The handlers of incoming messages *)

Section HandlerFacts.

Import LanguageManager LanguageFiles Handlers.

Variable lower : string -> string.
Variable format : string -> list (string * Arg) -> Result string.

Lemma calm_refl (s : Session) : calm s s.
Proof. repeat split. Qed.

Lemma calm_trans (s1 s2 s3 : Session) : calm s1 s2 -> calm s2 s3 -> calm s1 s3.
Proof.
  intros (A1 & A2 & A3 & A4) (B1 & B2 & B3 & B4).
  repeat split; congruence.
Qed.

(** The language the bot works with for a user: the tracker's answer, and
    English without a tracker. *)
Lemma bot_get_user_language_run (habit_tracker : bool) (u : Z) (s : Session) :
  exists s',
    _get_user_language habit_tracker u s =
      (Ok (if habit_tracker
           then if HabitTracker.fails 0 (store s) then "english"
                else default "english"
                       (users.language <$>
                        HabitTracker.users_table (HabitTracker.tables (store s)) !! u)
           else "english"), s') /\
    store s' = (if habit_tracker then (HabitTracker.get_user_language u (store s)).2
                else store s) /\
    calm s s'.
Proof.
  unfold _get_user_language. destruct habit_tracker; simpl.
  - destruct (get_user_language_run u (store s)) as (w' & Hrun & Ht & _).
    unfold try_except, on_store. rewrite Hrun. simpl.
    eexists. split; [reflexivity|]. split; [reflexivity|].
    split; [reflexivity|]. split; [reflexivity|]. simpl. rewrite Ht.
    destruct (HabitTracker.fails 0 (store s)); [split; reflexivity|].
    destruct (HabitTracker.users_table (HabitTracker.tables (store s)) !! u);
      [split; reflexivity|].
    destruct (HabitTracker.fails 1 (store s)); split; reflexivity.
  - exists s. split; [reflexivity|]. split; [reflexivity|]. apply calm_refl.
Qed.

Lemma bot_get_text_run (habit_tracker : bool) (language_manager : option (gmap string Document))
  (u : Z) (category key : string) (kwargs : list (string * Arg)) (s : Session) :
  exists text s',
    _get_text format habit_tracker language_manager u category key kwargs s = (Ok text, s') /\
    calm s s' /\
    text =
      match language_manager with
      | None => "Language system not available"
      | Some languages =>
          get_text format languages
            (if habit_tracker
             then if HabitTracker.fails 0 (store s) then "english"
                  else default "english"
                         (users.language <$>
                          HabitTracker.users_table (HabitTracker.tables (store s)) !! u)
             else "english")
            category key kwargs
      end /\
    store s' = (match language_manager with
                | None => store s
                | Some _ => if habit_tracker
                            then (HabitTracker.get_user_language u (store s)).2
                            else store s
                end).
Proof.
  unfold _get_text. destruct language_manager as [languages|].
  - destruct (bot_get_user_language_run habit_tracker u s) as (s' & Hrun & Hstore & Hcalm).
    unfold and_then. rewrite Hrun. do 2 eexists. split; [reflexivity|].
    split; [exact Hcalm|]. split; [reflexivity|exact Hstore].
  - exists "Language system not available", s.
    split; [reflexivity|]. split; [apply calm_refl|]. split; reflexivity.
Qed.

Lemma last_time_lines_run (habit_tracker : bool)
  (language_manager : option (gmap string Document))
  (u : Z) (stats : option HabitTracker.Stats) (response : string) (s : Session) :
  exists text s',
    last_time_lines format habit_tracker language_manager u stats response s = (Ok text, s') /\
    calm s s'.
Proof.
  unfold last_time_lines.
  destruct stats as [st|]; [|exists response, s; split; [reflexivity|apply calm_refl]].
  destruct (HabitTracker.last_entry st) as [last|];
    [|exists response, s; split; [reflexivity|apply calm_refl]].
  destruct (bot_get_text_run habit_tracker language_manager u "tracking" "last_time"
              [("date", Date (HabitTracker.entry_date last))] s)
    as (line & s1 & Hline & Hcalm1 & _).
  unfold and_then at 1. rewrite Hline.
  destruct (HabitTracker.days_since_last st) as [days|];
    [|do 2 eexists; split; [reflexivity|exact Hcalm1]].
  destruct (days =? 0); [|destruct (days =? 1)];
    match goal with |- context [and_then (_get_text _ _ _ _ ?c ?k ?kw) _ s1] =>
      destruct (bot_get_text_run habit_tracker language_manager u c k kw s1)
        as (line2 & s2 & Hline2 & Hcalm2 & _)
    end;
    unfold and_then; rewrite Hline2;
    (do 2 eexists; split; [reflexivity|exact (calm_trans _ _ _ Hcalm1 Hcalm2)]).
Qed.

(** One call of the Telegram API. *)
Lemma telegram_run (c : ApiCall) (s : Session) :
  exists s',
    telegram c s =
      ((match api s with
        | true :: _ => Raise (ApiException "A request to the Telegram API was unsuccessful")
        | _ => Ok tt
        end), s') /\
    store s' = store s /\ api s' = tail (api s) /\
    sent s' = (sent s ++ match api s with
                         | true :: _ => []
                         | _ => [c]
                         end)%list.
Proof.
  unfold telegram. destruct (api s) as [|[] rest]; simpl;
    (eexists; split; [reflexivity|]; repeat split); rewrite ?app_nil_r; reflexivity.
Qed.

(** Stepping through a [try] block. *)
Lemma try_and_then_ok {S A C} (p : Prog S A) (k : A -> Prog S C) (h : Exn -> Prog S C)
  (s s1 : S) (a : A) :
  p s = (Ok a, s1) ->
  try_except (and_then p k) h s = try_except (k a) h s1.
Proof. intros Hp. unfold try_except, and_then. rewrite Hp. reflexivity. Qed.

Lemma try_and_then_raise {S A C} (p : Prog S A) (k : A -> Prog S C) (h : Exn -> Prog S C)
  (s s1 : S) (e : Exn) :
  p s = (Raise e, s1) ->
  try_except (and_then p k) h s = h e s1.
Proof. intros Hp. unfold try_except, and_then. rewrite Hp. reflexivity. Qed.

(** The reply that ends a handler, with the apology of the [except] branch
    behind it: in the end one reply is attempted, after at most one call of
    the API that failed. *)
Lemma reply_or_apologise (text : string) (h : Exn -> M unit) (s1 : Session) :
  (forall e s', exists text' s2, h e s' = telegram (ReplyTo text') s2 /\ calm s' s2) ->
  exists text2 s2,
    try_except (telegram (ReplyTo text)) h s1 = telegram (ReplyTo text2) s2 /\
    sent s2 = sent s1 /\ entries s2 = entries s1 /\
    (api s2 = api s1 \/ exists rest, api s1 = true :: rest /\ api s2 = rest).
Proof.
  intros Hh. destruct (api s1) as [|[] rest] eqn:Hapi.
  - exists text, s1. unfold try_except, telegram. rewrite Hapi. auto.
  - destruct (Hh (ApiException "A request to the Telegram API was unsuccessful")
                 (mkSession (store s1) rest (sent s1) (log s1)))
      as (text' & s2 & Hrun & (Hs & Ha & He & _)).
    exists text', s2. simpl in Hs, Ha, He.
    split; [unfold try_except; unfold telegram at 1; rewrite Hapi; exact Hrun|].
    split; [exact Hs|]. split; [exact He|]. right. exists rest. auto.
  - exists text, s1. unfold try_except, telegram. rewrite Hapi. auto.
Qed.

Lemma apology_run (habit_tracker : bool) (language_manager : option (gmap string Document))
  (u : Z) (msg : Exn -> string) (key : string) (e : Exn) (s : Session) :
  exists text s2,
    and_then (logger ERROR (msg e))
      (fun _ => and_then (_get_text format habit_tracker language_manager u "tracking" key [])
                  (fun error_text => telegram (ReplyTo error_text))) s
    = telegram (ReplyTo text) s2 /\ calm s s2.
Proof.
  unfold and_then at 1. unfold logger at 1.
  match goal with |- context [and_then _ _ ?s1] =>
    destruct (bot_get_text_run habit_tracker language_manager u "tracking" key [] s1)
      as (text & s2 & Hrun & Hcalm & _)
  end.
  unfold and_then. rewrite Hrun. exists text, s2. split; [reflexivity|exact Hcalm].
Qed.

(** What [track_habit] comes to: the entry is stored or not, and then one
    reply is attempted, after at most one call of the API that failed. *)
Lemma track_habit_shape (habit_tracker : bool)
  (language_manager : option (gmap string Document))
  (u : Z) (text : option string) (s : Session) :
  exists reply s2,
    track_habit format habit_tracker language_manager u text s = telegram (ReplyTo reply) s2 /\
    sent s2 = sent s /\
    entries s2 =
      (entries s ++
       if habit_tracker && negb (HabitTracker.fails 0 (store s))
       then [habit_entries.mkRow
               (HabitTracker.habit_entries_id_seq (HabitTracker.tables (store s))) u
               (HabitTracker.CURRENT_DATE (HabitTracker.clock (store s)))
               (HabitTracker.CURRENT_TIMESTAMP (HabitTracker.clock (store s))) text]
       else [])%list /\
    (api s2 = api s \/ exists rest, api s = true :: rest /\ api s2 = rest).
Proof.
  unfold track_habit.
  set (h := fun e : Exn => and_then (logger ERROR ("Error tracking habit: " +:+ str e)) _).
  assert (Hh : forall e s', exists text' s2,
               h e s' = telegram (ReplyTo text') s2 /\ calm s' s2).
  { intros e s'.
    apply (apology_run habit_tracker language_manager u
             (fun e => "Error tracking habit: " +:+ str e) "error_recording" e s'). }
  destruct habit_tracker; simpl negb; cbv iota.
  - destruct (add_entry_run u text (store s)) as (w' & Hadd & Ht & _).
    destruct (HabitTracker.fails 0 (store s)) eqn:Hf.
    + erewrite try_and_then_raise; cycle 1.
      { unfold on_store. rewrite Hadd. reflexivity. }
      destruct (Hh (OperationalError "server closed the connection unexpectedly")
                   (mkSession w' (api s) (sent s) (log s)))
        as (text' & s2 & -> & (Hs & Ha & He & _)).
      simpl in Hs, Ha, He. exists text', s2. split; [reflexivity|].
      split; [exact Hs|]. split; [|left; exact Ha].
      rewrite He, Ht, app_nil_r. reflexivity.
    + erewrite try_and_then_ok; cycle 1.
      { unfold on_store. rewrite Hadd. reflexivity. }
      simpl.
      set (s1 := mkSession w' (api s) (sent s) (log s)).
      destruct (get_user_stats_run u (store s1))
        as (w1 & w2 & w3 & r1 & r2 & r3 & _ & (Ht1 & _) & _ & (Ht2 & _) & _ & (Ht3 & _) & Hstats).
      erewrite try_and_then_ok; cycle 1.
      { unfold on_store. rewrite Hstats. reflexivity. }
      set (s2 := mkSession w3 (api s1) (sent s1) (log s1)).
      assert (Hcalm2 : calm s1 s2).
      { unfold calm. simpl. rewrite Ht3, Ht2, Ht1. repeat split. }
      destruct (bot_get_text_run true language_manager u "tracking" "entry_recorded" [] s2)
        as (t3 & s3 & Hrun3 & Hcalm3 & _).
      erewrite try_and_then_ok; [|exact Hrun3].
      match goal with |- context [last_time_lines _ _ _ _ ?st ?r] =>
        destruct (last_time_lines_run true language_manager u st r s3)
          as (t4 & s4 & Hrun4 & Hcalm4)
      end.
      erewrite try_and_then_ok; [|exact Hrun4].
      match goal with |- context [_get_text _ _ _ _ ?c ?k ?kw] =>
        destruct (bot_get_text_run true language_manager u c k kw s4)
          as (t5 & s5 & Hrun5 & Hcalm5 & _)
      end.
      erewrite try_and_then_ok; [|exact Hrun5].
      match goal with |- context [_get_text _ _ _ _ ?c ?k ?kw] =>
        destruct (bot_get_text_run true language_manager u c k kw s5)
          as (t6 & s6 & Hrun6 & Hcalm6 & _)
      end.
      erewrite try_and_then_ok; [|exact Hrun6].
      destruct (reply_or_apologise ((t4 +:+ t5) +:+ t6) h s6 Hh)
        as (reply & s7 & -> & Hs7 & He7 & Ha7).
      pose proof (calm_trans _ _ _ Hcalm2
                    (calm_trans _ _ _ Hcalm3
                       (calm_trans _ _ _ Hcalm4 (calm_trans _ _ _ Hcalm5 Hcalm6))))
        as (Hs & Ha & He & _).
      exists reply, s7. split; [reflexivity|].
      split; [rewrite Hs7, Hs; reflexivity|].
      split; [rewrite He7, He; simpl; rewrite Ht; reflexivity|].
      rewrite Ha in Ha7. exact Ha7.
  - destruct (bot_get_text_run false language_manager u "tracking" "failed_to_record" [] s)
      as (t1 & s1 & Hrun1 & (Hs & Ha & He & _) & _).
    erewrite try_and_then_ok; [|exact Hrun1].
    destruct (reply_or_apologise t1 h s1 Hh) as (reply & s2 & -> & Hs2 & He2 & Ha2).
    exists reply, s2. split; [reflexivity|].
    split; [congruence|]. split; [rewrite He2, He, app_nil_r; reflexivity|].
    rewrite Ha in Ha2. exact Ha2.
Qed.

(** X23. While the storage is down, the filter of the habit handler classifies
    every user with the English phrase list, also a user whose row says
    Arabic: [_is_habit_message] returns what [is_habit_message] returns for
    ["english"], raises nothing and leaves the tables alone. *)
Theorem classification_during_outage
  (languages : gmap string Document) (text : string) (u : Z) (s : Session) :
  text <> "" ->
  HabitTracker.fails 0 (store s) = true ->
  exists s',
    _is_habit_message lower true (Some languages) (Some text) u s =
      (Ok (is_habit_message lower (bundle <$> languages) text "english"), s') /\
    HabitTracker.tables (store s') = HabitTracker.tables (store s) /\
    sent s' = sent s.
Proof.
  intros Htext Hf. unfold _is_habit_message.
  destruct (String.eqb_spec text "") as [->|_]; [contradiction|].
  destruct (bot_get_user_language_run true u s) as (s' & Hrun & Hstore & (Hs & _)).
  rewrite Hf in Hrun. unfold and_then. rewrite Hrun.
  exists s'. split; [reflexivity|]. split; [|exact Hs].
  rewrite Hstore. destruct (get_user_language_run u (store s)) as (w' & -> & Ht & _).
  simpl. rewrite Ht, Hf. reflexivity.
Qed.

(** X24. The filter of the habit handler is not read-only: for a user without
    a row, classifying any message that has text (with the storage answering)
    creates the user's row with language ["english"], whether or not the
    message is a habit message; the habit entries are left alone. *)
Theorem classification_registers_new_users
  (languages : gmap string Document) (text : string) (u : Z) (s : Session) :
  text <> "" ->
  HabitTracker.users_table (HabitTracker.tables (store s)) !! u = None ->
  HabitTracker.answers 2 (store s) ->
  exists s',
    _is_habit_message lower true (Some languages) (Some text) u s =
      (Ok (is_habit_message lower (bundle <$> languages) text "english"), s') /\
    users.language <$> HabitTracker.users_table (HabitTracker.tables (store s')) !! u
      = Some "english" /\
    entries s' = entries s /\ sent s' = sent s.
Proof.
  intros Htext Hnew Hup. unfold _is_habit_message.
  destruct (String.eqb_spec text "") as [->|_]; [contradiction|].
  destruct (bot_get_user_language_run true u s) as (s' & Hrun & Hstore & (Hs & _ & He & _)).
  rewrite (answers_at 2 0 _ Hup), Hnew in Hrun by lia. simpl in Hrun.
  unfold and_then. rewrite Hrun.
  exists s'. split; [reflexivity|]. split; [|split; [exact He|exact Hs]].
  rewrite Hstore. destruct (get_user_language_run u (store s)) as (w' & -> & Ht & _).
  simpl. rewrite Ht, (answers_at 2 0 _ Hup), Hnew, (answers_at 2 1 _ Hup) by lia.
  unfold HabitTracker.upsert_language. simpl. rewrite lookup_insert_eq, Hnew. reflexivity.
Qed.

(** X25. Whatever the Telegram API and the later storage interactions do,
    [track_habit] leaves the habit entries as they were plus at most one new
    entry: exactly one, for the sender, with the text of the message as its
    notes, when there is a tracker and its [INSERT] goes through, and none
    otherwise. *)
Theorem track_habit_stores_one_entry
  (habit_tracker : bool) (language_manager : option (gmap string Document))
  (u : Z) (text : option string) (s : Session) :
  entries (track_habit format habit_tracker language_manager u text s).2 =
    (entries s ++
     if habit_tracker && negb (HabitTracker.fails 0 (store s))
     then [habit_entries.mkRow
             (HabitTracker.habit_entries_id_seq (HabitTracker.tables (store s))) u
             (HabitTracker.CURRENT_DATE (HabitTracker.clock (store s)))
             (HabitTracker.CURRENT_TIMESTAMP (HabitTracker.clock (store s))) text]
     else [])%list.
Proof.
  destruct (track_habit_shape habit_tracker language_manager u text s)
    as (reply & s2 & -> & _ & He & _).
  destruct (telegram_run (ReplyTo reply) s2) as (s3 & -> & Hstore & _).
  simpl. rewrite Hstore. exact He.
Qed.

(** X26. [track_habit] puts at most one reply into the chat per message:
    either it returns normally and exactly one reply went through, or it
    raises the error of the Telegram API and no reply went through, which
    happens only when the next call of the API fails. Storage failures never
    make it raise. *)
Theorem track_habit_replies_at_most_once
  (habit_tracker : bool) (language_manager : option (gmap string Document))
  (u : Z) (text : option string) (s : Session) :
  ((track_habit format habit_tracker language_manager u text s).1 = Ok tt /\
   exists reply,
     sent (track_habit format habit_tracker language_manager u text s).2
     = (sent s ++ [ReplyTo reply])%list) \/
  ((track_habit format habit_tracker language_manager u text s).1
   = Raise (ApiException "A request to the Telegram API was unsuccessful") /\
   sent (track_habit format habit_tracker language_manager u text s).2 = sent s /\
   exists rest, api s = true :: rest).
Proof.
  destruct (track_habit_shape habit_tracker language_manager u text s)
    as (reply & s2 & -> & Hs & _ & Ha).
  destruct (telegram_run (ReplyTo reply) s2) as (s3 & -> & _ & _ & Hsent).
  simpl. rewrite Hsent, Hs.
  destruct (api s2) as [|[] rest2] eqn:Hapi2.
  - left. split; [reflexivity|]. eauto.
  - right. split; [reflexivity|]. split; [apply app_nil_r|].
    destruct Ha as [<-|(rest & -> & _)]; eauto.
  - left. split; [reflexivity|]. eauto.
Qed.

(** The answer that [handle_language_callback] prepares, and what preparing
    it does to the store. *)
Lemma language_choice_run (language_manager : option (gmap string Document))
  (u : Z) (language : string) (key : string) (s : Session) :
  exists response s1,
    and_then (on_store (HabitTracker.set_user_language u language))
      (fun _ => _get_text format true language_manager u "language" key []) s
    = (Ok response, s1) /\
    calm s s1 /\
    response =
      match language_manager with
      | None => "Language system not available"
      | Some languages =>
          get_text format languages
            (if HabitTracker.fails 1 (store s) then "english"
             else if HabitTracker.fails 0 (store s)
                  then default "english"
                         (users.language <$>
                          HabitTracker.users_table (HabitTracker.tables (store s)) !! u)
                  else language)
            "language" key []
      end /\
    (HabitTracker.fails 0 (store s) = false ->
     users.language <$> HabitTracker.users_table (HabitTracker.tables (store s1)) !! u
     = Some language) /\
    (HabitTracker.fails 0 (store s) = true -> HabitTracker.fails 1 (store s) = true ->
     HabitTracker.tables (store s1) = HabitTracker.tables (store s)).
Proof.
  destruct (set_user_language_run u language (store s)) as (w1 & Hset & Ht1 & _ & Ho1).
  unfold and_then at 1. unfold on_store at 1. rewrite Hset.
  set (s0 := mkSession w1 (api s) (sent s) (log s)).
  destruct (bot_get_text_run true language_manager u "language" key [] s0)
    as (response & s1 & -> & Hcalm & Htext & Hstore).
  simpl in Htext, Hstore. rewrite (fails_tail 0 (store s) w1 Ho1) in Htext.
  destruct (get_user_language_run u w1) as (w2 & Hget & Ht2 & _).
  rewrite (fails_tail 0 (store s) w1 Ho1), (fails_tail 1 (store s) w1 Ho1) in Ht2.
  exists response, s1. split; [reflexivity|]. split; [|split; [|split]].
  - eapply calm_trans; [|exact Hcalm]. unfold calm. simpl. rewrite Ht1.
    destruct (HabitTracker.fails 0 (store s)); repeat split.
  - rewrite Htext. destruct language_manager as [languages|]; [|reflexivity].
    destruct (HabitTracker.fails 1 (store s)); [reflexivity|].
    rewrite Ht1. destruct (HabitTracker.fails 0 (store s)); [reflexivity|].
    unfold HabitTracker.upsert_language. simpl. rewrite lookup_insert_eq.
    destruct (HabitTracker.users_table (HabitTracker.tables (store s)) !! u); reflexivity.
  - intros Hf. destruct language_manager as [languages|].
    + rewrite Hstore, Hget. simpl. rewrite Ht2, Ht1, Hf.
      assert (Hrow : users.language <$>
                HabitTracker.users_table
                  (HabitTracker.upsert_language u language (HabitTracker.clock (store s))
                     (HabitTracker.tables (store s))).2 !! u = Some language).
      { unfold HabitTracker.upsert_language. simpl. rewrite lookup_insert_eq.
        destruct (HabitTracker.users_table (HabitTracker.tables (store s)) !! u);
          reflexivity. }
      destruct (HabitTracker.fails 1 (store s)); [exact Hrow|].
      set (t1 := (HabitTracker.upsert_language u language (HabitTracker.clock (store s))
                    (HabitTracker.tables (store s))).2) in *.
      destruct (HabitTracker.users_table t1 !! u) as [r|] eqn:Hlook;
        [rewrite Hlook; exact Hrow|discriminate Hrow].
    + rewrite Hstore. simpl. rewrite Ht1, Hf.
      unfold HabitTracker.upsert_language. simpl. rewrite lookup_insert_eq.
      destruct (HabitTracker.users_table (HabitTracker.tables (store s)) !! u); reflexivity.
  - intros Hf0 Hf1. destruct language_manager as [languages|].
    + rewrite Hstore, Hget. simpl. rewrite Ht2, Hf1, Ht1, Hf0. reflexivity.
    + rewrite Hstore. simpl. rewrite Ht1, Hf0. reflexivity.
Qed.

(** The calls that end [handle_language_callback] when the Telegram API
    answers. *)
Lemma callback_tail_run (response : string) (chat message_id : Z) (h : Exn -> M unit)
  (s1 : Session) :
  api s1 = [] ->
  exists s',
    try_except
      (and_then (try_except (telegram (DeleteMessage chat message_id)) (fun _ => ret tt))
         (fun _ => and_then (telegram (SendMessage chat response))
                     (fun _ => telegram (AnswerCallbackQuery None))))
      h s1 = (Ok tt, s') /\
    store s' = store s1 /\
    sent s' = (sent s1 ++ [DeleteMessage chat message_id; SendMessage chat response;
                           AnswerCallbackQuery None])%list.
Proof.
  intros Hapi. unfold try_except, and_then, telegram. rewrite Hapi. simpl.
  eexists. split; [reflexivity|]. split; [reflexivity|].
  simpl. rewrite <- !app_assoc. reflexivity.
Qed.

(** X27. [handle_language_callback] returns normally for every button payload,
    with or without tracker and language manager, whatever the storage and the
    Telegram API do; and it never touches the habit entries. *)
Theorem language_callback_never_raises
  (habit_tracker : bool) (language_manager : option (gmap string Document))
  (u : Z) (data : string) (chat message_id : Z) (s : Session) :
  (handle_language_callback format habit_tracker language_manager u data chat message_id s).1
  = Ok tt /\
  entries
    (handle_language_callback format habit_tracker language_manager u data chat message_id s).2
  = entries s.
Proof.
  unfold handle_language_callback.
  set (h := fun e : Exn => and_then (logger ERROR _) _).
  assert (Hh : forall e s', (h e s').1 = Ok tt /\ entries (h e s').2 = entries s').
  { intros e s'. unfold h, and_then, logger, try_except, telegram. simpl.
    destruct (api s') as [|[] rest]; simpl; split; reflexivity. }
  assert (Hresponse : exists response s1,
    (if negb habit_tracker then ret "❌ Language system not available"
     else if String.eqb data "lang_english" then
       and_then (on_store (HabitTracker.set_user_language u "english"))
         (fun _ => _get_text format habit_tracker language_manager u "language"
                     "changed_to_english" [])
     else if String.eqb data "lang_arabic" then
       and_then (on_store (HabitTracker.set_user_language u "arabic"))
         (fun _ => _get_text format habit_tracker language_manager u "language"
                     "changed_to_arabic" [])
     else _get_text format habit_tracker language_manager u "language" "invalid_choice" []) s
    = (Ok response, s1) /\ calm s s1).
  { destruct habit_tracker; simpl; [|exists "❌ Language system not available", s;
                                      split; [reflexivity|apply calm_refl]].
    destruct (String.eqb data "lang_english");
      [|destruct (String.eqb data "lang_arabic")].
    - destruct (language_choice_run language_manager u "english" "changed_to_english" s)
        as (r & s1 & Hrun & Hcalm & _). eauto.
    - destruct (language_choice_run language_manager u "arabic" "changed_to_arabic" s)
        as (r & s1 & Hrun & Hcalm & _). eauto.
    - destruct (bot_get_text_run true language_manager u "language" "invalid_choice" [] s)
        as (r & s1 & Hrun & Hcalm & _). eauto. }
  destruct Hresponse as (response & s1 & Hresponse & (_ & _ & He & _)).
  erewrite try_and_then_ok; [|exact Hresponse].
  rewrite <- He. clear Hresponse He.
  unfold try_except, and_then, telegram.
  destruct (api s1) as [|[] [|[] [|[] rest]]]; simpl;
    try (split; reflexivity);
    (split; [apply Hh | rewrite (proj2 (Hh _ _)); reflexivity]).
Qed.

(** X28. With storage and Telegram API answering, a press of the English or
    Arabic button stores that language in the user's row, deletes the message
    with the buttons, sends the confirmation taken from the bundle of the
    language just chosen, and answers the callback query, in this order. *)
Theorem language_choice_saved_and_confirmed
  (languages : gmap string Document) (u : Z) (language : string) (chat message_id : Z)
  (s : Session) :
  language = "english" \/ language = "arabic" ->
  HabitTracker.answers 2 (store s) ->
  api s = [] ->
  exists s',
    handle_language_callback format true (Some languages) u ("lang_" +:+ language)
      chat message_id s = (Ok tt, s') /\
    users.language <$> HabitTracker.users_table (HabitTracker.tables (store s')) !! u
    = Some language /\
    sent s' =
      (sent s ++
       [DeleteMessage chat message_id;
        SendMessage chat
          (get_text format languages language "language" ("changed_to_" +:+ language) []);
        AnswerCallbackQuery None])%list.
Proof.
  intros Hchoice Hup Hapi. unfold handle_language_callback.
  set (h := fun e : Exn => and_then (logger ERROR _) _).
  destruct (language_choice_run (Some languages) u language ("changed_to_" +:+ language) s)
    as (response & s1 & Hrun & (Hs & Ha & _) & Htext & Hrow & _).
  rewrite (answers_at 2 0 _ Hup), (answers_at 2 1 _ Hup) in Htext by lia.
  specialize (Hrow (answers_at 2 0 _ Hup ltac:(lia))).
  rewrite Hapi in Ha.
  destruct (callback_tail_run response chat message_id h s1 Ha) as (s' & Htail & Hstore & Hsent).
  exists s'. rewrite Hstore, Hsent, Hs, <- Htext. split; [|split; [exact Hrow|reflexivity]].
  rewrite <- Htail. destruct Hchoice as [-> | ->];
    (erewrite try_and_then_ok; [reflexivity|exact Hrun]).
Qed.

(** X29. The result of [set_user_language] is not looked at: when the storage
    is down for the upsert and for the lookup that follows, a press of a
    language button changes no table, yet the user is sent the confirmation
    that the language was changed (in English, the fallback of the failed
    lookup). *)
Theorem language_choice_confirmed_though_unsaved
  (languages : gmap string Document) (u : Z) (language : string) (chat message_id : Z)
  (s : Session) :
  language = "english" \/ language = "arabic" ->
  HabitTracker.fails 0 (store s) = true ->
  HabitTracker.fails 1 (store s) = true ->
  api s = [] ->
  exists s',
    handle_language_callback format true (Some languages) u ("lang_" +:+ language)
      chat message_id s = (Ok tt, s') /\
    HabitTracker.tables (store s') = HabitTracker.tables (store s) /\
    sent s' =
      (sent s ++
       [DeleteMessage chat message_id;
        SendMessage chat
          (get_text format languages "english" "language" ("changed_to_" +:+ language) []);
        AnswerCallbackQuery None])%list.
Proof.
  intros Hchoice Hf0 Hf1 Hapi. unfold handle_language_callback.
  set (h := fun e : Exn => and_then (logger ERROR _) _).
  destruct (language_choice_run (Some languages) u language ("changed_to_" +:+ language) s)
    as (response & s1 & Hrun & (Hs & Ha & _) & Htext & _ & Hsame).
  rewrite Hf1 in Htext. specialize (Hsame Hf0 Hf1). rewrite Hapi in Ha.
  destruct (callback_tail_run response chat message_id h s1 Ha) as (s' & Htail & Hstore & Hsent).
  exists s'. rewrite Hstore, Hsent, Hs, <- Htext. split; [|split; [exact Hsame|reflexivity]].
  rewrite <- Htail. destruct Hchoice as [-> | ->];
    (erewrite try_and_then_ok; [reflexivity|exact Hrun]).
Qed.

End HandlerFacts.

Section HandlerExamples.

Import LanguageManager LanguageFiles Handlers.

Lemma classification_during_outage_witness :
  exists s',
    _is_habit_message ascii_lower true (Some (__init__ (Ok english_file) (Ok arabic_file)))
      (Some "I did it again") 7 (session_on (HabitTracker.arabic_world [true])) =
      (Ok (is_habit_message ascii_lower
             (bundle <$> __init__ (Ok english_file) (Ok arabic_file))
             "I did it again" "english"), s') /\
    HabitTracker.tables (store s') =
      HabitTracker.tables (store (session_on (HabitTracker.arabic_world [true]))) /\
    sent s' = sent (session_on (HabitTracker.arabic_world [true])).
Proof.
  apply (classification_during_outage ascii_lower
           (__init__ (Ok english_file) (Ok arabic_file)) "I did it again" 7
           (session_on (HabitTracker.arabic_world [true]))).
  - discriminate.
  - reflexivity.
Defined.

Lemma classification_registers_new_users_witness :
  exists s',
    _is_habit_message ascii_lower true (Some (__init__ (Ok english_file) (Ok arabic_file)))
      (Some "good morning") 7 (session_on (HabitTracker.fresh_world [])) =
      (Ok (is_habit_message ascii_lower
             (bundle <$> __init__ (Ok english_file) (Ok arabic_file))
             "good morning" "english"), s') /\
    users.language <$> HabitTracker.users_table (HabitTracker.tables (store s')) !! 7
      = Some "english" /\
    entries s' = entries (session_on (HabitTracker.fresh_world [])) /\
    sent s' = sent (session_on (HabitTracker.fresh_world [])).
Proof.
  apply (classification_registers_new_users ascii_lower
           (__init__ (Ok english_file) (Ok arabic_file)) "good morning" 7
           (session_on (HabitTracker.fresh_world []))).
  - discriminate.
  - reflexivity.
  - reflexivity.
Defined.

Lemma language_choice_saved_and_confirmed_witness :
  exists s',
    handle_language_callback no_format true
      (Some (__init__ (Ok english_file) (Ok arabic_file))) 7 ("lang_" +:+ "arabic") 7 41
      (session_on (HabitTracker.fresh_world [])) = (Ok tt, s') /\
    users.language <$> HabitTracker.users_table (HabitTracker.tables (store s')) !! 7
    = Some "arabic" /\
    sent s' =
      (sent (session_on (HabitTracker.fresh_world [])) ++
       [DeleteMessage 7 41;
        SendMessage 7
          (get_text no_format (__init__ (Ok english_file) (Ok arabic_file)) "arabic"
             "language" ("changed_to_" +:+ "arabic") []);
        AnswerCallbackQuery None])%list.
Proof.
  apply (language_choice_saved_and_confirmed no_format
           (__init__ (Ok english_file) (Ok arabic_file)) 7 "arabic" 7 41
           (session_on (HabitTracker.fresh_world []))).
  - right. reflexivity.
  - reflexivity.
  - reflexivity.
Defined.

Lemma language_choice_confirmed_though_unsaved_witness :
  exists s',
    handle_language_callback no_format true
      (Some (__init__ (Ok english_file) (Ok arabic_file))) 7 ("lang_" +:+ "arabic") 7 41
      (session_on (HabitTracker.fresh_world [true; true])) = (Ok tt, s') /\
    HabitTracker.tables (store s') =
      HabitTracker.tables (store (session_on (HabitTracker.fresh_world [true; true]))) /\
    sent s' =
      (sent (session_on (HabitTracker.fresh_world [true; true])) ++
       [DeleteMessage 7 41;
        SendMessage 7
          (get_text no_format (__init__ (Ok english_file) (Ok arabic_file)) "english"
             "language" ("changed_to_" +:+ "arabic") []);
        AnswerCallbackQuery None])%list.
Proof.
  apply (language_choice_confirmed_though_unsaved no_format
           (__init__ (Ok english_file) (Ok arabic_file)) 7 "arabic" 7 41
           (session_on (HabitTracker.fresh_world [true; true]))).
  - right. reflexivity.
  - reflexivity.
  - reflexivity.
  - reflexivity.
Defined.

(** A habit message of a user on record, with everything answering: the
    entry is stored with the text as its notes and one reply goes out. *)
Lemma track_habit_example :
  exists s',
    track_habit no_format true (Some (__init__ (Ok english_file) (Ok arabic_file)))
      7 (Some "I did it again") (session_on (HabitTracker.one_entry_world [])) = (Ok tt, s') /\
    habit_entries.notes <$> entries s' = [None; Some "I did it again"] /\
    length (sent s') = 1%nat.
Proof. eexists. vm_compute. repeat split. Qed.

End HandlerExamples.

(** ** The file of sent messages *)

Section SentLogFacts.

Import SentLog.

Context {Char : Type}.
Variable dot : Char.

(** X30. When [sent_messages.log] is missing, is not JSON, or holds a list,
    and can be written, [_log_sent_message] leaves a list that ends with the
    new entry, keeps the most recent of the old entries in their order, and
    never holds more than 100 entries: it has [min(old + 1, 100)] of them. The
    text on record is the message itself up to 100 characters, and its first
    100 characters followed by three full stops beyond that. *)
Theorem sent_log_stays_bounded
  (now chat : string) (text : list Char) (file : LogFile (Char := Char))
  (old : list Entry) :
  (file = Logs old \/ ((file = Missing \/ file = Garbled) /\ old = [])) ->
  exists kept,
    _log_sent_message dot now chat Written text file =
      Logs (kept ++ [mkEntry now (shorten dot text) chat]) /\
    kept `suffix_of` old /\
    length (kept ++ [mkEntry now (shorten dot text) chat]) = ((length old + 1) `min` 100)%nat /\
    (length (shorten dot text) <= 103)%nat /\
    take 100 (shorten dot text) = take 100 text /\
    ((length text <= 100)%nat -> shorten dot text = text).
Proof.
  intros Hfile.
  assert (Hrun : _log_sent_message dot now chat Written text file =
                 Logs (drop (length (old ++ [mkEntry now (shorten dot text) chat]) - 100)
                            (old ++ [mkEntry now (shorten dot text) chat]))).
  { destruct Hfile as [-> | [[-> | ->] ->]]; reflexivity. }
  rewrite Hrun. clear Hrun Hfile.
  exists (drop (length old + 1 - 100) old).
  rewrite length_app. simpl length.
  split; [|split; [|split; [|split; [|split]]]].
  - f_equal. rewrite drop_app. f_equal.
    replace (length old + 1 - 100 - length old)%nat with 0%nat by lia. reflexivity.
  - apply suffix_drop.
  - rewrite length_app, length_drop. cbn [length]. lia.
  - unfold shorten. destruct (Nat.ltb_spec 100 (length text)).
    + rewrite length_app, length_take. cbn [length]. lia.
    + lia.
  - unfold shorten. destruct (Nat.ltb_spec 100 (length text)); [|reflexivity].
    rewrite take_app_le by (rewrite length_take; lia).
    rewrite take_take. reflexivity.
  - intros Hlen. unfold shorten. destruct (Nat.ltb_spec 100 (length text)); [lia|reflexivity].
Qed.

End SentLogFacts.

Section SentLogExamples.

Import SentLog.

Lemma sent_log_stays_bounded_witness :
  exists kept,
    _log_sent_message "."%char "2024-01-01T10:00:00" "12345" Written
      (list_ascii_of_string "Stay mindful today!") Missing =
      Logs (kept ++ [mkEntry "2024-01-01T10:00:00"
                       (shorten "."%char (list_ascii_of_string "Stay mindful today!"))
                       "12345"]) /\
    kept `suffix_of` [] /\
    length (kept ++ [mkEntry "2024-01-01T10:00:00"
                       (shorten "."%char (list_ascii_of_string "Stay mindful today!"))
                       "12345"]) = ((length ([] : list (Entry (Char := ascii))) + 1) `min` 100)%nat /\
    (length (shorten "."%char (list_ascii_of_string "Stay mindful today!")) <= 103)%nat /\
    take 100 (shorten "."%char (list_ascii_of_string "Stay mindful today!"))
      = take 100 (list_ascii_of_string "Stay mindful today!") /\
    ((length (list_ascii_of_string "Stay mindful today!") <= 100)%nat ->
     shorten "."%char (list_ascii_of_string "Stay mindful today!")
     = list_ascii_of_string "Stay mindful today!").
Proof.
  apply (sent_log_stays_bounded "."%char "2024-01-01T10:00:00" "12345"
           (list_ascii_of_string "Stay mindful today!") Missing []).
  right. split; [left; reflexivity|reflexivity].
Defined.

End SentLogExamples.
